(** * Replay: fingerprinting, matching and mismatch diagnosis

    A shallow embedding of the Go package [replay] (HAR-backed HTTP replay
    transport) together with the parts of the Go libraries it calls
    ([crypto/sha256], [encoding/hex], [encoding/base64], [net/http],
    [net/http/httputil], [github.com/pkg/errors]).

    Conventions.
    - A Go [string] or [[]byte] is a Rocq [string] (a sequence of bytes).
    - A Go [error] is [option string]: [None] is [nil], [Some m] is an error
      whose [Error()] text is [m].
    - A Go [map[string]V] is a [gmap string V].
    - A function that mutates a request through its pointer returns the
      request it leaves behind; the readers that request bodies point to
      live in a store that is threaded through.
    - A run that panics is [Panics]; every other run is [Returns]. *)

From Stdlib Require Import ZArith Ascii String List Permutation Sorted Lia.
From stdpp Require Import base option list sorting gmap strings pretty.

Local Open Scope Z_scope.

(* ===================================================================== *)
(** ** Bytes *)

Definition bytes_of (s : string) : list Z :=
  map (fun c => Z.of_N (N_of_ascii c)) (String.list_ascii_of_string s).

Definition byte_to_ascii (b : Z) : ascii := ascii_of_N (Z.to_N (b mod 256)).

Definition string_of_bytes (l : list Z) : string :=
  String.string_of_list_ascii (map byte_to_ascii l).

Definition CR : ascii := ascii_of_nat 13.
Definition LF : ascii := ascii_of_nat 10.
Definition CRLF : string := String CR (String LF EmptyString).
Definition DQUOTE : string := String (ascii_of_nat 34) EmptyString.

(** [len(s)] as a Go [int]. *)
Definition len (s : string) : Z := Z.of_nat (String.length s).

(* ===================================================================== *)
(** ** crypto/sha256 (FIPS 180-4) and encoding/hex *)

Module sha256.

Definition w32 (x : Z) : Z := Z.land x 4294967295.
Definition add32 (x y : Z) : Z := w32 (x + y).
Definition rotr (n x : Z) : Z := Z.lor (Z.shiftr x n) (w32 (Z.shiftl x (32 - n))).
Definition Ch (x y z : Z) : Z := Z.lxor (Z.land x y) (Z.land (w32 (Z.lnot x)) z).
Definition Maj (x y z : Z) : Z :=
  Z.lxor (Z.lxor (Z.land x y) (Z.land x z)) (Z.land y z).
Definition Sigma0 (x : Z) : Z := Z.lxor (Z.lxor (rotr 2 x) (rotr 13 x)) (rotr 22 x).
Definition Sigma1 (x : Z) : Z := Z.lxor (Z.lxor (rotr 6 x) (rotr 11 x)) (rotr 25 x).
Definition sigma0 (x : Z) : Z := Z.lxor (Z.lxor (rotr 7 x) (rotr 18 x)) (Z.shiftr x 3).
Definition sigma1 (x : Z) : Z := Z.lxor (Z.lxor (rotr 17 x) (rotr 19 x)) (Z.shiftr x 10).

(** The constants of the standard are defined from the first primes: the
    round constants are the first 32 bits of the fractional parts of the
    cube roots of the first 64 primes, the initial hash value the first 32
    bits of the fractional parts of the square roots of the first 8. *)
Definition isPrime (n : nat) : bool :=
  forallb (fun d => negb (Nat.eqb (n mod d) 0)) (seq 2 (n - 2)).

Definition primes : list Z :=
  map Z.of_nat (List.filter isPrime (seq 2 310)).

(** The integer cube root, found bit by bit from the top. *)
Fixpoint cbrtBits (bits : nat) (n root : Z) : Z :=
  match bits with
  | O => root
  | S b =>
      let candidate := root + Z.shiftl 1 (Z.of_nat b) in
      cbrtBits b n (if candidate * candidate * candidate <=? n then candidate else root)
  end.

Definition fractionOfCubeRoot (p : Z) : Z := w32 (cbrtBits 40 (Z.shiftl p 96) 0).
Definition fractionOfSquareRoot (p : Z) : Z := w32 (Z.sqrt (Z.shiftl p 64)).

Definition K : list Z := Eval vm_compute in map fractionOfCubeRoot (firstn 64 primes).

Definition H0 : list Z := Eval vm_compute in map fractionOfSquareRoot (firstn 8 primes).

(** Big-endian encoding of [x] on [n] bytes. *)
Fixpoint be_bytes (n : nat) (x : Z) : list Z :=
  match n with
  | O => []
  | S m => Z.land (Z.shiftr x (8 * Z.of_nat m)) 255 :: be_bytes m x
  end.

Definition pad (msg : list Z) : list Z :=
  let l := Z.of_nat (length msg) in
  let k := (55 - l) mod 64 in
  msg ++ [128] ++ repeat 0 (Z.to_nat k) ++ be_bytes 8 (8 * l).

Fixpoint words_of (n : nat) (bs : list Z) : list Z :=
  match n, bs with
  | S m, b0 :: b1 :: b2 :: b3 :: rest =>
      (Z.shiftl b0 24 + Z.shiftl b1 16 + Z.shiftl b2 8 + b3) :: words_of m rest
  | _, _ => []
  end.

(** One round: the working variables [a..h], the round constant and the
    current word of the message schedule. *)
Definition round (st : list Z) (k w : Z) : list Z :=
  match st with
  | [a; b; c; d; e; f; g; h] =>
      let t1 := add32 (add32 (add32 (add32 h (Sigma1 e)) (Ch e f g)) k) w in
      let t2 := add32 (Sigma0 a) (Maj a b c) in
      [add32 t1 t2; a; b; c; add32 d t1; e; f; g]
  | _ => st
  end.

(** The message schedule is kept as a sliding window of sixteen words
    [W t .. W (t+15)]. *)
Definition next_window (ws : list Z) : list Z :=
  match ws with
  | w0 :: rest =>
      let w1 := nth 0 rest 0 in
      let w9 := nth 8 rest 0 in
      let w14 := nth 13 rest 0 in
      rest ++ [add32 (add32 (add32 (sigma1 w14) w9) (sigma0 w1)) w0]
  | [] => []
  end.

Fixpoint rounds (ks : list Z) (ws : list Z) (st : list Z) : list Z :=
  match ks with
  | [] => st
  | k :: ks' => rounds ks' (next_window ws) (round st k (nth 0 ws 0))
  end.

Definition compress (h : list Z) (block : list Z) : list Z :=
  let st := rounds K (words_of 16 block) h in
  map (fun p => add32 (fst p) (snd p)) (combine h st).

Fixpoint blocks (n : nat) (bs : list Z) (h : list Z) : list Z :=
  match n with
  | O => h
  | S m => blocks m (skipn 64 bs) (compress h (firstn 64 bs))
  end.

(** [sha256.Sum256]: the 32 digest bytes. *)
Definition Sum (msg : string) : list Z :=
  let p := pad (bytes_of msg) in
  flat_map (be_bytes 4) (blocks (length p / 64)%nat p H0).

End sha256.

Module hex.

Definition digit (n : Z) : ascii :=
  if n <? 10 then ascii_of_N (Z.to_N (48 + n)) else ascii_of_N (Z.to_N (87 + n)).

(** [hex.EncodeToString]: two lowercase digits per byte. *)
Fixpoint EncodeToString (bs : list Z) : string :=
  match bs with
  | [] => EmptyString
  | b :: rest => String (digit (b / 16)) (String (digit (b mod 16)) (EncodeToString rest))
  end.

(** [%x] of a non-negative number: lowercase hexadecimal, no leading zero. *)
Fixpoint format_pos (fuel : nat) (n : Z) (acc : string) : string :=
  match fuel with
  | O => acc
  | S f =>
      let acc' := String (digit (n mod 16)) acc in
      if n <? 16 then acc' else format_pos f (n / 16) acc'
  end.

Definition Format (n : Z) : string := format_pos (S (Z.to_nat (Z.log2 n))) n EmptyString.

End hex.

(* ===================================================================== *)
(** ** encoding/base64: [StdEncoding.DecodeString] *)

Module base64.

(** The standard alphabet: the sextet a byte stands for, if any. *)
Definition decodeMap (c : ascii) : option Z :=
  let n := Z.of_N (N_of_ascii c) in
  if (65 <=? n) && (n <=? 90) then Some (n - 65)
  else if (97 <=? n) && (n <=? 122) then Some (n - 71)
  else if (48 <=? n) && (n <=? 57) then Some (n + 4)
  else if n =? 43 then Some 62
  else if n =? 47 then Some 63
  else None.

Definition isPad (c : ascii) : bool := Z.of_N (N_of_ascii c) =? 61.
Definition isNewline (c : ascii) : bool :=
  let n := Z.of_N (N_of_ascii c) in (n =? 10) || (n =? 13).

Fixpoint skipNewlines (s : list ascii) : list ascii :=
  match s with
  | c :: rest => if isNewline c then skipNewlines rest else s
  | [] => []
  end.

(** The bytes of a quantum of [n] sextets (2, 3 or 4 of them). *)
Definition quantum (q : list Z) : list Z :=
  let val := Z.shiftl (nth 0 q 0) 18 + Z.shiftl (nth 1 q 0) 12
             + Z.shiftl (nth 2 q 0) 6 + nth 3 q 0 in
  firstn (length q - 1)%nat
    [Z.land (Z.shiftr val 16) 255; Z.land (Z.shiftr val 8) 255; Z.land val 255].

(** [decode src q]: [q] holds the sextets of the quantum being read.
    Returns the decoded bytes and whether the input was corrupt; as in Go,
    the bytes decoded before the corruption are still returned. *)
Fixpoint decode (src : list ascii) (q : list Z) : list Z * bool :=
  match src with
  | [] =>
      match q with
      | [] => ([], false)
      | _ => ([], true)
      end
  | c :: rest =>
      match decodeMap c with
      | Some v =>
          if (length q =? 3)%nat
          then let '(out, bad) := decode rest [] in (quantum (q ++ [v]) ++ out, bad)
          else decode rest (q ++ [v])
      | None =>
          if isNewline c then decode rest q
          else if isPad c then
            match length q with
            | 2%nat =>
                match skipNewlines rest with
                | c2 :: rest2 =>
                    if isPad c2
                    then (quantum q, negb (bool_decide (skipNewlines rest2 = [])))
                    else ([], true)
                | [] => ([], true)
                end
            | 3%nat => (quantum q, negb (bool_decide (skipNewlines rest = [])))
            | _ => ([], true)
            end
          else ([], true)
      end
  end.

Definition DecodeString (s : string) : string * bool :=
  let '(out, bad) := decode (String.list_ascii_of_string s) [] in
  (string_of_bytes out, bad).

End base64.

(* ===================================================================== *)
(** ** Errors and panics *)

Definition error : Type := option string.

(** github.com/pkg/errors: [New] always makes an error; [Wrap] and [Wrapf]
    annotate an error and return [nil] when given [nil]. The stack trace
    they record is not part of the message and is left out. *)
Module errors.

Definition New (message : string) : error := Some message.

Definition Wrap (err : error) (message : string) : error :=
  match err with
  | None => None
  | Some cause => Some (message +:+ ": " +:+ cause)
  end.

(** [message] is the result of formatting [format] with its arguments. *)
Definition Wrapf (err : error) (message : string) : error := Wrap err message.

End errors.

Inductive Outcome (A : Type) : Type :=
| Returns (a : A)
| Panics (reason : string).
Arguments Returns {A} a.
Arguments Panics {A} reason.

#[global] Instance Outcome_bind : MBind Outcome := fun A B k m =>
  match m with
  | Returns a => k a
  | Panics why => Panics why
  end.

#[global] Instance Outcome_ret : MRet Outcome := fun A a => Returns a.

(* ===================================================================== *)
(** ** Readers and the store

    An [io.Reader] is a place in a store that holds, for every reader, the
    bytes the reader has yet to deliver. Two requests whose bodies are the
    same reader share one place. A function that reads, creates or hands
    out readers is a computation [M] over the store. *)

Abbreviation loc := nat.
Abbreviation Store := (list string).

Definition unread (σ : Store) (l : loc) : string := default "" (σ !! l).

Definition M (A : Type) : Type := Store -> Outcome (A * Store).

#[global] Instance M_ret : MRet M := fun A a σ => Returns (a, σ).

#[global] Instance M_bind : MBind M := fun A B k m σ =>
  match m σ with
  | Returns (a, σ') => k a σ'
  | Panics why => Panics why
  end.

Definition panic {A : Type} (why : string) : M A := fun _ => Panics why.

Module io.

(** [bytes.NewReader], [bytes.NewBufferString], a [bytes.Buffer] that was
    filled: a new reader over [content]. *)
Definition NewReader (content : string) : M loc :=
  fun σ => Returns (length σ, σ ++ [content]).

(** [io.ReadAll], [bytes.Buffer.ReadFrom]: everything the reader has left;
    the reader is then at its end. *)
Definition ReadAll (l : loc) : M string :=
  fun σ => Returns (unread σ l, <[l := ""]> σ).

End io.

(* ===================================================================== *)
(** ** net/http and net/url

    The part of the Go library that [httputil.DumpRequestOut] runs when it
    writes an outgoing request to its recording connection. Hosts, paths and
    queries are taken to be plain ASCII that needs neither percent-escaping
    nor IDNA conversion, and are written verbatim. The request fields
    [Close], [TransferEncoding] and [Trailer] are empty in every request
    this package builds and are left out. *)

Module url.

Record URL : Type := mkURL {
  Scheme : string;
  Host : string;
  Path : string;
  RawQuery : string;
}.

#[global] Instance URL_eq_dec : EqDecision URL.
Proof. solve_decision. Defined.

(** [URL.RequestURI]: the path, or a slash when it is empty, and the query. *)
Definition RequestURI (u : URL) : string :=
  (if decide (Path u = "") then "/" else Path u)
  +:+ (if decide (RawQuery u = "") then "" else "?" +:+ RawQuery u).

Definition isCTL (c : ascii) : bool :=
  let n := Z.of_N (N_of_ascii c) in (n <? 32) || (n =? 127).

Fixpoint stringContainsCTLByte (s : string) : bool :=
  match s with
  | EmptyString => false
  | String c rest => isCTL c || stringContainsCTLByte rest
  end.

Definition isLetter (c : ascii) : bool :=
  let n := Z.of_N (N_of_ascii c) in
  ((65 <=? n) && (n <=? 90)) || ((97 <=? n) && (n <=? 122)).

Definition isSchemeByte (c : ascii) : bool :=
  let n := Z.of_N (N_of_ascii c) in
  isLetter c || ((48 <=? n) && (n <=? 57)) || (n =? 43) || (n =? 45) || (n =? 46).

Definition toLower (c : ascii) : ascii :=
  let n := Z.of_N (N_of_ascii c) in
  if (65 <=? n) && (n <=? 90) then ascii_of_N (Z.to_N (n + 32)) else c.

Fixpoint lower (s : string) : string :=
  match s with
  | EmptyString => EmptyString
  | String c rest => String (toLower c) (lower rest)
  end.

(** [cut sep s]: the text before the first [sep] and the text after it. *)
Fixpoint cut (sep : ascii) (s : string) : string * option string :=
  match s with
  | EmptyString => (EmptyString, None)
  | String c rest =>
      if decide (c = sep) then (EmptyString, Some rest)
      else let '(a, b) := cut sep rest in (String c a, b)
  end.

(** [getScheme]: [Some (scheme, rest)], or [None] for "missing protocol
    scheme". *)
Fixpoint getScheme (fuel : string) (acc : string) (whole : string)
  : option (string * string) :=
  match fuel with
  | EmptyString => Some (EmptyString, whole)
  | String c rest =>
      if isLetter c then getScheme rest (acc +:+ String c EmptyString) whole
      else if isSchemeByte c then
        (if decide (acc = "") then Some (EmptyString, whole)
         else getScheme rest (acc +:+ String c EmptyString) whole)
      else if decide (c = ":"%char) then
        (if decide (acc = "") then None else Some (acc, rest))
      else Some (EmptyString, whole)
  end.

(** Where the authority of ["//host/path"] ends. *)
Fixpoint splitAuthority (s : string) : string * string :=
  match s with
  | EmptyString => (EmptyString, EmptyString)
  | String c rest =>
      if decide (c = "/"%char) then (EmptyString, s)
      else let '(a, b) := splitAuthority rest in (String c a, b)
  end.

(** [url.Parse] for URLs of the shape [scheme://host/path?query#fragment];
    user information and opaque URLs are not modelled. [None] is a parse
    error. *)
Definition Parse (rawURL : string) : option URL :=
  let '(u, _) := cut "#"%char rawURL in
  if stringContainsCTLByte u then None
  else
    match getScheme u "" u with
    | None => None
    | Some (scheme, rest) =>
        let '(rest, query) := cut "?"%char rest in
        let query := default "" query in
        match rest with
        | String "/" (String "/" more) =>
            let '(authority, path) := splitAuthority more in
            Some (mkURL (lower scheme) authority path query)
        | _ => Some (mkURL (lower scheme) "" rest query)
        end
    end.

End url.

Module http.

(** *** Header *)

(** [http.Header] is [map[string][]string]. *)
Abbreviation Header := (gmap string (list string)).

(** [httpguts.IsTokenRune] on a byte. *)
Definition isTokenByte (c : ascii) : bool :=
  let n := Z.of_N (N_of_ascii c) in
  ((48 <=? n) && (n <=? 57)) || ((65 <=? n) && (n <=? 90))
  || ((97 <=? n) && (n <=? 122))
  || bool_decide (n ∈ [33; 35; 36; 37; 38; 39; 42; 43; 45; 46; 94; 95; 96; 124; 126]).

Fixpoint allBytes (p : ascii -> bool) (s : string) : bool :=
  match s with
  | EmptyString => true
  | String c rest => p c && allBytes p rest
  end.

Definition toUpper (c : ascii) : ascii :=
  let n := Z.of_N (N_of_ascii c) in
  if (97 <=? n) && (n <=? 122) then ascii_of_N (Z.to_N (n - 32)) else c.

(** Upper case for the first letter and for a letter after a hyphen,
    lower case elsewhere. *)
Fixpoint canonicalize (upper : bool) (s : string) : string :=
  match s with
  | EmptyString => EmptyString
  | String c rest =>
      let c' := if upper then toUpper c else url.toLower c in
      String c' (canonicalize (if decide (c' = "-"%char) then true else false) rest)
  end.

(** [textproto.CanonicalMIMEHeaderKey]: a key holding a byte that is not a
    token byte is returned unchanged. *)
Definition CanonicalMIMEHeaderKey (s : string) : string :=
  if allBytes isTokenByte s then canonicalize true s else s.

Definition Add (h : Header) (key value : string) : Header :=
  let k := CanonicalMIMEHeaderKey key in
  <[k := default [] (h !! k) ++ [value]]> h.

Definition Get (h : Header) (key : string) : string :=
  match h !! CanonicalMIMEHeaderKey key with
  | Some (v :: _) => v
  | _ => ""
  end.


Definition Del (h : Header) (key : string) : Header :=
  delete (CanonicalMIMEHeaderKey key) h.

(** [Header.has]: the key as given is present. *)
Definition has (h : Header) (key : string) : bool := bool_decide (is_Some (h !! key)).

(** *** Request and Response *)

(** An [io.ReadCloser] body: absent, the [http.NoBody] sentinel, or a
    reader. The reader is a place of the store in a request as the program
    holds it, and the bytes it delivers in a request as it is seen on the
    wire. *)
Inductive Body (R : Type) : Type :=
| BodyNil
| NoBody
| Reader (reader : R).
Arguments BodyNil {R}.
Arguments NoBody {R}.
Arguments Reader {R} reader.

Definition mapBody {R R' : Type} (f : R -> R') (b : Body R) : Body R' :=
  match b with
  | BodyNil => BodyNil
  | NoBody => NoBody
  | Reader reader => Reader (f reader)
  end.

(** Reading a body to its end. *)
Definition ReadFrom (b : Body loc) : M string :=
  match b with
  | Reader l => io.ReadAll l
  | _ => mret ""
  end.

Record Request (R : Type) : Type := mkRequest {
  Method : string;
  URL : option url.URL;
  Proto : string;
  ProtoMajor : Z;
  ProtoMinor : Z;
  Hdr : Header;
  Body_ : Body R;
  ContentLength : Z;
  Host : string;
}.
Arguments mkRequest {R}.
Arguments Method {R}.
Arguments URL {R}.
Arguments Proto {R}.
Arguments ProtoMajor {R}.
Arguments ProtoMinor {R}.
Arguments Hdr {R}.
Arguments Body_ {R}.
Arguments ContentLength {R}.
Arguments Host {R}.

Definition withHeader {R : Type} (r : Request R) (h : Header) : Request R :=
  mkRequest (Method r) (URL r) (Proto r) (ProtoMajor r) (ProtoMinor r)
            h (Body_ r) (ContentLength r) (Host r).

Definition withBody {R R' : Type} (r : Request R) (b : Body R') : Request R' :=
  mkRequest (Method r) (URL r) (Proto r) (ProtoMajor r) (ProtoMinor r)
            (Hdr r) b (ContentLength r) (Host r).

(** [Request.Clone]: a deep copy of the struct, the URL and the header map;
    the body of the copy is the very reader of the original. *)
Definition Clone (r : Request loc) : Request loc := r.

(** [r.Body != nil && r.Body != http.NoBody]. *)
Definition hasBody {R : Type} (r : Request R) : bool :=
  match Body_ r with
  | Reader _ => true
  | _ => false
  end.

Record Response (R : Type) : Type := mkResponse {
  Status : string;
  StatusCode : Z;
  RespProto : string;
  RespProtoMajor : Z;
  RespProtoMinor : Z;
  RespHeader : Header;
  RespBody : Body R;
  RespContentLength : Z;
}.
Arguments mkResponse {R}.
Arguments Status {R}.
Arguments StatusCode {R}.
Arguments RespProto {R}.
Arguments RespProtoMajor {R}.
Arguments RespProtoMinor {R}.
Arguments RespHeader {R}.
Arguments RespBody {R}.
Arguments RespContentLength {R}.

Definition digitValue (c : ascii) : option Z :=
  let n := Z.of_N (N_of_ascii c) in
  if (48 <=? n) && (n <=? 57) then Some (n - 48) else None.

(** [http.ParseHTTPVersion]: the text [HTTP/X.Y] with one digit each. *)
Definition ParseHTTPVersion (vers : string) : Z * Z * bool :=
  match vers with
  | String "H" (String "T" (String "T" (String "P" (String "/"
      (String x (String "." (String y EmptyString))))))) =>
      match digitValue x, digitValue y with
      | Some major, Some minor => (major, minor, true)
      | _, _ => (0, 0, false)
      end
  | _ => (0, 0, false)
  end.

(** *** Writing a request to the wire *)

Definition valueOrDefault (value def : string) : string :=
  if decide (value = "") then def else value.

Definition isASCIISpace (c : ascii) : bool :=
  let n := Z.of_N (N_of_ascii c) in (n =? 32) || (n =? 9) || (n =? 10) || (n =? 13).

Fixpoint headerNewlineToSpace (s : string) : string :=
  match s with
  | EmptyString => EmptyString
  | String c rest =>
      String (if base64.isNewline c then " "%char else c) (headerNewlineToSpace rest)
  end.

Fixpoint trimLeft (s : string) : string :=
  match s with
  | EmptyString => EmptyString
  | String c rest => if isASCIISpace c then trimLeft rest else s
  end.

(** [textproto.TrimString]. *)
Definition TrimString (s : string) : string :=
  String.rev (trimLeft (String.rev (trimLeft s))).

(** [httpguts.ValidHeaderFieldName], [ValidHeaderFieldValue] and
    [validMethod]. *)
Definition ValidHeaderFieldName (k : string) : bool :=
  negb (bool_decide (k = "")) && allBytes isTokenByte k.

Definition isLWS (c : ascii) : bool :=
  let n := Z.of_N (N_of_ascii c) in (n =? 32) || (n =? 9).

Definition ValidHeaderFieldValue (v : string) : bool :=
  allBytes (fun c => negb (url.isCTL c && negb (isLWS c))) v.

Definition validMethod (method : string) : bool :=
  negb (bool_decide (method = "")) && allBytes isTokenByte method.

Definition keyValues : Type := string * list string.

Definition keyLe (a b : keyValues) : Prop := String.le a.1 b.1.

#[global] Instance keyLe_dec : RelDecision keyLe.
Proof. intros a b. unfold keyLe. apply _. Defined.

(** [Header.sortedKeyValues]: the entries whose key is not excluded,
    sorted by key. Go ranges over the map in an unspecified order and then
    sorts; the keys being distinct, the result does not depend on that
    order. *)
Definition sortedKeyValues (h : Header) (exclude : list string) : list keyValues :=
  merge_sort keyLe (filter (fun kv => kv.1 ∉ exclude) (map_to_list h)).

Definition headerLine (key value : string) : string :=
  key +:+ ": " +:+ TrimString (headerNewlineToSpace value) +:+ CRLF.

Definition concatStrings (l : list string) : string :=
  foldr String.append EmptyString l.

(** [Header.writeSubset]: one line per value, keys in sorted order. *)
Definition writeSubset (h : Header) (exclude : list string) : string :=
  concatStrings
    (flat_map (fun kv : keyValues =>
                 if ValidHeaderFieldName kv.1
                 then map (headerLine kv.1) kv.2 else [])
              (sortedKeyValues h exclude)).

Definition reqWriteExcludeHeader : list string :=
  ["Host"; "User-Agent"; "Content-Length"; "Transfer-Encoding"; "Trailer"].

Definition quote (s : string) : string := DQUOTE +:+ s +:+ DQUOTE.

(** The header check of [Transport.roundTrip]. Go reports the first bad
    entry its map iteration meets; here it is the first in key order. The
    text of the error is not used by this package. *)
Definition validateHeaders (h : Header) : error :=
  let bad (kv : keyValues) : error :=
    if negb (ValidHeaderFieldName kv.1)
    then Some ("net/http: invalid header field name " +:+ quote kv.1)
    else if forallb ValidHeaderFieldValue kv.2 then None
    else Some ("net/http: invalid header field value for " +:+ quote kv.1) in
  head (omap bad (sortedKeyValues h [])).

Definition outgoingLength {R : Type} (r : Request R) : Z :=
  match Body_ r with
  | Reader _ => if ContentLength r =? 0 then -1 else ContentLength r
  | _ => 0
  end.

Definition requestMethodUsuallyLacksBody (method : string) : bool :=
  bool_decide (method ∈ ["GET"; "HEAD"; "DELETE"; "OPTIONS"; "PROPFIND"; "SEARCH"]).

(** [transferWriter.shouldSendContentLength] for a body that is not sent
    chunked; [TransferEncoding] is empty. *)
Definition shouldSendContentLength (method : string) (contentLength : Z) : bool :=
  if 0 <? contentLength then true
  else if contentLength <? 0 then false
  else if bool_decide (method ∈ ["POST"; "PUT"; "PATCH"]) then true
  else if bool_decide (method ∈ ["GET"; "HEAD"]) then false
  else true.

Definition contentLengthHeader (method : string) (contentLength : Z) : string :=
  if shouldSendContentLength method contentLength
  then "Content-Length: " +:+ pretty contentLength +:+ CRLF
  else "".

(** One [Write] to the chunked writer; an empty write emits nothing. *)
Definition chunk (data : string) : string :=
  if decide (data = "") then ""
  else hex.Format (len data) +:+ CRLF +:+ data +:+ CRLF.

Definition lengthMismatch (contentLength copied : Z) : error :=
  Some ("http: ContentLength=" +:+ pretty contentLength
        +:+ " with Body length " +:+ pretty copied).

(** [newTransferWriter], [writeHeader] and [writeBody] together, for a
    request whose body reader delivers [content]: the framing header line,
    the bytes of the body as framed, and the error that stops the write. A
    body of unknown length is sent chunked; for a method that usually has
    no body it is first probed for one byte (the probe is taken to answer
    within its time allowance) and, when empty, dropped. *)
Definition transfer (r : Request string) : string * string * error :=
  let method := valueOrDefault (Method r) "GET" in
  match Body_ r with
  | BodyNil =>
      if ContentLength r =? 0 then (contentLengthHeader method 0, "", None)
      else ("", "", Some ("http: Request.ContentLength=" +:+ pretty (ContentLength r)
                          +:+ " with nil Body"))
  | NoBody => (contentLengthHeader method 0, "", None)
  | Reader content =>
      let contentLength := outgoingLength r in
      if 0 <? contentLength then
        (contentLengthHeader method contentLength,
         String.substring 0 (Z.to_nat contentLength) content,
         if len content =? contentLength then None
         else lengthMismatch contentLength (len content))
      else if decide (method = "CONNECT") then
        if contentLength =? -1 then ("", content, None)
        else ("", "", lengthMismatch contentLength (len content))
      else if requestMethodUsuallyLacksBody method && bool_decide (content = "") then
        (contentLengthHeader method 0, "", None)
      else
        let writes :=
          match content with
          | String first rest =>
              if requestMethodUsuallyLacksBody method
              then chunk (String first EmptyString) +:+ chunk rest
              else chunk content
          | EmptyString => ""
          end in
        ("Transfer-Encoding: chunked" +:+ CRLF,
         writes +:+ "0" +:+ CRLF +:+ CRLF,
         if contentLength =? -1 then None else lengthMismatch contentLength 0)
  end.

Definition defaultUserAgent : string := "Go-http-client/1.1".

(** [Request.write] as [persistConn.writeLoop] calls it: not through a
    proxy, with the extra header [Accept-Encoding: gzip] that
    [persistConn.roundTrip] adds when the request asks for no encoding and
    no range. *)
Definition write (r : Request string) (u : url.URL) : string * error :=
  let host := if decide (Host r = "") then url.Host u else Host r in
  let ruri :=
    if bool_decide (Method r = "CONNECT") && bool_decide (url.Path u = "")
    then host else url.RequestURI u in
  if url.stringContainsCTLByte ruri
  then ("", Some "net/http: can't write control character in Request.URL")
  else
    let userAgent := if has (Hdr r) "User-Agent" then Get (Hdr r) "User-Agent"
                     else defaultUserAgent in
    let requestedGzip :=
      bool_decide (Get (Hdr r) "Accept-Encoding" = "")
      && bool_decide (Get (Hdr r) "Range" = "")
      && negb (bool_decide (Method r = "HEAD")) in
    let '(framing, body, err) := transfer r in
    match err with
    | Some e => ("", Some e)
    | None =>
        (valueOrDefault (Method r) "GET" +:+ " " +:+ ruri +:+ " HTTP/1.1" +:+ CRLF
         +:+ "Host: " +:+ host +:+ CRLF
         +:+ (if decide (userAgent = "") then ""
              else headerLine "User-Agent" userAgent)
         +:+ framing
         +:+ writeSubset (Hdr r) reqWriteExcludeHeader
         +:+ (if requestedGzip then headerLine "Accept-Encoding" "gzip" else "")
         +:+ CRLF
         +:+ body, None)
    end.

(** What [Transport.RoundTrip] puts on the recording connection for a
    request whose body delivers the given bytes: the checks made before
    anything is written, then the write. *)
Definition roundTrip (r : Request string) (u : url.URL) : string * error :=
  let scheme := url.Scheme u in
  let isHTTP := bool_decide (scheme = "http") || bool_decide (scheme = "https") in
  match (if isHTTP then validateHeaders (Hdr r) else None) with
  | Some e => ("", Some e)
  | None =>
      if negb isHTTP
      then ("", Some ("unsupported protocol scheme " +:+ quote scheme))
      else if negb (bool_decide (Method r = "")) && negb (validMethod (Method r))
      then ("", Some ("net/http: invalid method " +:+ quote (Method r)))
      else if decide (url.Host u = "")
      then ("", Some "http: no Host in request URL")
      else write r u
  end.

(** [Transport.RoundTrip] on the recording connection. The transport reads
    the body it is given; where it stops early on an error the reader is
    closed, and in either case nothing reads that reader again. *)
Definition RoundTrip (r : Request loc) (u : url.URL) : M (string * error) :=
  content ← ReadFrom (Body_ r);
  mret (roundTrip (withBody r (mapBody (fun _ => content) (Body_ r))) u).

End http.

(* ===================================================================== *)
(** ** net/http/httputil *)

Module httputil.

(** [drainBody]: the body is read to its end into a buffer; the results
    are a reader over the buffer and a second reader over its bytes. An
    absent body gives [http.NoBody] twice. *)
Definition drainBody (b : http.Body loc) : M (http.Body loc * http.Body loc) :=
  match b with
  | http.Reader l =>
      buf ← io.ReadAll l;
      l1 ← io.NewReader buf;
      l2 ← io.NewReader buf;
      mret (http.Reader l1, http.Reader l2)
  | _ => mret (http.NoBody, http.NoBody)
  end.

(** What [io.LimitReader(neverEnding('x'), n)] delivers. *)
Definition dummyContent (n : Z) : string :=
  string_of_bytes (repeat 120 (Z.to_nat n)).

(** [dump[:i+4]] for the first blank line at [i], the whole dump when
    there is none. *)
Fixpoint truncateAfterHeaders (dump : string) : string :=
  match dump with
  | EmptyString => EmptyString
  | String c rest =>
      if String.prefix (CRLF +:+ CRLF) dump then CRLF +:+ CRLF
      else String c (truncateAfterHeaders rest)
  end.

(** [httputil.DumpRequestOut(req, body)]: the request as it is left, the
    bytes the transport would send for it, and the error. Without [body], a
    request that announces a body is written with a stand-in body that is
    cut off again. A request without a URL makes the function panic. *)
Definition DumpRequestOut (req : http.Request loc) (body : bool)
  : M (http.Request loc * (string * error)) :=
  let contentLength := http.outgoingLength req in
  let dummyBody := negb body && negb (contentLength =? 0) in
  '(save, req) ←
    (if body then
       '(save, b) ← drainBody (http.Body_ req);
       mret (save, http.withBody req b)
     else if dummyBody then
       l ← io.NewReader (dummyContent contentLength);
       mret (http.Body_ req, http.withBody req (http.Reader l))
     else mret (http.Body_ req, req));
  match http.URL req with
  | None => panic "runtime error: invalid memory address or nil pointer dereference"
  | Some u =>
      let u' := if decide (url.Scheme u = "https")
                then url.mkURL "http" (url.Host u) (url.Path u) (url.RawQuery u)
                else u in
      '(dump, err) ← http.RoundTrip req u';
      let req := http.withBody req save in
      match err with
      | Some e => mret (req, ("", Some e))
      | None => mret (req, (if dummyBody then truncateAfterHeaders dump else dump, None))
      end
  end.

End httputil.

(* ===================================================================== *)
(** ** Package replay: the HAR data model (har.go)

    Fields that no function of the package reads (cookies, timings, the
    underscore-prefixed capture metadata) are left out of the records. *)

Module Header.
Record t : Type := mk { Name : string; Value : string }.
End Header.

Module Headers.

Abbreviation t := (list Header.t).

Definition ToHTTPHeader (h : t) : http.Header :=
  foldl (fun ht header => http.Add ht (Header.Name header) (Header.Value header)) ∅ h.

End Headers.

Module QueryParam.
Record t : Type := mk { Name : string; Value : string }.
End QueryParam.

Module PostData.
Record t : Type := mk { Text : string; MimeType : string }.
End PostData.

Module Request.

Record t : Type := mk {
  Method : string;
  BodySize : Z;
  HeadersSize : Z;
  PostData : PostData.t;
  Headers : Headers.t;
  QueryString : list QueryParam.t;
  HttpVersion : string;
  Url : string;
}.

Definition Factory (r : t) : M (http.Request loc) :=
  let headers := Headers.ToHTTPHeader (Headers r) in
  let u := url.Parse (Url r) in
  let '(major, minor, _) := http.ParseHTTPVersion (HttpVersion r) in
  let getBody := io.NewReader (PostData.Text (PostData r)) in
  body ← getBody;
  mret {| http.Method := Method r;
          http.URL := u;
          http.Hdr := headers;
          http.Proto := HttpVersion r;
          http.ProtoMajor := major;
          http.ProtoMinor := minor;
          http.Body_ := http.Reader body;
          http.ContentLength := len (PostData.Text (PostData r));
          http.Host := http.Get headers "Host" |}.

End Request.

Module ContentType.
Record t : Type := mk {
  Size : Z;
  MimeType : string;
  Encoding : string;
  Text : string;
}.
End ContentType.

Module Response.

Record t : Type := mk {
  Status : Z;
  Content : ContentType.t;
  BodySize : Z;
  HeadersSize : Z;
  StatusText : string;
  Headers : Headers.t;
  HttpVersion : string;
  RedirectURL : string;
}.

Definition Factory (r : t) : M (http.Response loc) :=
  let '(body, _) := base64.DecodeString (ContentType.Text (Content r)) in
  let '(major, minor, _) := http.ParseHTTPVersion (HttpVersion r) in
  reader ← io.NewReader body;
  mret {| http.Status := StatusText r;
          http.StatusCode := Status r;
          http.RespProto := HttpVersion r;
          http.RespProtoMajor := major;
          http.RespProtoMinor := minor;
          http.RespHeader := Headers.ToHTTPHeader (Headers r);
          http.RespBody := http.Reader reader;
          http.RespContentLength := len body |}.

End Response.

Module Entry.
Record t : Type := mk {
  Id : string;
  Name : string;
  Request : Request.t;
  Response : Response.t;
  Comment : string;
  StartedDateTime : string;
}.
End Entry.

Module Creator.
Record t : Type := mk { Name : string; Version : string }.
End Creator.

Module Log.
Record t : Type := mk {
  Version : string;
  Creator : Creator.t;
  Entries : list Entry.t;
}.
End Log.

Module HarFile.
Record t : Type := mk { Log : Log.t }.
End HarFile.

(** What [LoadHarFile] returns for each path: the decoded file and the
    error. Opening and decoding files belongs to the operating system and
    to [encoding/json]; the outcome is taken as given. *)
Definition FileSystem : Type := string -> HarFile.t * error.

Definition LoadHarFile (fsys : FileSystem) (harFilePath : string) : HarFile.t * error :=
  fsys harFilePath.

(** [CloneRequestWithBody r]: the request [r] as it is left, and the clone.
    The clone starts out with the reader of [r] as its body. A present body
    is read to its end into a buffer; [r] then gets a reader over the
    buffer and the clone a reader of its own over the same bytes. *)
Definition CloneRequestWithBody (r : http.Request loc)
  : M (http.Request loc * http.Request loc) :=
  let r2 := http.Clone r in
  match http.Body_ r with
  | http.Reader l =>
      b ← io.ReadAll l;
      body ← io.NewReader b;
      let r := http.withBody r (http.Reader body) in
      body2 ← io.NewReader b;
      let r2 := http.withBody r2 (http.Reader body2) in
      mret (r, r2)
  | _ => mret (r, r2)
  end.

(* ===================================================================== *)
(** ** Package replay: fingerprinting and the transport *)

(** A filter mutates the request it is handed. It is taken to be a
    function of that request alone, body bytes included: from the request
    before to the request after. *)
Definition RequestFilter : Type := http.Request string -> http.Request string.
Definition ResponseFilter : Type := http.Response string -> http.Response string.

(** The request [r] with the bytes of its body in place of the reader. *)
Definition view (σ : Store) (r : http.Request loc) : http.Request string :=
  http.withBody r (http.mapBody (unread σ) (http.Body_ r)).

(** [filter(request)]: the filter sees the request with the bytes its body
    has left and leaves the request as it returns it. A body it returns is
    left in the reader the request had, or in a new one when it had none. *)
Definition callFilter (filter : RequestFilter) (request : http.Request loc)
  : M (http.Request loc) :=
  fun σ =>
    let after := filter (view σ request) in
    match http.Body_ after, http.Body_ request with
    | http.Reader content, http.Reader l =>
        Returns (http.withBody after (http.Reader l), <[l := content]> σ)
    | http.Reader content, _ =>
        Returns (http.withBody after (http.Reader (length σ)), σ ++ [content])
    | http.BodyNil, _ => Returns (http.withBody after http.BodyNil, σ)
    | http.NoBody, _ => Returns (http.withBody after http.NoBody, σ)
    end.

(** [for _, filter := range filters { filter(request) }]. *)
Fixpoint callFilters (filters : list RequestFilter) (request : http.Request loc)
  : M (http.Request loc) :=
  match filters with
  | [] => mret request
  | filter :: rest =>
      request ← callFilter filter request;
      callFilters rest request
  end.

(** [HashRequest r filters]: the request [r] as it is left, the key and
    the error. *)
Definition HashRequest (r : http.Request loc) (filters : list RequestFilter)
  : M (http.Request loc * (string * error)) :=
  '(r, request) ← CloneRequestWithBody r;
  request ← callFilters filters request;
  '(_, (data, err)) ← httputil.DumpRequestOut request (http.hasBody r);
  match err with
  | Some e => mret (r, ("", Some e))
  | None => mret (r, (hex.EncodeToString (sha256.Sum data), None))
  end.

(** [RequestToBuff r filters]: the request as it is left and the contents
    of the buffer. The error of the dump is printed and dropped; the
    buffer is then empty. *)
Definition RequestToBuff (r : http.Request loc) (filters : list RequestFilter)
  : M (http.Request loc * string) :=
  '(r, request) ← CloneRequestWithBody r;
  request ← callFilters filters request;
  '(_, (data, _)) ← httputil.DumpRequestOut request (http.hasBody r);
  mret (r, data).

(** The debugger is a closure over the transport: when called it reads the
    transport's filters and ranges over its cache. It is given both, the
    cache as the sequence of entries in the order the [range] meets them. *)
Definition Debugger : Type :=
  list RequestFilter -> list (string * Entry.t) -> string -> http.Request loc
  -> M (http.Request loc * error).

Record ReplayTransport : Type := mkReplayTransport {
  harFiles : gmap string HarFile.t;
  harResponseCache : gmap string Entry.t;
  requestFilters : list RequestFilter;
  responseFilters : list ResponseFilter;
  debugger : option Debugger;
}.

Definition ReplayOption : Type := ReplayTransport -> M (ReplayTransport * error).

Record SingleResponseTransport : Type := mkSingleResponseTransport {
  entry : Entry.t;
}.

Definition SingleResponseTransport_RoundTrip (r : SingleResponseTransport)
  (_ : http.Request loc) : M (option (http.Response loc) * error) :=
  response ← Response.Factory (Entry.Response (entry r));
  mret (Some response, None).

(** [ReplayTransport.RoundTrip]: [order] is the order in which this call
    would range over the cache. Returns the request as it is left, the
    response ([None] is [nil]) and the error. *)
Definition RoundTrip (r : ReplayTransport) (order : list (string * Entry.t))
  (request : http.Request loc)
  : M (http.Request loc * (option (http.Response loc) * error)) :=
  request ← callFilters (requestFilters r) request;
  '(request, (hashKey, err)) ← HashRequest request (requestFilters r);
  match err with
  | Some _ => mret (request, (None, errors.Wrap err "failed to hash request"))
  | None =>
      match harResponseCache r !! hashKey with
      | None =>
          '(request, err) ←
            match debugger r with
            | Some dbg =>
                '(request, dbErr) ← dbg (requestFilters r) order hashKey request;
                mret (request, if dbErr is Some _ then dbErr else err)
            | None => mret (request, err)
            end;
          let err :=
            if err is Some _
            then errors.Wrap err "no cached response for this request"
            else errors.Wrapf err
                   ("no cached response for this request, try attaching a round trip debugger "
                    +:+ hashKey) in
          mret (request, (None, err))
      | Some entry =>
          response ← Response.Factory (Entry.Response entry);
          mret (request, (Some response, None))
      end
  end.

Definition cacheEntry (r : ReplayTransport) (entry : Entry.t)
  : M (ReplayTransport * error) :=
  request ← Request.Factory (Entry.Request entry);
  '(_, (hashKey, err)) ← HashRequest request (requestFilters r);
  match err with
  | Some _ => mret (r, err)
  | None =>
      mret (mkReplayTransport (harFiles r) (<[hashKey := entry]> (harResponseCache r))
              (requestFilters r) (responseFilters r) (debugger r), None)
  end.

Definition WithRequestFilter (filter : RequestFilter) : ReplayOption :=
  fun transport =>
    mret (mkReplayTransport (harFiles transport) (harResponseCache transport)
            (requestFilters transport ++ [filter]) (responseFilters transport)
            (debugger transport), None).

(** The loop of [WithHarFile]: each entry's error replaces the one before. *)
Fixpoint cacheEntries (entries : list Entry.t) (transport : ReplayTransport)
  (err : error) : M (ReplayTransport * error) :=
  match entries with
  | [] => mret (transport, err)
  | entry :: rest =>
      '(transport, err) ← cacheEntry transport entry;
      cacheEntries rest transport err
  end.

Definition WithHarFile (fsys : FileSystem) (filename : string) : ReplayOption :=
  fun transport =>
    let '(har, err) := LoadHarFile fsys filename in
    let transport :=
      mkReplayTransport (<[filename := har]> (harFiles transport))
        (harResponseCache transport) (requestFilters transport)
        (responseFilters transport) (debugger transport) in
    match err with
    | Some _ => mret (transport, err)
    | None => cacheEntries (Log.Entries (HarFile.Log har)) transport err
    end.

Fixpoint applyOptions (opts : list ReplayOption) (rt : ReplayTransport)
  : M (ReplayTransport * error) :=
  match opts with
  | [] => mret (rt, None)
  | opt :: rest =>
      '(rt, err) ← opt rt;
      match err with
      | Some _ => mret (rt, err)
      | None => applyOptions rest rt
      end
  end.

Definition NewReplayTransport (opts : list ReplayOption)
  : M (ReplayTransport * error) :=
  applyOptions opts (mkReplayTransport ∅ ∅ [] [] None).

(** [diffmatchpatch]: [DiffPrettyText (DiffMain cached incoming true)], taken
    as a function of the two texts. *)
Definition Differ : Type := string -> string -> string.

Definition reportSection (cacheKey cached reqKey incoming diff : string) : string :=
  String LF "cached: " +:+ cacheKey +:+ String LF cached
  +:+ String LF "incoming: " +:+ reqKey +:+ String LF incoming
  +:+ String LF "diff:" +:+ String LF diff +:+ String LF "".

(** The loop of the debugger over the cache, appending to [output]. *)
Fixpoint report (differ : Differ) (filters : list RequestFilter)
  (order : list (string * Entry.t)) (reqKey incoming : string) (output : string)
  : M string :=
  match order with
  | [] => mret output
  | (cacheKey, entry) :: rest =>
      cachedRequest ← Request.Factory (Entry.Request entry);
      '(_, cached) ← RequestToBuff cachedRequest filters;
      report differ filters rest reqKey incoming
        (output +:+ reportSection cacheKey cached reqKey incoming (differ cached incoming))
  end.

Definition roundTripDebugger (differ : Differ) : Debugger :=
  fun filters order reqKey request =>
    '(request, incoming) ← RequestToBuff request filters;
    output ← report differ filters order reqKey incoming "";
    mret (request, errors.New output).

Definition WithRoundTripDebugger (differ : Differ) : ReplayOption :=
  fun transport =>
    mret (mkReplayTransport (harFiles transport) (harResponseCache transport)
            (requestFilters transport) (responseFilters transport)
            (Some (roundTripDebugger differ)), None).

Definition delHeader (key : string) : RequestFilter :=
  fun r => http.withHeader r (http.Del (http.Hdr r) key).

Definition WithDelHeaderFilter (key : string) : ReplayOption :=
  WithRequestFilter (delHeader key).

(* ===================================================================== *)
(** ** What the functions compute from the bytes

    The result of fingerprinting depends on the request fields and on the
    bytes its body has left, not on where the readers live. The functions
    below state that dependence; the lemmas of the next part prove that
    [DumpRequestOut], [HashRequest], [RequestToBuff], [cacheEntry] and
    [RoundTrip] compute them. *)

Definition applyFilters (filters : list RequestFilter) (request : http.Request string)
  : http.Request string :=
  foldl (fun q (filter : RequestFilter) => filter q) request filters.

(** The dump of a request whose body delivers the bytes it carries. *)
Definition dumped (request : http.Request string) (body : bool)
  : Outcome (string * error) :=
  let contentLength := http.outgoingLength request in
  let dummyBody := negb body && negb (contentLength =? 0) in
  let sent :=
    if body
    then http.withBody request
           (match http.Body_ request with
            | http.Reader content => http.Reader content
            | _ => http.NoBody
            end)
    else if dummyBody
    then http.withBody request (http.Reader (httputil.dummyContent contentLength))
    else request in
  match http.URL request with
  | None => Panics "runtime error: invalid memory address or nil pointer dereference"
  | Some u =>
      let u' := if decide (url.Scheme u = "https")
                then url.mkURL "http" (url.Host u) (url.Path u) (url.RawQuery u)
                else u in
      let '(dump, err) := http.roundTrip sent u' in
      match err with
      | Some e => Returns ("", Some e)
      | None =>
          Returns (if dummyBody then httputil.truncateAfterHeaders dump else dump, None)
      end
  end.

(** The canonical serialization: the dump of the filtered clone, with the
    body when the request itself has one. *)
Definition canonical (request : http.Request string) (filters : list RequestFilter)
  : Outcome (string * error) :=
  dumped (applyFilters filters request) (http.hasBody request).

(** The key made from a dump: its SHA-256 in hexadecimal, or the error. *)
Definition digest (dump : Outcome (string * error)) : Outcome (string * error) :=
  '(data, err) ← dump;
  match err with
  | Some e => mret ("", Some e)
  | None => mret (hex.EncodeToString (sha256.Sum data), None)
  end.

Definition fingerprint (request : http.Request string) (filters : list RequestFilter)
  : Outcome (string * error) :=
  digest (canonical request filters).

(** The key and the error of a call of [HashRequest], without the request
    and the store it leaves. *)
Definition Fingerprint (r : http.Request loc) (filters : list RequestFilter)
  (σ : Store) : Outcome (string * error) :=
  match HashRequest r filters σ with
  | Returns ((_, out), _) => Returns out
  | Panics why => Panics why
  end.

(** The recorded request as [Request.Factory] builds it, with the bytes of
    its body. *)
Definition recordedRequest (r : Request.t) : http.Request string :=
  let '(major, minor, _) := http.ParseHTTPVersion (Request.HttpVersion r) in
  {| http.Method := Request.Method r;
     http.URL := url.Parse (Request.Url r);
     http.Hdr := Headers.ToHTTPHeader (Request.Headers r);
     http.Proto := Request.HttpVersion r;
     http.ProtoMajor := major;
     http.ProtoMinor := minor;
     http.Body_ := http.Reader (PostData.Text (Request.PostData r));
     http.ContentLength := len (PostData.Text (Request.PostData r));
     http.Host := http.Get (Headers.ToHTTPHeader (Request.Headers r)) "Host" |}.

(** The fingerprint [RoundTrip] looks up: that of the request after the
    filters were applied to it in place; [HashRequest] then applies them
    once more to its clone. *)
Definition liveKey (r : ReplayTransport) (request : http.Request string)
  : Outcome (string * error) :=
  fingerprint (applyFilters (requestFilters r) request) (requestFilters r).

(** The fingerprint [cacheEntry] stores an entry under. *)
Definition storedKey (r : ReplayTransport) (entry : Entry.t)
  : Outcome (string * error) :=
  fingerprint (recordedRequest (Entry.Request entry)) (requestFilters r).

(** The body reader of the request is a reader of the store. *)
Definition bodyIn (σ : Store) (r : http.Request loc) : Prop :=
  match http.Body_ r with
  | http.Reader l => (l < length σ)%nat
  | _ => True
  end.

(** The body reader of the request, if any, is at place [k] or beyond. *)
Definition bodyFrom (k : nat) (r : http.Request loc) : Prop :=
  match http.Body_ r with
  | http.Reader l => (k <= l)%nat
  | _ => True
  end.

(** The store [σ'] extends [σ] and agrees with it below place [k]. *)
Definition frame (k : nat) (σ σ' : Store) : Prop :=
  (length σ <= length σ')%nat /\ forall i : nat, (i < k)%nat -> σ' !! i = σ !! i.

(** Running a computation from the empty store, for its result alone. *)
Definition run {A : Type} (m : M A) : Outcome A :=
  match m [] with
  | Returns (a, _) => Returns a
  | Panics why => Panics why
  end.

(** *** Recorded headers *)

Definition headerKey (h : Header.t) : string :=
  http.CanonicalMIMEHeaderKey (Header.Name h).

(** The values recorded under a key, in recording order. *)
Definition valuesFor (k : string) (hs : Headers.t) : list string :=
  Header.Value <$> filter (fun h => headerKey h = k) hs.


(** *** The sections of the diagnostic report *)

(** The contents of the buffer [RequestToBuff] returns. *)
Definition buffered (request : http.Request string) (filters : list RequestFilter)
  : Outcome string :=
  '(data, _) ← canonical request filters; mret data.

(** The section of the report for one cache entry. *)
Definition sectionOf (differ : Differ) (filters : list RequestFilter)
  (reqKey incoming : string) (kv : string * Entry.t) : Outcome string :=
  cached ← buffered (recordedRequest (Entry.Request kv.2)) filters;
  mret (reportSection kv.1 cached reqKey incoming (differ cached incoming)).

Fixpoint sections (differ : Differ) (filters : list RequestFilter)
  (reqKey incoming : string) (order : list (string * Entry.t)) : Outcome (list string) :=
  match order with
  | [] => mret []
  | kv :: rest =>
      s ← sectionOf differ filters reqKey incoming kv;
      ss ← sections differ filters reqKey incoming rest;
      mret (s :: ss)
  end.

(** The error a call returned, which for the debugger carries the report,
    without the request and the store the call leaves. *)
Definition reportText {A : Type} (o : Outcome ((A * error) * Store)) : Outcome error :=
  match o with
  | Returns ((_, err), _) => Returns err
  | Panics why => Panics why
  end.

(** The first bytes of a report. *)
Definition textPrefix (n : nat) (o : Outcome error) : string :=
  match o with
  | Returns (Some text) => String.substring 0 n text
  | _ => ""
  end.

(* ===================================================================== *)
(** ** Fixtures *)

(** [newTestRequest] of replay_http_test.go. *)
Definition newTestRequest : M (http.Request loc) :=
  body ← io.NewReader "";
  mret {| http.Method := "POST";
          http.URL := Some (url.mkURL "https" "www.example.com" "/example/path" "");
          http.Proto := "";
          http.ProtoMajor := 0;
          http.ProtoMinor := 0;
          http.Hdr := ∅;
          http.Body_ := http.Reader body;
          http.ContentLength := 0;
          http.Host := "www.example.com" |}.

(** [httptest.NewRequest(method, target, body)] as the middleware test
    makes it; [None] is a [nil] body. *)
Definition httptestRequest (method host path : string) (body : option string)
  : M (http.Request loc) :=
  b ← match body with
      | Some content => l ← io.NewReader content; mret (http.Reader l)
      | None => mret http.NoBody
      end;
  mret {| http.Method := method;
          http.URL := Some (url.mkURL "https" host path "");
          http.Proto := "HTTP/1.1";
          http.ProtoMajor := 1;
          http.ProtoMinor := 1;
          http.Hdr := ∅;
          http.Body_ := b;
          http.ContentLength := from_option len 0 body;
          http.Host := host |}.

Definition recorded (method rawURL : string) (headers : Headers.t) (text : string)
  (status : Z) (statusText : string) (content : string) : Entry.t :=
  {| Entry.Id := ""; Entry.Name := ""; Entry.Comment := ""; Entry.StartedDateTime := "";
     Entry.Request :=
       {| Request.Method := method; Request.BodySize := len text;
          Request.HeadersSize := -1;
          Request.PostData := PostData.mk text "application/json";
          Request.Headers := headers; Request.QueryString := [];
          Request.HttpVersion := "HTTP/1.1"; Request.Url := rawURL |};
     Entry.Response :=
       {| Response.Status := status;
          Response.Content := ContentType.mk (len content) "application/json" "base64" content;
          Response.BodySize := -1; Response.HeadersSize := -1;
          Response.StatusText := statusText;
          Response.Headers := [Header.mk "content-type" "application/json"];
          Response.HttpVersion := "HTTP/1.1"; Response.RedirectURL := "" |} |}.

Definition getResource : Entry.t :=
  recorded "GET" "https://example.com/v1/resource" [Header.mk "Host" "example.com"]
           "" 200 "200 OK" "eyJvayI6dHJ1ZX0=".

(** The same request as [getResource], recorded with another response. *)
Definition getResourceAgain : Entry.t :=
  recorded "GET" "https://example.com/v1/resource" [Header.mk "Host" "example.com"]
           "" 404 "404 Not Found" "e30=".

Definition postResource : Entry.t :=
  recorded "POST" "https://example.com/v1/resource/new"
           [Header.mk "Host" "example.com"; Header.mk "Content-Type" "application/json"]
           "{name:test}" 201 "201 Created" "eyJpZCI6MX0=".

(** An entry whose method is not a token: the transport refuses to write it
    and [HashRequest] returns the error. *)
Definition unwritable : Entry.t :=
  recorded "GET IT" "https://example.com/v1/resource" [Header.mk "Host" "example.com"]
           "" 200 "200 OK" "".

Definition harOf (entries : list Entry.t) : HarFile.t :=
  HarFile.mk (Log.mk "1.2" (Creator.mk "proxyman" "3.0") entries).

(** A file system with one recording, whose first entry cannot be keyed. *)
Definition oneBadRecording : FileSystem :=
  fun path =>
    if decide (path = "testdata/mixed.har") then (harOf [unwritable; getResource], None)
    else (harOf [], errors.New ("failed to open " +:+ path +:+ ": no such file or directory")).

Definition twoRecordings : FileSystem :=
  fun path => (harOf [postResource; getResource], None).

Definition keyOfGet : string :=
  "8f34da1cdd7de57aba9591986c6a991672044a47a816944bd20eb3a2bd66a2a0".
Definition keyOfPost : string :=
  "b4acfffe64a92b1fb1d191a2152dd375537a4fe19d6308f0e6af761944fb567f".

Definition emptyTransport : ReplayTransport := mkReplayTransport ∅ ∅ [] [] None.

(** A transport that replays the two fixtures. *)
Definition twoFixtures : ReplayTransport :=
  mkReplayTransport ∅ (<[keyOfGet := getResource]> (<[keyOfPost := postResource]> ∅))
    [] [] None.

(** A request for a path that was not recorded. *)
Definition unrecorded : M (http.Request loc) :=
  Request.Factory
    (Entry.Request (recorded "GET" "https://example.com/v1/unrecorded"
                             [Header.mk "Host" "example.com"] "" 0 "" "")).


Definition markSeen : RequestFilter :=
  fun r => http.withHeader r (http.Add (http.Hdr r) "X-Seen" "1").

(** A diff routine for the examples: it says whether the texts differ. *)
Definition plainDiffer : Differ :=
  fun cached incoming => if decide (cached = incoming) then "=" else "~".

(** The request of the package's test, in the store that holds its body. *)
Definition testRequest : http.Request loc :=
  {| http.Method := "POST";
     http.URL := Some (url.mkURL "https" "www.example.com" "/example/path" "");
     http.Proto := "";
     http.ProtoMajor := 0;
     http.ProtoMinor := 0;
     http.Hdr := ∅;
     http.Body_ := http.Reader 0%nat;
     http.ContentLength := 0;
     http.Host := "www.example.com" |}.

Definition keyOfTest : string :=
  "b54b28b27aee90c17f06e30d05ea0b90cbc1e611702bdf423f01ee8b1f790d86".

(** A request with five bytes to send, in the store that holds them. *)
Definition postedRequest : http.Request loc :=
  {| http.Method := "POST";
     http.URL := Some (url.mkURL "https" "example.com" "/v1/resource/new" "");
     http.Proto := "HTTP/1.1";
     http.ProtoMajor := 1;
     http.ProtoMinor := 1;
     http.Hdr := ∅;
     http.Body_ := http.Reader 0%nat;
     http.ContentLength := 5;
     http.Host := "example.com" |}.

(** The recorded request of [getResource], in the store that holds its
    body. *)
Definition getRequest : http.Request loc :=
  {| http.Method := "GET";
     http.URL := Some (url.mkURL "https" "example.com" "/v1/resource" "");
     http.Proto := "HTTP/1.1";
     http.ProtoMajor := 1;
     http.ProtoMinor := 1;
     http.Hdr := {[ "Host" := ["example.com"] ]};
     http.Body_ := http.Reader 0%nat;
     http.ContentLength := 0;
     http.Host := "example.com" |}.

(* ===================================================================== *)
(** ** Package replay: query parameters and response clones (har.go) *)

(** [url.Values.Add]: [v[key] = append(v[key], value)]; the key is used as
    it is given. *)
Definition Values_Add (v : gmap string (list string)) (key value : string)
  : gmap string (list string) :=
  <[key := default [] (v !! key) ++ [value]]> v.

Module QueryParams.

Abbreviation t := (list QueryParam.t).

Definition ToURLValues (q : t) : gmap string (list string) :=
  foldl (fun v param => Values_Add v (QueryParam.Name param) (QueryParam.Value param)) ∅ q.

End QueryParams.

Definition withRespBody {R R' : Type} (r : http.Response R) (b : http.Body R')
  : http.Response R' :=
  http.mkResponse (http.Status r) (http.StatusCode r) (http.RespProto r)
    (http.RespProtoMajor r) (http.RespProtoMinor r) (http.RespHeader r) b
    (http.RespContentLength r).

(** The response [r] with the bytes of its body in place of the reader. *)
Definition viewResponse (σ : Store) (r : http.Response loc) : http.Response string :=
  withRespBody r (http.mapBody (unread σ) (http.RespBody r)).

(** [CloneResponseWithBody r]: the response [r] as it is left, and the
    clone. The clone is a copy of the struct ([*r2 = *r]), so it starts out
    with the reader of [r]; a present body is read to its end into a
    buffer, [r] gets a reader over the buffer and the clone a reader of its
    own over the same bytes. *)
Definition CloneResponseWithBody (r : http.Response loc)
  : M (http.Response loc * http.Response loc) :=
  let r2 := r in
  match http.RespBody r with
  | http.Reader l =>
      b ← io.ReadAll l;
      body ← io.NewReader b;
      let r := withRespBody r (http.Reader body) in
      body2 ← io.NewReader b;
      let r2 := withRespBody r2 (http.Reader body2) in
      mret (r, r2)
  | _ => mret (r, r2)
  end.

(* ===================================================================== *)
(** ** path/filepath and io/fs, on a system whose separator is the slash *)

Module fs.

(** A directory entry together with what [os.ReadDir] returns for it when
    it is a directory: its entries, sorted by file name, and the error. *)
#[warnings="-register-all"] Inductive DirEntry : Type :=
| mkDirEntry (name : string) (isDir : bool) (entries : list DirEntry) (readErr : error).

Definition Name (d : DirEntry) : string :=
  match d with mkDirEntry name _ _ _ => name end.

Definition IsDir (d : DirEntry) : bool :=
  match d with mkDirEntry _ isDir _ _ => isDir end.

Definition ReadDir (d : DirEntry) : list DirEntry * error :=
  match d with mkDirEntry _ _ entries readErr => (entries, readErr) end.

End fs.

Module filepath.

Definition Separator : ascii := "/"%char.

Definition IsPathSeparator (c : ascii) : bool := bool_decide (c = Separator).

(** The loop of [Ext], from the last byte backwards: [before] holds the
    bytes up to the one looked at, last first, and [suffix] those after it. *)
Fixpoint extLoop (before : list ascii) (suffix : string) : string :=
  match before with
  | [] => ""
  | c :: before =>
      if IsPathSeparator c then ""
      else if bool_decide (c = "."%char) then String c suffix
      else extLoop before (String c suffix)
  end.

(** [filepath.Ext]: the suffix that starts at the last dot of the last
    element of the path, empty when there is no dot. *)
Definition Ext (path : string) : string :=
  extLoop (reverse (String.list_ascii_of_string path)) "".

(** The inner loop of the [..] case of [Clean]: [w] moves back while it is
    beyond [dotdot] and the byte at [w] is no separator. *)
Fixpoint backtrack (w : nat) (buf : list ascii) (dotdot : nat) : nat :=
  match w with
  | O => O
  | S w' =>
      if (dotdot <? S w')%nat && negb (IsPathSeparator (nth (S w') buf Separator))
      then backtrack w' buf dotdot
      else S w'
  end.

(** The bytes of the path element at the front, and what follows it. *)
Fixpoint element (path : list ascii) : list ascii * list ascii :=
  match path with
  | [] => ([], [])
  | c :: rest =>
      if IsPathSeparator c then ([], path)
      else let '(e, r) := element rest in (c :: e, r)
  end.

Definition startsElement (rest : list ascii) : bool :=
  match rest with
  | [] => true
  | c :: _ => IsPathSeparator c
  end.

(** What follows the [..] element at the front of [path], if it starts
    with one. *)
Definition afterDotDot (path : list ascii) : option (list ascii) :=
  match path with
  | c :: c2 :: rest2 =>
      if bool_decide (c = "."%char) && bool_decide (c2 = "."%char) && startsElement rest2
      then Some rest2 else None
  | _ => None
  end.

(** The main loop of [Clean]: [path] is what is left to read, [out] what
    was written, [dotdot] the place in [out] where [..] must stop. Every
    turn reads at least one byte. *)
Fixpoint cleanLoop (fuel : nat) (rooted : bool) (path out : list ascii) (dotdot : nat)
  : list ascii :=
  match fuel, path with
  | O, _ => out
  | _, [] => out
  | S fuel, c :: rest =>
      if IsPathSeparator c then cleanLoop fuel rooted rest out dotdot
      else if bool_decide (c = "."%char) && startsElement rest
      then cleanLoop fuel rooted rest out dotdot
      else
        match afterDotDot path with
        | Some rest2 =>
            if (dotdot <? length out)%nat
            then cleanLoop fuel rooted rest2
                   (take (backtrack (length out - 1) out dotdot) out) dotdot
            else if negb rooted
            then
              let out := (if (0 <? length out)%nat then out ++ [Separator] else out)
                         ++ ["."%char; "."%char] in
              cleanLoop fuel rooted rest2 out (length out)
            else cleanLoop fuel rooted rest2 out dotdot
        | None =>
            let out := if (rooted && negb (length out =? 1)%nat)
                          || (negb rooted && negb (length out =? 0)%nat)
                       then out ++ [Separator] else out in
            let '(e, r) := element path in
            cleanLoop fuel rooted r (out ++ e) dotdot
        end
  end.

(** [filepath.Clean]. *)
Definition Clean (path : string) : string :=
  match String.list_ascii_of_string path with
  | [] => "."
  | c :: rest =>
      let out :=
        if IsPathSeparator c
        then cleanLoop (S (length rest)) true rest [Separator] 1
        else cleanLoop (S (length rest)) false (c :: rest) [] 0 in
      String.string_of_list_ascii (match out with [] => ["."%char] | _ => out end)
  end.

(** [strings.Join(elems, "/")]. *)
Fixpoint joinSlash (elems : list string) : string :=
  match elems with
  | [] => ""
  | [e] => e
  | e :: rest => e +:+ "/" +:+ joinSlash rest
  end.

(** [filepath.Join]: the elements from the first that is not empty on,
    joined by slashes and cleaned. *)
Fixpoint Join (elem : list string) : string :=
  match elem with
  | [] => ""
  | e :: rest => if decide (e = "") then Join rest else Clean (joinSlash elem)
  end.

(** What [os.Lstat] returns for the root of a walk. *)
Inductive Lstat : Type :=
| Exists (info : fs.DirEntry)
| Fails (err : string).

Section WalkDir.

(** The function called at every entry is a closure; [State] is the state it
    closes over. *)
Context {State : Type}.

Definition WalkDirFunc : Type := string -> option fs.DirEntry -> error -> State -> M (State * error).

Section Range.

Variable visit : fs.DirEntry -> State -> M (State * error).

(** [for _, d1 := range dirs], left at the first error. *)
Fixpoint rangeDirs (dirs : list fs.DirEntry) (s : State) : M (State * error) :=
  match dirs with
  | [] => mret (s, None)
  | d1 :: rest =>
      '(s, err) ← visit d1 s;
      match err with
      | Some _ => mret (s, err)
      | None => rangeDirs rest s
      end
  end.

End Range.

(** [walkDir]. The function of this package hands back the errors it is
    given and those of [WithHarFile]; none of them is [fs.SkipDir], which
    [walkDir] tells by identity, so the turns taken for it are left out. *)
Fixpoint walkDir (path : string) (d : fs.DirEntry) (walkDirFn : WalkDirFunc) (s : State)
  {struct d} : M (State * error) :=
  match d with
  | fs.mkDirEntry _ isDir entries readErr =>
      '(s, err) ← walkDirFn path (Some d) None s;
      if bool_decide (is_Some err) || negb isDir then mret (s, err)
      else
        '(s, err) ← match readErr with
                    | Some _ => walkDirFn path (Some d) readErr s
                    | None => mret (s, None)
                    end;
        match err with
        | Some _ => mret (s, err)
        | None =>
            rangeDirs (fun d1 => walkDir (Join [path; fs.Name d1]) d1 walkDirFn) entries s
        end
  end.

(** [filepath.WalkDir]: the root is given to the function as it was
    named. *)
Definition WalkDir (lstat : Lstat) (root : string) (fn : WalkDirFunc) (s : State)
  : M (State * error) :=
  match lstat with
  | Fails err => fn root None (Some err) s
  | Exists info => walkDir root info fn s
  end.

End WalkDir.

End filepath.

(* ===================================================================== *)
(** ** Package replay: directories of recordings, the recorder and the
    recording middleware *)

(** The function [WithHarDir] hands to [filepath.WalkDir]; [transport] is
    the transport it closes over. *)
Definition walkHar (fsys : FileSystem) : filepath.WalkDirFunc :=
  fun path d err transport =>
    match err with
    | Some _ => mret (transport, err)
    | None =>
        match d with
        | None => panic "runtime error: invalid memory address or nil pointer dereference"
        | Some d =>
            if fs.IsDir d then mret (transport, None)
            else if decide (filepath.Ext path = ".har")
            then WithHarFile fsys path transport
            else mret (transport, None)
        end
    end.

(** [WithHarDir dirname]: [lstat] is what the operating system shows at
    [dirname]. *)
Definition WithHarDir (fsys : FileSystem) (lstat : filepath.Lstat) (dirname : string)
  : ReplayOption :=
  fun transport => filepath.WalkDir lstat dirname (walkHar fsys) transport.

Module RequestRecord.
Record t : Type := mk { Key : string; Buff : string }.
End RequestRecord.

Module RequestRecorder.
Record t : Type := mk {
  requests : list RequestRecord.t;
  filters : list RequestFilter;
  debug : bool;
}.
End RequestRecorder.

Definition NewRequestRecorder : RequestRecorder.t := RequestRecorder.mk [] [] false.

(** [RequestRecorder.intercept]: the recorder and the request as they are
    left. *)
Definition intercept (rdb : RequestRecorder.t) (r : http.Request loc)
  : M (RequestRecorder.t * http.Request loc) :=
  '(r, (key, _)) ← HashRequest r (RequestRecorder.filters rdb);
  '(r, buff) ← RequestToBuff r (RequestRecorder.filters rdb);
  mret (RequestRecorder.mk
          (RequestRecorder.requests rdb ++ [RequestRecord.mk key buff])
          (RequestRecorder.filters rdb) (RequestRecorder.debug rdb), r).

(** The logger of the parameters only receives messages and is left out.
    The URL mapper is taken to be a function of the request it is handed. *)
Module RequestRecorderMiddlewareParams.
Record t : Type := mk {
  Dir : string;
  RequestFilters : list RequestFilter;
  Enabled : bool;
  URLMapper : option (http.Request string -> url.URL);
}.
End RequestRecorderMiddlewareParams.

Definition withURL {R : Type} (r : http.Request R) (u : option url.URL) : http.Request R :=
  http.mkRequest (http.Method r) u (http.Proto r) (http.ProtoMajor r) (http.ProtoMinor r)
                 (http.Hdr r) (http.Body_ r) (http.ContentLength r) (http.Host r).

(** The handler that [NewRequestRecorderMiddleware] returns, on one
    request: the request as [next.ServeHTTP] receives it, and the call of
    [os.WriteFile] that was made, if any, as the file name and the data. *)
Definition recordRequest (params : RequestRecorderMiddlewareParams.t)
  (request : http.Request loc) : M (http.Request loc * option (string * string)) :=
  if negb (RequestRecorderMiddlewareParams.Enabled params) then mret (request, None)
  else
    '(request, reqCopy) ← CloneRequestWithBody request;
    reqCopy ← match RequestRecorderMiddlewareParams.URLMapper params with
              | Some mapper => fun σ => Returns (withURL reqCopy (Some (mapper (view σ reqCopy))), σ)
              | None => mret reqCopy
              end;
    '(reqCopy, clone) ← CloneRequestWithBody reqCopy;
    '(_, (checksum, err)) ←
      HashRequest clone (RequestRecorderMiddlewareParams.RequestFilters params);
    match err with
    | Some _ => mret (request, None)
    | None =>
        let filename :=
          filepath.Join [RequestRecorderMiddlewareParams.Dir params; checksum +:+ ".req"] in
        '(_, clone) ← CloneRequestWithBody reqCopy;
        '(_, data) ← RequestToBuff clone (RequestRecorderMiddlewareParams.RequestFilters params);
        mret (request, Some (filename, data))
    end.

(** [NewRequestRecorderMiddleware]: [tempDir] is what [os.TempDir] returns
    and [mkdirAll] what [os.MkdirAll] answers for a directory. *)
Definition NewRequestRecorderMiddleware (tempDir : string) (mkdirAll : string -> error)
  (params : RequestRecorderMiddlewareParams.t)
  : option (http.Request loc -> M (http.Request loc * option (string * string))) * error :=
  let params :=
    if decide (RequestRecorderMiddlewareParams.Dir params = "")
    then RequestRecorderMiddlewareParams.mk
           (filepath.Join [tempDir; "proxy-recorder"; "requests"])
           (RequestRecorderMiddlewareParams.RequestFilters params)
           (RequestRecorderMiddlewareParams.Enabled params)
           (RequestRecorderMiddlewareParams.URLMapper params)
    else params in
  match mkdirAll (RequestRecorderMiddlewareParams.Dir params) with
  | Some e =>
      (None, errors.Wrap (Some e) "failed to initialize request recorder directory")
  | None => (Some (recordRequest params), None)
  end.

(* ===================================================================== *)
(** ** What the further functions compute *)

(** The values recorded for a query parameter, in recording order. *)
Definition paramValues (name : string) (q : QueryParams.t) : list string :=
  QueryParam.Value <$> filter (fun p => QueryParam.Name p = name) q.

(** The paths of the recordings that a walk from [path] at [d] loads: the
    files whose extension is [.har], in the order of the walk. *)
Fixpoint harFilesUnder (path : string) (d : fs.DirEntry) : list string :=
  match d with
  | fs.mkDirEntry _ isDir entries _ =>
      if isDir
      then flat_map (fun d1 => harFilesUnder (filepath.Join [path; fs.Name d1]) d1) entries
      else if decide (filepath.Ext path = ".har") then [path] else []
  end.

(** No directory under [d], [d] included, fails to be read. *)
Fixpoint readable (d : fs.DirEntry) : bool :=
  match d with
  | fs.mkDirEntry _ isDir entries readErr =>
      negb isDir || (bool_decide (readErr = None) && forallb readable entries)
  end.

(** The cache after the entries of a file were offered to [cacheEntry] in
    order: an entry that is keyed goes in under its key, one that is not is
    passed over. *)
Definition cacheAfter (r : ReplayTransport) (entries : list Entry.t)
  (cache : gmap string Entry.t) : gmap string Entry.t :=
  foldl (fun cache entry =>
           match storedKey r entry with
           | Returns (hashKey, None) => <[hashKey := entry]> cache
           | _ => cache
           end) cache entries.

(** The error of the last entry offered, [err] when there is none. *)
Definition lastError (r : ReplayTransport) (entries : list Entry.t) (err : error) : error :=
  match last entries with
  | Some entry =>
      match storedKey r entry with
      | Returns (_, e) => e
      | Panics _ => None
      end
  | None => err
  end.

(** A transport with other filters and the same cache. *)
Definition withFilters (r : ReplayTransport) (filters : list RequestFilter)
  : ReplayTransport :=
  mkReplayTransport (harFiles r) (harResponseCache r) filters (responseFilters r)
                    (debugger r).

Definition isHexDigit (c : ascii) : bool :=
  let n := Z.of_N (N_of_ascii c) in
  ((48 <=? n) && (n <=? 57)) || ((97 <=? n) && (n <=? 102)).

(** The request the recording middleware fingerprints: the request it is
    given, with the URL the mapper makes for it when there is a mapper. *)
Definition mappedURL (params : RequestRecorderMiddlewareParams.t)
  (request : http.Request string) : http.Request string :=
  match RequestRecorderMiddlewareParams.URLMapper params with
  | Some mapper => withURL request (Some (mapper request))
  | None => request
  end.

(** The directory the recording middleware writes to. *)
Definition recordDir (tempDir : string) (params : RequestRecorderMiddlewareParams.t)
  : string :=
  if decide (RequestRecorderMiddlewareParams.Dir params = "")
  then filepath.Join [tempDir; "proxy-recorder"; "requests"]
  else RequestRecorderMiddlewareParams.Dir params.

(* ===================================================================== *)
(** ** Further fixtures *)

(** A directory of recordings: a note, a directory with one recording, and
    one recording beside them. *)
Definition recordingsDir : fs.DirEntry :=
  fs.mkDirEntry "testdata" true
    [fs.mkDirEntry "README.md" false [] None;
     fs.mkDirEntry "nested" true [fs.mkDirEntry "two.har" false [] None] None;
     fs.mkDirEntry "one.har" false [] None]
    None.

(** The recorded GET request, sent with a credential. *)
Definition authorized : http.Request loc :=
  http.withHeader getRequest
    (http.Add (http.Hdr getRequest) "Authorization" "Bearer 0123456789").

(** A request whose method is not a token. *)
Definition malformed : http.Request loc :=
  {| http.Method := "GET IT";
     http.URL := Some (url.mkURL "https" "example.com" "/v1/resource" "");
     http.Proto := "HTTP/1.1";
     http.ProtoMajor := 1;
     http.ProtoMinor := 1;
     http.Hdr := ∅;
     http.Body_ := http.Reader 0%nat;
     http.ContentLength := 0;
     http.Host := "example.com" |}.

(** A request for a path that was not recorded, in the store that holds
    its body. *)
Definition unrecordedRequest : http.Request loc :=
  {| http.Method := "GET";
     http.URL := Some (url.mkURL "https" "example.com" "/v1/unrecorded" "");
     http.Proto := "HTTP/1.1";
     http.ProtoMajor := 1;
     http.ProtoMinor := 1;
     http.Hdr := {[ "Host" := ["example.com"] ]};
     http.Body_ := http.Reader 0%nat;
     http.ContentLength := 0;
     http.Host := "example.com" |}.

(** The transport of the two fixtures, with the debugger installed. *)
Definition twoFixturesDebugged : ReplayTransport :=
  mkReplayTransport ∅ (harResponseCache twoFixtures) [] []
                    (Some (roundTripDebugger plainDiffer)).

(** A transport that deletes the credential and replays the GET fixture. *)
Definition redacting : ReplayTransport :=
  mkReplayTransport ∅ {[ keyOfGet := getResource ]} [delHeader "Authorization"] [] None.

(** An entry whose URL does not parse. *)
Definition unparsable : Entry.t :=
  recorded "GET" ":nope" [Header.mk "Host" "example.com"] "" 200 "200 OK" "".

(** A response with a body of four bytes, in the store that holds them. *)
Definition answered : http.Response loc :=
  {| http.Status := "200 OK";
     http.StatusCode := 200;
     http.RespProto := "HTTP/1.1";
     http.RespProtoMajor := 1;
     http.RespProtoMinor := 1;
     http.RespHeader := ∅;
     http.RespBody := http.Reader 0%nat;
     http.RespContentLength := 4 |}.

(** The parameters of the middleware test. *)
Definition recorderParams : RequestRecorderMiddlewareParams.t :=
  RequestRecorderMiddlewareParams.mk "/tmp/proxy_recorder" [] true None.

(** The GET request of the middleware test: no body. *)
Definition bodyless : http.Request loc :=
  {| http.Method := "GET";
     http.URL := Some (url.mkURL "https" "example.com" "/v1/resource" "");
     http.Proto := "HTTP/1.1";
     http.ProtoMajor := 1;
     http.ProtoMinor := 1;
     http.Hdr := ∅;
     http.Body_ := http.NoBody;
     http.ContentLength := 0;
     http.Host := "example.com" |}.

(* ===================================================================== *)
(** ** Proof automation *)

Arguments http.roundTrip : simpl never.
Arguments httputil.truncateAfterHeaders : simpl never.
Arguments httputil.dummyContent : simpl never.

(** Splits the conjunctions of the goal, and no definition that unfolds
    to one. *)
Ltac splits := repeat match goal with |- _ /\ _ => split end.

Ltac store_length := repeat (rewrite ?length_app, ?length_insert; simpl); lia.

(** Proves [frame k σ σ'] when [σ'] is [σ] after writes at or beyond [k]
    and allocations. *)
Ltac frame_solve :=
  split;
  [ store_length
  | let i := fresh "i" in
    let Hi := fresh "Hi" in
    intros i Hi;
    repeat first [ rewrite list_lookup_insert_ne by store_length
                 | rewrite lookup_app_l by store_length ];
    reflexivity ].

#[global] Instance keyLe_total : Total http.keyLe.
Proof. intros a b. unfold http.keyLe. apply (total String.le). Qed.

#[global] Instance keyLe_trans : Transitive http.keyLe.
Proof. intros a b c. unfold http.keyLe. apply transitivity. Qed.

(* ===================================================================== *)
(** * Properties *)

(** ** The store *)

Lemma frame_refl (k : nat) (σ : Store) : frame k σ σ.
Proof. by split. Qed.

Lemma frame_trans (k : nat) (σ1 σ2 σ3 : Store) :
  frame k σ1 σ2 -> frame k σ2 σ3 -> frame k σ1 σ3.
Proof.
  intros [Hlen1 Hsame1] [Hlen2 Hsame2]. split; [lia|].
  intros i Hi. by rewrite Hsame2, Hsame1.
Qed.

Lemma frame_alloc (k : nat) (σ : Store) (content : string) :
  (k <= length σ)%nat -> frame k σ (σ ++ [content]).
Proof.
  intros Hk. split; [rewrite length_app; lia|].
  intros i Hi. apply lookup_app_l. lia.
Qed.

Lemma frame_write (k l : nat) (σ : Store) (content : string) :
  (k <= l)%nat -> frame k σ (<[l := content]> σ).
Proof.
  intros Hk. split; [by rewrite length_insert|].
  intros i Hi. apply list_lookup_insert_ne. lia.
Qed.

Lemma unread_alloc (σ : Store) (content : string) :
  unread (σ ++ [content]) (length σ) = content.
Proof. unfold unread. by rewrite list_lookup_middle. Qed.

Lemma unread_write (σ : Store) (l : loc) (content : string) :
  (l < length σ)%nat -> unread (<[l := content]> σ) l = content.
Proof. intros Hl. unfold unread. by rewrite list_lookup_insert_eq. Qed.

Lemma unread_frame (k : nat) (σ σ' : Store) (l : loc) :
  frame k σ σ' -> (l < k)%nat -> unread σ' l = unread σ l.
Proof. intros [_ Hsame] Hl. unfold unread. by rewrite Hsame. Qed.

(** ** Requests and their views *)

Lemma withBody_withBody {R R' R'' : Type} (r : http.Request R)
  (b : http.Body R') (b' : http.Body R'') :
  http.withBody (http.withBody r b) b' = http.withBody r b'.
Proof. by destruct r. Qed.

Lemma withHeader_id {R : Type} (r : http.Request R) : http.withHeader r (http.Hdr r) = r.
Proof. by destruct r. Qed.

Lemma withHeader_withHeader {R : Type} (r : http.Request R) (h h' : http.Header) :
  http.withHeader (http.withHeader r h) h' = http.withHeader r h'.
Proof. by destruct r. Qed.

Lemma hasBody_withHeader {R : Type} (r : http.Request R) (h : http.Header) :
  http.hasBody (http.withHeader r h) = http.hasBody r.
Proof. by destruct r. Qed.

Lemma view_withBody (σ : Store) (r : http.Request loc) (b : http.Body loc) :
  view σ (http.withBody r b) = http.withBody r (http.mapBody (unread σ) b).
Proof. by destruct r. Qed.

Lemma view_withHeader (σ : Store) (r : http.Request loc) (h : http.Header) :
  view σ (http.withHeader r h) = http.withHeader (view σ r) h.
Proof. by destruct r. Qed.

Lemma hasBody_view (σ : Store) (r : http.Request loc) :
  http.hasBody (view σ r) = http.hasBody r.
Proof. by destruct r as [? ? ? ? ? ? [| |l] ? ?]. Qed.

Lemma outgoingLength_view (σ : Store) (r : http.Request loc) :
  http.outgoingLength (view σ r) = http.outgoingLength r.
Proof. by destruct r as [? ? ? ? ? ? [| |l] ? ?]. Qed.

(** ** Filters *)

Lemma callFilter_spec (filter : RequestFilter) (k : nat) (σ : Store)
  (r : http.Request loc) :
  (k <= length σ)%nat -> bodyFrom k r -> bodyIn σ r ->
  exists (r' : http.Request loc) (σ' : Store),
    callFilter filter r σ = Returns (r', σ')
    /\ view σ' r' = filter (view σ r)
    /\ bodyIn σ' r' /\ bodyFrom k r' /\ frame k σ σ'.
Proof.
  intros Hk Hfrom Hin. unfold callFilter.
  destruct (filter (view σ r)) as [m u p pj pn h b cl host]. simpl.
  destruct b as [| |content].
  - eexists _, _. split; [done|]. splits; [done..|apply frame_refl].
  - eexists _, _. split; [done|]. splits; [done..|apply frame_refl].
  - unfold bodyFrom, bodyIn in Hfrom, Hin.
    destruct (http.Body_ r) as [| |l].
    + eexists _, _. split; [done|]. unfold view, bodyIn, bodyFrom. simpl.
      rewrite unread_alloc, length_app. simpl.
      splits; [done|lia|done|by apply frame_alloc].
    + eexists _, _. split; [done|]. unfold view, bodyIn, bodyFrom. simpl.
      rewrite unread_alloc, length_app. simpl.
      splits; [done|lia|done|by apply frame_alloc].
    + eexists _, _. split; [done|]. unfold view, bodyIn, bodyFrom. simpl.
      rewrite unread_write, length_insert by done.
      splits; [done|done|done|by apply frame_write].
Qed.

Lemma callFilters_spec (filters : list RequestFilter) (k : nat) (σ : Store)
  (r : http.Request loc) :
  (k <= length σ)%nat -> bodyFrom k r -> bodyIn σ r ->
  exists (r' : http.Request loc) (σ' : Store),
    callFilters filters r σ = Returns (r', σ')
    /\ view σ' r' = applyFilters filters (view σ r)
    /\ bodyIn σ' r' /\ bodyFrom k r' /\ frame k σ σ'.
Proof.
  revert σ r. induction filters as [|filter rest IH]; intros σ r Hk Hfrom Hin.
  - exists r, σ. splits; auto using frame_refl.
  - destruct (callFilter_spec filter k σ r Hk Hfrom Hin)
      as (r1 & σ1 & Hcall & Hview & Hin1 & Hfrom1 & Hframe1).
    destruct (IH σ1 r1) as (r2 & σ2 & Hcalls & Hview2 & Hin2 & Hfrom2 & Hframe2);
      [destruct Hframe1; lia|done..|].
    exists r2, σ2. split.
    { simpl. unfold mbind, M_bind. by rewrite Hcall. }
    simpl. rewrite Hview2, Hview. splits; [done..|].
    apply (frame_trans k σ σ1 σ2 Hframe1 Hframe2).
Qed.

(** ** [DumpRequestOut] *)

(** The dump is the one computed from the bytes of the body, and readers
    below the request's own are left alone. *)
Lemma DumpRequestOut_spec (req : http.Request loc) (body : bool) (k : nat) (σ : Store) :
  (k <= length σ)%nat -> bodyFrom k req -> bodyIn σ req ->
  match dumped (view σ req) body with
  | Panics why => httputil.DumpRequestOut req body σ = Panics why
  | Returns out =>
      exists (req' : http.Request loc) (σ' : Store),
        httputil.DumpRequestOut req body σ = Returns ((req', out), σ')
        /\ frame k σ σ'
  end.
Proof.
  intros Hk Hfrom Hin.
  destruct req as [m u p pj pn h b cl host].
  unfold dumped, httputil.DumpRequestOut, bodyFrom, bodyIn in *.
  rewrite outgoingLength_view. unfold view, http.withBody, http.outgoingLength.
  simpl in *.
  destruct body; simpl.
  - destruct b as [| |l]; simpl; unfold mbind, M_bind; simpl;
      (destruct u as [u|]; simpl; [|done]);
      rewrite ?unread_alloc; unfold http.withBody; simpl;
      destruct (http.roundTrip _ _) as [dump [e|]]; simpl;
      eexists _, _; (split; [reflexivity|frame_solve]).
  - destruct b as [| |l]; simpl; unfold mbind, M_bind; simpl.
    + destruct u as [u|]; simpl; [|done].
      destruct (http.roundTrip _ _) as [dump [e|]]; simpl;
        eexists _, _; (split; [reflexivity|frame_solve]).
    + destruct u as [u|]; simpl; [|done].
      destruct (http.roundTrip _ _) as [dump [e|]]; simpl;
        eexists _, _; (split; [reflexivity|frame_solve]).
    + assert (((if cl =? 0 then -1 else cl) =? 0) = false) as ->
        by (destruct (cl =? 0) eqn:Hcl; [done|exact Hcl]).
      simpl. destruct u as [u|]; simpl; [|done].
      rewrite ?unread_alloc; unfold http.withBody; simpl.
      destruct (http.roundTrip _ _) as [dump [e|]]; simpl;
        eexists _, _; (split; [reflexivity|frame_solve]).
Qed.

(** ** [CloneRequestWithBody], [HashRequest] and [RequestToBuff] *)

Lemma bind_eq {A B : Type} (m : M A) (k : A -> M B) (σ : Store) :
  (m ≫= k) σ = match m σ with
               | Returns (a, σ') => k a σ'
               | Panics why => Panics why
               end.
Proof. reflexivity. Qed.

(** The original reader is drained; the request as it is left points to a
    new reader, and the clone to another one, both over the bytes read. *)
Lemma CloneRequestWithBody_eq (r : http.Request loc) (σ : Store) :
  CloneRequestWithBody r σ =
  match http.Body_ r with
  | http.Reader l =>
      Returns ((http.withBody r (http.Reader (length σ)),
                http.withBody r (http.Reader (S (length σ)))),
               (<[l := ""]> σ ++ [unread σ l]) ++ [unread σ l])
  | _ => Returns ((r, r), σ)
  end.
Proof.
  unfold CloneRequestWithBody, http.Clone.
  destruct (http.Body_ r) as [| |l]; [done..|].
  unfold mbind, M_bind, io.ReadAll, io.NewReader. simpl.
  rewrite length_app, length_insert. simpl.
  by replace (length σ + 1)%nat with (S (length σ)) by lia.
Qed.

(** The clone, the filters and the dump, which [HashRequest] and
    [RequestToBuff] have in common: the dump is the canonical
    serialization of the request as its bytes stand; the request that is
    left delivers the same bytes, from a reader of its own; no other reader
    of the store is touched, save the one the request had, which is
    drained. *)
Lemma clone_filter_dump (r : http.Request loc) (filters : list RequestFilter) (σ : Store) :
  bodyIn σ r ->
  exists (r1 r2 r3 : http.Request loc) (σ1 σ2 : Store),
    CloneRequestWithBody r σ = Returns ((r1, r2), σ1)
    /\ callFilters filters r2 σ1 = Returns (r3, σ2)
    /\ match canonical (view σ r) filters with
       | Panics why => httputil.DumpRequestOut r3 (http.hasBody r1) σ2 = Panics why
       | Returns out =>
           exists (r4 : http.Request loc) (σ' : Store),
             httputil.DumpRequestOut r3 (http.hasBody r1) σ2 = Returns ((r4, out), σ')
             /\ view σ' r1 = view σ r /\ bodyIn σ' r1
             /\ (length σ <= length σ')%nat
             /\ (forall i : nat, (i < length σ)%nat -> http.Body_ r <> http.Reader i ->
                   σ' !! i = σ !! i)
       end.
Proof.
  intros Hin. rewrite CloneRequestWithBody_eq. unfold canonical.
  destruct (http.Body_ r) as [| |l] eqn:Hbody.
  - destruct (callFilters_spec filters (length σ) σ r) as (r3 & σ2 & Hcalls & Hview & Hin3 & Hfrom3 & Hframe);
      [done|by unfold bodyFrom; rewrite Hbody|done|].
    exists r, r, r3, σ, σ2. split; [done|]. split; [done|].
    pose proof (DumpRequestOut_spec r3 (http.hasBody r) (length σ) σ2) as Hdump.
    rewrite Hview in Hdump. rewrite hasBody_view.
    destruct (dumped _ _) as [out|why]; [|apply Hdump; [by destruct Hframe|done..]].
    destruct Hdump as (r4 & σ' & Hd & Hframe'); [by destruct Hframe|done..|].
    exists r4, σ'. split; [done|].
    pose proof (frame_trans _ _ _ _ Hframe Hframe') as [Hlen Hsame].
    splits; [| |done|auto].
    + unfold view. by rewrite Hbody.
    + unfold bodyIn. by rewrite Hbody.
  - destruct (callFilters_spec filters (length σ) σ r) as (r3 & σ2 & Hcalls & Hview & Hin3 & Hfrom3 & Hframe);
      [done|by unfold bodyFrom; rewrite Hbody|done|].
    exists r, r, r3, σ, σ2. split; [done|]. split; [done|].
    pose proof (DumpRequestOut_spec r3 (http.hasBody r) (length σ) σ2) as Hdump.
    rewrite Hview in Hdump. rewrite hasBody_view.
    destruct (dumped _ _) as [out|why]; [|apply Hdump; [by destruct Hframe|done..]].
    destruct Hdump as (r4 & σ' & Hd & Hframe'); [by destruct Hframe|done..|].
    exists r4, σ'. split; [done|].
    pose proof (frame_trans _ _ _ _ Hframe Hframe') as [Hlen Hsame].
    splits; [| |done|auto].
    + unfold view. by rewrite Hbody.
    + unfold bodyIn. by rewrite Hbody.
  - unfold bodyIn in Hin. rewrite Hbody in Hin.
    set (σ1 := (<[l := ""]> σ ++ [unread σ l]) ++ [unread σ l]).
    set (r1 := http.withBody r (http.Reader (length σ))).
    set (r2 := http.withBody r (http.Reader (S (length σ)))).
    assert (length σ1 = S (S (length σ))) as Hlen1 by (unfold σ1; store_length).
    assert (view σ1 r2 = view σ r) as Hview2.
    { unfold r2. rewrite view_withBody. unfold view. rewrite Hbody. simpl.
      do 2 f_equal. unfold σ1.
      replace (S (length σ)) with (length (<[l := ""]> σ ++ [unread σ l])) by store_length.
      apply unread_alloc. }
    destruct (callFilters_spec filters (S (length σ)) σ1 r2)
      as (r3 & σ2 & Hcalls & Hview & Hin3 & Hfrom3 & Hframe);
      [lia|unfold bodyFrom, r2; simpl; lia|unfold bodyIn, r2; simpl; lia|].
    exists r1, r2, r3, σ1, σ2. split; [done|]. split; [done|].
    pose proof (DumpRequestOut_spec r3 (http.hasBody r1) (S (length σ)) σ2) as Hdump.
    rewrite Hview, Hview2 in Hdump. rewrite hasBody_view.
    assert (http.hasBody r1 = http.hasBody r) as Hhas.
    { unfold r1, http.hasBody. by rewrite Hbody. }
    rewrite Hhas in Hdump |- *.
    destruct (dumped _ _) as [out|why]; [|apply Hdump; [destruct Hframe; lia|done..]].
    destruct Hdump as (r4 & σ' & Hd & Hframe'); [destruct Hframe; lia|done..|].
    exists r4, σ'. split; [done|].
    pose proof (frame_trans _ _ _ _ Hframe Hframe') as [Hlen Hsame].
    assert (forall i : nat, (i < S (length σ))%nat -> σ' !! i = σ1 !! i) as Hsame1 by auto.
    splits.
    + unfold r1. rewrite view_withBody. unfold view. rewrite Hbody. simpl.
      do 2 f_equal. unfold unread at 1. rewrite Hsame1 by lia. unfold σ1.
      rewrite lookup_app_l by store_length.
      replace (length σ) with (length (<[l := ""]> σ)) at 1 by store_length.
      by rewrite list_lookup_middle.
    + unfold bodyIn, r1. simpl. lia.
    + lia.
    + intros i Hi Hne. rewrite Hsame1 by lia. unfold σ1.
      rewrite !lookup_app_l by store_length.
      apply list_lookup_insert_ne. congruence.
Qed.

(** [HashRequest] returns the fingerprint of the request as its bytes
    stand, and leaves a request that delivers the same bytes. *)
Lemma HashRequest_spec (r : http.Request loc) (filters : list RequestFilter) (σ : Store) :
  bodyIn σ r ->
  match fingerprint (view σ r) filters with
  | Panics why => HashRequest r filters σ = Panics why
  | Returns out =>
      exists (r' : http.Request loc) (σ' : Store),
        HashRequest r filters σ = Returns ((r', out), σ')
        /\ view σ' r' = view σ r /\ bodyIn σ' r'
        /\ (length σ <= length σ')%nat
        /\ (forall i : nat, (i < length σ)%nat -> http.Body_ r <> http.Reader i ->
              σ' !! i = σ !! i)
  end.
Proof.
  intros Hin.
  destruct (clone_filter_dump r filters σ Hin)
    as (r1 & r2 & r3 & σ1 & σ2 & Hclone & Hcalls & Hdump).
  unfold fingerprint, digest, HashRequest. rewrite bind_eq, Hclone. simpl.
  rewrite bind_eq, Hcalls. simpl. rewrite bind_eq.
  destruct (canonical (view σ r) filters) as [[data err]|why]; simpl.
  - destruct Hdump as (r4 & σ' & -> & Hrest). simpl.
    destruct err as [e|]; simpl; by exists r1, σ'.
  - by rewrite Hdump.
Qed.

Lemma RequestToBuff_spec (r : http.Request loc) (filters : list RequestFilter) (σ : Store) :
  bodyIn σ r ->
  match buffered (view σ r) filters with
  | Panics why => RequestToBuff r filters σ = Panics why
  | Returns data =>
      exists (r' : http.Request loc) (σ' : Store),
        RequestToBuff r filters σ = Returns ((r', data), σ')
        /\ view σ' r' = view σ r /\ bodyIn σ' r'
        /\ (length σ <= length σ')%nat
        /\ (forall i : nat, (i < length σ)%nat -> http.Body_ r <> http.Reader i ->
              σ' !! i = σ !! i)
  end.
Proof.
  intros Hin.
  destruct (clone_filter_dump r filters σ Hin)
    as (r1 & r2 & r3 & σ1 & σ2 & Hclone & Hcalls & Hdump).
  unfold buffered, RequestToBuff. rewrite bind_eq, Hclone. simpl.
  rewrite bind_eq, Hcalls. simpl. rewrite bind_eq.
  destruct (canonical (view σ r) filters) as [[data err]|why]; simpl.
  - destruct Hdump as (r4 & σ' & -> & Hrest). simpl. by exists r1, σ'.
  - by rewrite Hdump.
Qed.

Lemma Fingerprint_spec (r : http.Request loc) (filters : list RequestFilter) (σ : Store) :
  bodyIn σ r -> Fingerprint r filters σ = fingerprint (view σ r) filters.
Proof.
  intros Hin. unfold Fingerprint.
  pose proof (HashRequest_spec r filters σ Hin) as Hspec.
  destruct (fingerprint (view σ r) filters) as [out|why].
  - by destruct Hspec as (r' & σ' & -> & _).
  - by rewrite Hspec.
Qed.

(** ** The factories *)

Lemma Request_Factory_spec (r : Request.t) (σ : Store) :
  exists request : http.Request loc,
    Request.Factory r σ = Returns (request, σ ++ [PostData.Text (Request.PostData r)])
    /\ view (σ ++ [PostData.Text (Request.PostData r)]) request = recordedRequest r
    /\ bodyIn (σ ++ [PostData.Text (Request.PostData r)]) request
    /\ http.Body_ request = http.Reader (length σ).
Proof.
  unfold Request.Factory, recordedRequest.
  destruct (http.ParseHTTPVersion _) as [[major minor] ok].
  eexists. split; [reflexivity|]. unfold view, bodyIn. simpl.
  rewrite unread_alloc, length_app. simpl. splits; [done|lia|done].
Qed.

(** The response handed out has a reader of its own over the decoded
    bytes. *)
Lemma Response_Factory_spec (r : Response.t) (σ : Store) :
  exists response : http.Response loc,
    Response.Factory r σ
    = Returns (response, σ ++ [(base64.DecodeString (ContentType.Text (Response.Content r))).1])
    /\ http.StatusCode response = Response.Status r
    /\ http.Status response = Response.StatusText r
    /\ http.RespProto response = Response.HttpVersion r
    /\ http.RespHeader response = Headers.ToHTTPHeader (Response.Headers r)
    /\ http.RespBody response = http.Reader (length σ).
Proof.
  unfold Response.Factory.
  destruct (base64.DecodeString _) as [body bad].
  destruct (http.ParseHTTPVersion _) as [[major minor] ok].
  eexists. split; [reflexivity|]. by simpl.
Qed.

(** ** [cacheEntry] and [RoundTrip] *)

Lemma cacheEntry_spec (r : ReplayTransport) (entry : Entry.t) (σ : Store) :
  match storedKey r entry with
  | Panics why => cacheEntry r entry σ = Panics why
  | Returns (hashKey, None) =>
      exists σ' : Store,
        cacheEntry r entry σ
        = Returns ((mkReplayTransport (harFiles r)
                      (<[hashKey := entry]> (harResponseCache r))
                      (requestFilters r) (responseFilters r) (debugger r), None), σ')
        /\ frame (length σ) σ σ'
  | Returns (_, Some e) =>
      exists σ' : Store,
        cacheEntry r entry σ = Returns ((r, Some e), σ') /\ frame (length σ) σ σ'
  end.
Proof.
  unfold storedKey, cacheEntry.
  destruct (Request_Factory_spec (Entry.Request entry) σ)
    as (request & Hfactory & Hview & Hin & Hbody).
  rewrite bind_eq, Hfactory. simpl. rewrite bind_eq.
  pose proof (HashRequest_spec request (requestFilters r) _ Hin) as Hhash.
  rewrite Hview in Hhash.
  destruct (fingerprint _ _) as [[hashKey err]|why]; [|by rewrite Hhash].
  destruct Hhash as (r' & σ' & -> & _ & _ & Hlen & Hsame). simpl.
  assert (frame (length σ) σ σ') as Hframe.
  { split; [rewrite length_app in Hlen; lia|].
    intros i Hi. rewrite Hsame.
    - by apply lookup_app_l.
    - rewrite length_app. lia.
    - rewrite Hbody. intros [= Heq]. lia. }
  destruct err as [e|]; by exists σ'.
Qed.

(** The filters run on the request in place, then [HashRequest] runs:
    the key is [liveKey], and the request is left filtered once. *)
Lemma RoundTrip_prelude (r : ReplayTransport) (request : http.Request loc) (σ : Store)
  (hashKey : string) (err : error) :
  bodyIn σ request ->
  liveKey r (view σ request) = Returns (hashKey, err) ->
  exists (request1 request2 : http.Request loc) (σ1 σ2 : Store),
    callFilters (requestFilters r) request σ = Returns (request1, σ1)
    /\ HashRequest request1 (requestFilters r) σ1 = Returns ((request2, (hashKey, err)), σ2)
    /\ view σ2 request2 = applyFilters (requestFilters r) (view σ request)
    /\ bodyIn σ2 request2.
Proof.
  intros Hin Hkey. unfold liveKey in Hkey.
  destruct (callFilters_spec (requestFilters r) 0 σ request)
    as (request1 & σ1 & Hcalls & Hview & Hin1 & _ & _);
    [lia|by unfold bodyFrom; destruct (http.Body_ request); try lia|done|].
  pose proof (HashRequest_spec request1 (requestFilters r) σ1 Hin1) as Hhash.
  rewrite Hview, Hkey in Hhash.
  destruct Hhash as (request2 & σ2 & Hhash & Hview2 & Hin2 & _).
  exists request1, request2, σ1, σ2. splits; [done..| |done].
  by rewrite Hview2.
Qed.

Lemma RoundTrip_hit (r : ReplayTransport) (order : list (string * Entry.t))
  (request : http.Request loc) (σ : Store) (hashKey : string) (entry : Entry.t) :
  bodyIn σ request ->
  liveKey r (view σ request) = Returns (hashKey, None) ->
  harResponseCache r !! hashKey = Some entry ->
  exists (request' : http.Request loc) (response : http.Response loc) (σ2 : Store),
    RoundTrip r order request σ
    = Returns ((request', (Some response, None)),
               σ2 ++ [(base64.DecodeString
                         (ContentType.Text (Response.Content (Entry.Response entry)))).1])
    /\ Response.Factory (Entry.Response entry) σ2
       = Returns (response,
                  σ2 ++ [(base64.DecodeString
                            (ContentType.Text (Response.Content (Entry.Response entry)))).1])
    /\ view σ2 request' = applyFilters (requestFilters r) (view σ request)
    /\ bodyIn σ2 request'.
Proof.
  intros Hin Hkey Hcache.
  destruct (RoundTrip_prelude r request σ hashKey None Hin Hkey)
    as (request1 & request2 & σ1 & σ2 & Hcalls & Hhash & Hview & Hin2).
  destruct (Response_Factory_spec (Entry.Response entry) σ2) as (response & Hfactory & _).
  exists request2, response, σ2. splits; [|done..].
  unfold RoundTrip. rewrite bind_eq, Hcalls. simpl. rewrite bind_eq, Hhash. simpl.
  rewrite Hcache. by rewrite bind_eq, Hfactory.
Qed.

Lemma RoundTrip_miss_without_debugger (r : ReplayTransport)
  (order : list (string * Entry.t)) (request : http.Request loc) (σ : Store)
  (hashKey : string) :
  bodyIn σ request ->
  liveKey r (view σ request) = Returns (hashKey, None) ->
  harResponseCache r !! hashKey = None ->
  debugger r = None ->
  exists (request' : http.Request loc) (σ' : Store),
    RoundTrip r order request σ = Returns ((request', (None, None)), σ').
Proof.
  intros Hin Hkey Hcache Hdbg.
  destruct (RoundTrip_prelude r request σ hashKey None Hin Hkey)
    as (request1 & request2 & σ1 & σ2 & Hcalls & Hhash & Hview & Hin2).
  exists request2, σ2.
  unfold RoundTrip. rewrite bind_eq, Hcalls. simpl. rewrite bind_eq, Hhash. simpl.
  by rewrite Hcache, Hdbg.
Qed.

(** ** The debugger *)

Lemma append_assoc (a b c : string) : (a +:+ b) +:+ c = a +:+ (b +:+ c).
Proof.
  induction a as [|x a IH]; [done|].
  change (String x ((a +:+ b) +:+ c) = String x (a +:+ (b +:+ c))). by rewrite IH.
Qed.

Lemma append_empty_r (a : string) : a +:+ "" = a.
Proof.
  induction a as [|x a IH]; [done|].
  change (String x (a +:+ "") = String x a). by rewrite IH.
Qed.

(** The report is the concatenation of the sections, in range order. *)
Lemma report_spec (differ : Differ) (filters : list RequestFilter)
  (order : list (string * Entry.t)) (reqKey incoming output : string) (σ : Store) :
  match sections differ filters reqKey incoming order with
  | Panics why => report differ filters order reqKey incoming output σ = Panics why
  | Returns ss =>
      exists σ' : Store,
        report differ filters order reqKey incoming output σ
        = Returns (output +:+ http.concatStrings ss, σ')
        /\ frame (length σ) σ σ'
  end.
Proof.
  revert output σ. induction order as [|[cacheKey entry] rest IH]; intros output σ.
  - simpl. exists σ. rewrite append_empty_r. split; [done|apply frame_refl].
  - simpl. unfold sectionOf. simpl.
    destruct (Request_Factory_spec (Entry.Request entry) σ)
      as (request & Hfactory & Hview & Hin & Hbody).
    rewrite bind_eq, Hfactory. simpl. rewrite bind_eq.
    pose proof (RequestToBuff_spec request filters _ Hin) as Hbuff.
    rewrite Hview in Hbuff.
    destruct (buffered _ _) as [cached|why]; simpl; [|by rewrite Hbuff].
    destruct Hbuff as (r' & σ1 & -> & _ & _ & Hlen & Hsame). simpl.
    specialize (IH (output +:+ reportSection cacheKey cached reqKey incoming
                                   (differ cached incoming)) σ1).
    destruct (sections _ _ _ _ rest) as [ss|why]; simpl; [|done].
    destruct IH as (σ' & -> & Hframe). exists σ'. split.
    + by rewrite append_assoc.
    + rewrite length_app in Hlen. simpl in Hlen.
      split; [destruct Hframe; lia|]. intros i Hi.
      destruct Hframe as [_ Hsame']. rewrite Hsame' by lia. rewrite Hsame.
      * by apply lookup_app_l.
      * rewrite length_app. lia.
      * rewrite Hbody. intros [= Heq]. lia.
Qed.

Lemma roundTripDebugger_spec (differ : Differ) (filters : list RequestFilter)
  (order : list (string * Entry.t)) (reqKey : string) (request : http.Request loc)
  (σ : Store) :
  bodyIn σ request ->
  match buffered (view σ request) filters with
  | Panics why => roundTripDebugger differ filters order reqKey request σ = Panics why
  | Returns incoming =>
      exists (request' : http.Request loc) (σ1 : Store),
        RequestToBuff request filters σ = Returns ((request', incoming), σ1)
        /\ view σ1 request' = view σ request
        /\ match sections differ filters reqKey incoming order with
           | Panics why =>
               roundTripDebugger differ filters order reqKey request σ = Panics why
           | Returns ss =>
               exists σ' : Store,
                 roundTripDebugger differ filters order reqKey request σ
                 = Returns ((request', errors.New (http.concatStrings ss)), σ')
                 /\ frame (length σ1) σ1 σ'
           end
  end.
Proof.
  intros Hin. unfold roundTripDebugger. rewrite bind_eq.
  pose proof (RequestToBuff_spec request filters σ Hin) as Hbuff.
  destruct (buffered _ _) as [incoming|why]; [|by rewrite Hbuff].
  destruct Hbuff as (request' & σ1 & Hbuff & Hview & _).
  exists request', σ1. rewrite Hbuff. simpl. split; [done|]. split; [done|].
  rewrite bind_eq.
  pose proof (report_spec differ filters order reqKey incoming "" σ1) as Hreport.
  destruct (sections _ _ _ _ order) as [ss|why]; [|by rewrite Hreport].
  destruct Hreport as (σ' & -> & Hframe). by exists σ'.
Qed.

Lemma sections_Permutation differ filters reqKey incoming order1 order2 ss1 :
  order1 ≡ₚ order2 ->
  sections differ filters reqKey incoming order1 = Returns ss1 ->
  exists ss2, sections differ filters reqKey incoming order2 = Returns ss2 /\ ss1 ≡ₚ ss2.
Proof.
  intros Hperm. revert ss1.
  induction Hperm as [|kv l l' Hperm IH|kv kv' l|l l' l'' Hperm1 IH1 Hperm2 IH2];
    intros ss1 Hss1; simpl in *.
  - exists ss1. by split.
  - destruct (sectionOf _ _ _ _ kv) as [s|why]; simpl in *; [|done].
    destruct (sections _ _ _ _ l) as [ss|why] eqn:Hl; simpl in *; [|done].
    injection Hss1 as <-. destruct (IH ss eq_refl) as (ss' & -> & Hss').
    simpl. eexists. split; [done|]. by constructor.
  - destruct (sectionOf _ _ _ _ kv) as [s|why]; simpl in *.
    + destruct (sectionOf _ _ _ _ kv') as [s'|why]; simpl in *; [|done].
      destruct (sections _ _ _ _ l) as [ss|why]; simpl in *; [|done].
      injection Hss1 as <-. eexists. split; [done|]. apply perm_swap.
    + by destruct (sectionOf _ _ _ _ kv') as [s'|why'].
  - destruct (IH1 ss1 Hss1) as (ss' & Hss' & Hp1).
    destruct (IH2 ss' Hss') as (ss'' & Hss'' & Hp2).
    exists ss''. split; [done|]. by etrans.
Qed.

(** ** Recorded headers and the header map *)

Lemma foldl_Add_lookup (hs : Headers.t) (h0 : http.Header) (k : string) :
  foldl (fun ht header => http.Add ht (Header.Name header) (Header.Value header)) h0 hs !! k
  = match valuesFor k hs with
    | [] => h0 !! k
    | vs => Some (default [] (h0 !! k) ++ vs)
    end.
Proof.
  revert h0. induction hs as [|x hs IH]; intros h0; [done|].
  simpl. rewrite IH. unfold valuesFor. rewrite filter_cons. fold (headerKey x).
  unfold http.Add. fold (headerKey x).
  destruct (decide (headerKey x = k)) as [->|Hne].
  - rewrite lookup_insert_eq, fmap_cons.
    destruct (Header.Value <$> filter _ hs) as [|v vs]; simpl; [done|].
    by rewrite <- app_assoc.
  - by rewrite lookup_insert_ne.
Qed.

Lemma ToHTTPHeader_lookup (hs : Headers.t) (k : string) :
  Headers.ToHTTPHeader hs !! k
  = match valuesFor k hs with [] => None | vs => Some vs end.
Proof.
  unfold Headers.ToHTTPHeader. rewrite foldl_Add_lookup, lookup_empty.
  by destruct (valuesFor k hs).
Qed.





Lemma Del_Add_absent (h : http.Header) (key value : string) :
  h !! http.CanonicalMIMEHeaderKey key = None ->
  http.Del (http.Add h key value) key = h.
Proof.
  intros Habsent. unfold http.Del, http.Add.
  rewrite delete_insert_eq. by apply delete_id.
Qed.

(* ===================================================================== *)
(** * The claims *)

Lemma HashRequest_inv (r r' : http.Request loc) (filters : list RequestFilter)
  (σ σ' : Store) (out : string * error) :
  bodyIn σ r ->
  HashRequest r filters σ = Returns ((r', out), σ') ->
  fingerprint (view σ r) filters = Returns out
  /\ view σ' r' = view σ r /\ bodyIn σ' r'
  /\ (length σ <= length σ')%nat
  /\ (forall i : nat, (i < length σ)%nat -> http.Body_ r <> http.Reader i ->
        σ' !! i = σ !! i).
Proof.
  intros Hin Hcall. pose proof (HashRequest_spec r filters σ Hin) as Hspec.
  destruct (fingerprint (view σ r) filters) as [out'|why]; [|congruence].
  destruct Hspec as (r2 & σ2 & Hcall' & Hrest).
  rewrite Hcall in Hcall'. by injection Hcall' as -> -> ->.
Qed.

(** ** C3: fingerprinting is repeatable *)

(** C3. [HashRequest] is a function of the request and the filter list: a
    second call on the request the first call leaves behind returns the
    same key and error, and so does a call on any request with the same
    fields and body bytes, wherever its reader lives. *)
Theorem HashRequest_deterministic (r r1 : http.Request loc)
  (filters : list RequestFilter) (σ σ1 : Store) (hashKey : string) (err : error) :
  bodyIn σ r ->
  HashRequest r filters σ = Returns ((r1, (hashKey, err)), σ1) ->
  (exists (r2 : http.Request loc) (σ2 : Store),
     HashRequest r1 filters σ1 = Returns ((r2, (hashKey, err)), σ2))
  /\ (forall (q : http.Request loc) (τ : Store),
        bodyIn τ q -> view τ q = view σ r ->
        exists (q' : http.Request loc) (τ' : Store),
          HashRequest q filters τ = Returns ((q', (hashKey, err)), τ')).
Proof.
  intros Hin Hcall.
  destruct (HashRequest_inv _ _ _ _ _ _ Hin Hcall) as (Hkey & Hview & Hin1 & _).
  assert (forall (q : http.Request loc) (τ : Store),
            bodyIn τ q -> view τ q = view σ r ->
            exists (q' : http.Request loc) (τ' : Store),
              HashRequest q filters τ = Returns ((q', (hashKey, err)), τ')) as Hany.
  { intros q τ Hq Hsame. pose proof (HashRequest_spec q filters τ Hq) as Hspec.
    rewrite Hsame, Hkey in Hspec. destruct Hspec as (q' & τ' & Hq' & _). eauto. }
  split; [by apply Hany|exact Hany].
Qed.

(** ** C4: fingerprinting leaves the request readable *)

(** C4. After [HashRequest] returns, with or without an error, the request
    it leaves behind has the fields it had and a body that, read to its
    end, delivers the bytes the body would have delivered before the call;
    no other reader of the store has been touched. *)
Theorem HashRequest_preserves_body (r r' : http.Request loc)
  (filters : list RequestFilter) (σ σ' : Store) (hashKey : string) (err : error) :
  bodyIn σ r ->
  HashRequest r filters σ = Returns ((r', (hashKey, err)), σ') ->
  view σ' r' = view σ r
  /\ (exists (content : string) (σa σb : Store),
        http.ReadFrom (http.Body_ r) σ = Returns (content, σa)
        /\ http.ReadFrom (http.Body_ r') σ' = Returns (content, σb))
  /\ (forall i : nat, (i < length σ)%nat -> http.Body_ r <> http.Reader i ->
        σ' !! i = σ !! i).
Proof.
  intros Hin Hcall.
  destruct (HashRequest_inv _ _ _ _ _ _ Hin Hcall) as (_ & Hview & _ & _ & Hsame).
  splits; [done| |done].
  unfold view in Hview.
  destruct r as [m u p pj pn h b cl host], r' as [m' u' p' pj' pn' h' b' cl' host'].
  simpl in *. injection Hview as _ _ _ _ _ _ Hbody _ _.
  destruct b as [| |l], b' as [| |l']; try discriminate Hbody; simpl.
  - by eexists "", _, _.
  - by eexists "", _, _.
  - injection Hbody as Hbody. unfold io.ReadAll. rewrite Hbody. by eexists _, _, _.
Qed.

(** ** C5: deleting a header by filter *)

(** C5. For a request that does not hold header [key], hashing the request
    with the header added, through a filter that deletes it, gives the key
    (and error) of hashing the request itself with no filter. *)
Theorem HashRequest_redaction (r : http.Request loc) (key value : string) (σ : Store) :
  bodyIn σ r ->
  http.Hdr r !! http.CanonicalMIMEHeaderKey key = None ->
  Fingerprint (http.withHeader r (http.Add (http.Hdr r) key value)) [delHeader key] σ
  = Fingerprint r [] σ.
Proof.
  intros Hin Habsent.
  rewrite !Fingerprint_spec; [|done|by destruct r].
  unfold fingerprint, canonical. simpl. unfold delHeader.
  rewrite view_withHeader, withHeader_withHeader, hasBody_withHeader.
  replace (http.Hdr (http.withHeader (view σ r) (http.Add (http.Hdr r) key value)))
    with (http.Add (http.Hdr r) key value) by (by destruct r).
  rewrite Del_Add_absent by done.
  replace (http.Hdr r) with (http.Hdr (view σ r)) by (by destruct r).
  by rewrite withHeader_id.
Qed.

(** ** C6: header order *)



(** ** C1: a miss without a debugger *)

(** C1 (the code departs from it). With no debugger, the request of the
    package's test, sent through a transport with an empty cache and no
    filters, comes back with a [nil] response and a [nil] error: the miss
    branch wraps a [nil] error, and wrapping [nil] gives [nil]. *)
Theorem RoundTrip_miss_returns_nil_nil :
  run (request ← newTestRequest;
       '(_, out) ← RoundTrip emptyTransport [] request;
       mret out)
  = Returns (None, None).
Proof. vm_compute. reflexivity. Qed.

(** ** C2: a hit replays the recorded response *)


(** ** C7: errors while building the cache *)

(** A source that fails to load fails the option. *)
Lemma WithHarFile_load_error (fsys : FileSystem) filename transport har e σ :
  LoadHarFile fsys filename = (har, Some e) ->
  exists transport', WithHarFile fsys filename transport σ = Returns ((transport', Some e), σ).
Proof. unfold WithHarFile. intros ->. by eexists. Qed.

(** The first failing option fails the construction. *)
Lemma applyOptions_first_error (opt : ReplayOption) (rest : list ReplayOption)
  (rt rt' : ReplayTransport) (e : string) (σ σ' : Store) :
  opt rt σ = Returns ((rt', Some e), σ') ->
  applyOptions (opt :: rest) rt σ = Returns ((rt', Some e), σ').
Proof. intros Hopt. simpl. by rewrite bind_eq, Hopt. Qed.

(** The loop over the entries of a file reports what the last entry did,
    whatever happened before. *)
Lemma cacheEntries_app (entries : list Entry.t) (last : Entry.t) transport err σ :
  cacheEntries (entries ++ [last]) transport err σ
  = ('(transport', _) ← cacheEntries entries transport err; cacheEntry transport' last) σ.
Proof.
  revert transport err σ.
  induction entries as [|entry entries IH]; intros transport err σ.
  - simpl. rewrite !bind_eq. unfold mret, M_ret.
    by destruct (cacheEntry transport last σ) as [[[? ?] ?]|?].
  - simpl. rewrite !bind_eq.
    destruct (cacheEntry transport entry σ) as [[[transport' err'] σ']|why]; [|done].
    simpl. by rewrite IH.
Qed.

(** C7 (the code departs from it). A recording whose first entry cannot be
    keyed and whose second entry can: [cacheEntry] reports an error for the
    first entry, yet [WithHarFile] and [NewReplayTransport] report none and
    hand out a cache holding the second entry alone. *)
Theorem WithHarFile_drops_entry_error :
  (exists e, run (cacheEntry emptyTransport unwritable) = Returns (emptyTransport, Some e))
  /\ exists rt,
       run (NewReplayTransport [WithHarFile oneBadRecording "testdata/mixed.har"])
       = Returns (rt, None)
       /\ harResponseCache rt = {[ keyOfGet := getResource ]}.
Proof.
  split.
  - eexists. vm_compute. reflexivity.
  - eexists. split; [vm_compute; reflexivity|]. simpl.
    apply map_eq. intros k. vm_compute. reflexivity.
Qed.

(** ** C8: two recordings under one fingerprint *)

(** C8. When two entries have the same fingerprint, caching the first and
    then the second raises no error, leaves the cache as if only the second
    had been cached, and a later request with that fingerprint gets the
    response made from the second. *)
Theorem cacheEntry_last_write_wins (r : ReplayTransport) (first second : Entry.t)
  (hashKey : string) (σ : Store) :
  storedKey r first = Returns (hashKey, None) ->
  storedKey r second = Returns (hashKey, None) ->
  exists (r1 r2 : ReplayTransport) (σ1 σ2 : Store),
    cacheEntry r first σ = Returns ((r1, None), σ1)
    /\ cacheEntry r1 second σ1 = Returns ((r2, None), σ2)
    /\ harResponseCache r2 = <[hashKey := second]> (harResponseCache r)
    /\ harResponseCache r2 !! hashKey = Some second
    /\ (forall (order : list (string * Entry.t)) (request : http.Request loc) (τ : Store),
          bodyIn τ request ->
          liveKey r2 (view τ request) = Returns (hashKey, None) ->
          exists (request' : http.Request loc) (response : http.Response loc)
                 (τ1 τ2 : Store),
            RoundTrip r2 order request τ = Returns ((request', (Some response, None)), τ2)
            /\ Response.Factory (Entry.Response second) τ1 = Returns (response, τ2)).
Proof.
  intros Hfirst Hsecond.
  pose (r1 := mkReplayTransport (harFiles r) (<[hashKey := first]> (harResponseCache r))
                (requestFilters r) (responseFilters r) (debugger r)).
  pose (r2 := mkReplayTransport (harFiles r1) (<[hashKey := second]> (harResponseCache r1))
                (requestFilters r1) (responseFilters r1) (debugger r1)).
  pose proof (cacheEntry_spec r first σ) as Hc1. rewrite Hfirst in Hc1.
  destruct Hc1 as (σ1 & Hc1 & _).
  pose proof (cacheEntry_spec r1 second σ1) as Hc2.
  change (storedKey r1 second) with (storedKey r second) in Hc2. rewrite Hsecond in Hc2.
  destruct Hc2 as (σ2 & Hc2 & _).
  exists r1, r2, σ1, σ2. splits; [done|done|apply insert_insert_eq|apply lookup_insert_eq|].
  intros order request τ Hin Hlive.
  destruct (RoundTrip_hit r2 order request τ hashKey second Hin Hlive (lookup_insert_eq _ _ _))
    as (request' & response & τ1 & Hcall & Hfactory & _).
  eexists request', response, τ1, _. split; [exact Hcall|exact Hfactory].
Qed.

(** ** C9: the diagnostic report *)

(** C9, as stated, fails: whatever the diff routine, there is a transport
    with a debugger installed, a request and two orders in which the range
    over the same cache may run, for which the report texts differ. *)
Lemma debugger_report_depends_on_range_order :
  ~ exists differ : Differ,
      forall (t t' : ReplayTransport) (dbg : Debugger)
             (order1 order2 : list (string * Entry.t)) (reqKey : string)
             (request : http.Request loc) (σ0 σ0' σ : Store),
        WithRoundTripDebugger differ t σ0 = Returns ((t', None), σ0') ->
        debugger t' = Some dbg ->
        order1 ≡ₚ map_to_list (harResponseCache t') ->
        order2 ≡ₚ map_to_list (harResponseCache t') ->
        bodyIn σ request ->
        reportText (dbg (requestFilters t') order1 reqKey request σ)
        = reportText (dbg (requestFilters t') order2 reqKey request σ).
Proof.
  intros [differ Hsame].
  assert (map_to_list (harResponseCache twoFixtures)
          ≡ₚ [(keyOfGet, getResource); (keyOfPost, postResource)]) as Hlist.
  { unfold twoFixtures. simpl.
    rewrite map_to_list_insert by (by vm_compute).
    rewrite map_to_list_insert by apply lookup_empty.
    by rewrite map_to_list_empty. }
  destruct (Request_Factory_spec
              (Entry.Request (recorded "GET" "https://example.com/v1/unrecorded"
                                       [Header.mk "Host" "example.com"] "" 0 "" "")) [])
    as (request & Hfactory & _ & Hin & _).
  injection Hfactory as <-. simpl in Hin.
  match type of Hin with bodyIn ?σ ?request =>
    specialize (Hsame twoFixtures _ _
                  [(keyOfGet, getResource); (keyOfPost, postResource)]
                  [(keyOfPost, postResource); (keyOfGet, getResource)]
                  "" request [] [] σ eq_refl eq_refl)
  end.
  simpl in Hsame. rewrite Hlist in Hsame.
  specialize (Hsame (reflexivity _) (perm_swap _ _ _) Hin).
  apply (f_equal (textPrefix 73)) in Hsame.
  vm_compute in Hsame. discriminate Hsame.
Qed.

Lemma sections_Forall2 (differ : Differ) (filters : list RequestFilter)
  (reqKey incoming : string) (order : list (string * Entry.t)) (ss : list string) :
  sections differ filters reqKey incoming order = Returns ss ->
  Forall2 (fun kv s => sectionOf differ filters reqKey incoming kv = Returns s) order ss.
Proof.
  revert ss. induction order as [|kv rest IH]; intros ss Hss; simpl in Hss.
  - injection Hss as <-. constructor.
  - destruct (sectionOf differ filters reqKey incoming kv) as [s|why] eqn:Hs;
      simpl in Hss; [|done].
    destruct (sections differ filters reqKey incoming rest) as [ss'|why];
      simpl in Hss; [|done].
    injection Hss as <-. constructor; [exact Hs|by apply IH].
Qed.

(** C9, amended. The report of the installed debugger is the concatenation
    of one section per cache entry, in the order the range over the cache
    meets the entries: the sections are those of [sections] over that
    order, the section of an entry being [sectionOf] of it, a function of
    the incoming bytes, the filters, the entry and the diff routine. Two
    runs on the same request, filters and cache produce the same sections,
    possibly in a different order; with at most one cache entry the text is
    the same. *)
Theorem debugger_report_up_to_range_order (differ : Differ)
  (t t' : ReplayTransport) (dbg : Debugger) (filters : list RequestFilter)
  (order1 order2 : list (string * Entry.t)) (reqKey : string)
  (request request1 : http.Request loc) (text1 : string) (σ0 σ0' σ σ1 : Store) :
  WithRoundTripDebugger differ t σ0 = Returns ((t', None), σ0') ->
  debugger t' = Some dbg ->
  order1 ≡ₚ order2 ->
  bodyIn σ request ->
  dbg filters order1 reqKey request σ = Returns ((request1, Some text1), σ1) ->
  exists (incoming text2 : string) (ss1 ss2 : list string) (σ2 : Store),
    buffered (view σ request) filters = Returns incoming
    /\ sections differ filters reqKey incoming order1 = Returns ss1
    /\ sections differ filters reqKey incoming order2 = Returns ss2
    /\ Forall2 (fun kv s => sectionOf differ filters reqKey incoming kv = Returns s)
         order1 ss1
    /\ Forall2 (fun kv s => sectionOf differ filters reqKey incoming kv = Returns s)
         order2 ss2
    /\ dbg filters order2 reqKey request σ = Returns ((request1, Some text2), σ2)
    /\ text1 = http.concatStrings ss1
    /\ text2 = http.concatStrings ss2
    /\ ss1 ≡ₚ ss2
    /\ ((length order1 <= 1)%nat -> text2 = text1).
Proof.
  intros Hinstall Hdbg Hperm Hin Hrun1.
  injection Hinstall as <- _. simpl in Hdbg. injection Hdbg as <-.
  pose proof (roundTripDebugger_spec differ filters order1 reqKey request σ Hin) as H1.
  pose proof (roundTripDebugger_spec differ filters order2 reqKey request σ Hin) as H2.
  destruct (buffered (view σ request) filters) as [incoming|why]; [|congruence].
  destruct H1 as (request' & τ & Hbuff & _ & H1).
  destruct H2 as (request'' & τ' & Hbuff' & _ & H2).
  rewrite Hbuff in Hbuff'. injection Hbuff' as <- <-.
  destruct (sections differ filters reqKey incoming order1) as [ss1|why] eqn:Hss1;
    [|congruence].
  destruct H1 as (σ' & H1 & _). rewrite Hrun1 in H1. injection H1 as -> -> ->.
  destruct (sections_Permutation _ _ _ _ _ _ _ Hperm Hss1) as (ss2 & Hss2 & Hp).
  pose proof (sections_Forall2 _ _ _ _ _ _ Hss1) as Hall1.
  pose proof (sections_Forall2 _ _ _ _ _ _ Hss2) as Hall2.
  rewrite Hss2 in H2. destruct H2 as (σ2 & H2 & _).
  exists incoming, (http.concatStrings ss2), ss1, ss2, σ2.
  splits; [done..|]. intros Hshort.
  assert (order2 = order1) as Heq.
  { destruct order1 as [|kv [|kv' rest]]; simpl in Hshort; [| |lia].
    - by apply Permutation_nil_l in Hperm.
    - by apply Permutation_singleton_l in Hperm. }
  rewrite Heq in Hss2. congruence.
Qed.

(** ** C10: filters run twice on the live request *)

(** [RoundTrip] hashes the dump of the request filtered twice. *)
Lemma liveKey_filters_twice (r : ReplayTransport) (request : http.Request string) :
  liveKey r request
  = digest (dumped
              (applyFilters (requestFilters r) (applyFilters (requestFilters r) request))
              (http.hasBody (applyFilters (requestFilters r) request))).
Proof. reflexivity. Qed.

(** [cacheEntry] hashes the dump of the recorded request filtered once. *)
Lemma storedKey_filters_once (r : ReplayTransport) (entry : Entry.t) :
  storedKey r entry
  = digest (dumped
              (applyFilters (requestFilters r) (recordedRequest (Entry.Request entry)))
              true).
Proof.
  unfold storedKey, fingerprint, canonical. do 2 f_equal.
  unfold recordedRequest. by destruct (http.ParseHTTPVersion _) as [[? ?] ?].
Qed.

Lemma cacheEntry_inv (r0 r : ReplayTransport) (entry : Entry.t) (σ σ' : Store) :
  cacheEntry r0 entry σ = Returns ((r, None), σ') ->
  exists hashKey,
    storedKey r0 entry = Returns (hashKey, None)
    /\ r = mkReplayTransport (harFiles r0) (<[hashKey := entry]> (harResponseCache r0))
             (requestFilters r0) (responseFilters r0) (debugger r0).
Proof.
  intros Hcall. pose proof (cacheEntry_spec r0 entry σ) as Hspec.
  destruct (storedKey r0 entry) as [[hashKey [e|]]|why]; [| |congruence].
  - destruct Hspec as (τ & Hspec & _). congruence.
  - destruct Hspec as (τ & Hspec & _). rewrite Hcall in Hspec.
    injection Hspec as -> _. by exists hashKey.
Qed.



(** A pipeline that is not idempotent can make a recorded request miss its
    own entry: with [markSeen] the key looked up differs from the key
    stored, and the transport, which has no debugger, answers with neither
    a response nor an error. *)
Lemma nonidempotent_pipeline_misses :
  storedKey (mkReplayTransport ∅ ∅ [markSeen] [] None) getResource
  = Returns ("538d8298a138e96ef09f6c338915a68765bfa5610a26818aa1002de6578662f1", None)
  /\ liveKey (mkReplayTransport ∅ ∅ [markSeen] [] None)
             (recordedRequest (Entry.Request getResource))
     = Returns ("e949c8de8a66241965a42be59f9978a1b4893371756cfdc4b9abe53dda55e052", None)
  /\ run ('(rt, _) ← cacheEntry (mkReplayTransport ∅ ∅ [markSeen] [] None) getResource;
          request ← Request.Factory (Entry.Request getResource);
          '(_, out) ← RoundTrip rt (map_to_list (harResponseCache rt)) request;
          mret out)
     = Returns (None, None).
Proof. splits; vm_compute; reflexivity. Qed.

(* ===================================================================== *)
(** * The embedding against known values *)

Example sha256_abc :
  hex.EncodeToString (sha256.Sum "abc")
  = "ba7816bf8f01cfea414140de5dae2223b00361a396177a9cb410ff61f20015ad".
Proof. vm_compute. reflexivity. Qed.

Example sha256_empty :
  hex.EncodeToString (sha256.Sum "")
  = "e3b0c44298fc1c149afbf4c8996fb92427ae41e4649b934ca495991b7852b855".
Proof. vm_compute. reflexivity. Qed.

Example hex_Format_values :
  hex.Format 0 = "0" /\ hex.Format 255 = "ff" /\ hex.Format 4096 = "1000".
Proof. vm_compute. auto. Qed.

Example base64_values :
  base64.DecodeString "aGVsbG8=" = ("hello", false)
  /\ base64.DecodeString "aGVsbG8h" = ("hello!", false)
  /\ base64.DecodeString "aGk=" = ("hi", false)
  /\ base64.DecodeString "aA==" = ("h", false)
  /\ base64.DecodeString "aGVsbG8" = ("hel", true).
Proof. vm_compute. auto 6. Qed.

Example url_Parse_values :
  url.Parse "https://postman-echo.com/get?foo1=bar1&foo2=bar2"
  = Some (url.mkURL "https" "postman-echo.com" "/get" "foo1=bar1&foo2=bar2")
  /\ url.Parse ":nope" = None.
Proof. vm_compute. auto. Qed.

(** Test__hashRequest, first case. *)
Example test_should_hash_request :
  run (r ← newTestRequest; '(_, out) ← HashRequest r []; mret out)
  = Returns ("b54b28b27aee90c17f06e30d05ea0b90cbc1e611702bdf423f01ee8b1f790d86", None).
Proof. vm_compute. reflexivity. Qed.

(** Test__hashRequest, second case: the header is added to the request. *)
Example test_should_hash_request_with_additional_header :
  run (r ← newTestRequest;
       let r := http.withHeader r (http.Add (http.Hdr r) "X-Test-Header" "test header value") in
       '(_, out) ← HashRequest r []; mret out)
  = Returns ("ca809a4c13223bff746882001cab31208094c8d97eaba5f53632053fda492ab6", None).
Proof. vm_compute. reflexivity. Qed.

(** Test__hashRequest, third case: the same request, hashed again through
    a filter that deletes the header. *)
Example test_should_redact_header :
  run (r ← newTestRequest;
       let r := http.withHeader r (http.Add (http.Hdr r) "X-Test-Header" "test header value") in
       '(r, _) ← HashRequest r [];
       '(_, out) ← HashRequest r [delHeader "X-Test-Header"]; mret out)
  = Returns ("b54b28b27aee90c17f06e30d05ea0b90cbc1e611702bdf423f01ee8b1f790d86", None).
Proof. vm_compute. reflexivity. Qed.

(** TestNewRequestRecorderMiddleware: the names of the files it expects
    are the keys of the two requests. *)
Example test_middleware_no_body :
  run (r ← httptestRequest "GET" "example.com" "/v1/resource" None;
       '(_, out) ← HashRequest r []; mret out)
  = Returns ("8f34da1cdd7de57aba9591986c6a991672044a47a816944bd20eb3a2bd66a2a0", None).
Proof. vm_compute. reflexivity. Qed.

Example test_middleware_json_body :
  run (r ← httptestRequest "POST" "example.com" "/v1/resource/new"
             (Some ("{" +:+ DQUOTE +:+ "name" +:+ DQUOTE +:+ ":"
                    +:+ DQUOTE +:+ "test" +:+ DQUOTE +:+ "}"));
       '(_, out) ← HashRequest r []; mret out)
  = Returns ("eb30fea141f725770a80ef7228996368ca274b2845214fa1e59ca89e3f476aa7", None).
Proof. vm_compute. reflexivity. Qed.

(** The fixtures are cached under the keys named for them. *)
Example twoFixtures_built :
  exists rt,
    run (NewReplayTransport [WithHarFile twoRecordings "testdata/two.har"])
    = Returns (rt, None)
    /\ harResponseCache rt = harResponseCache twoFixtures.
Proof.
  eexists. split; [vm_compute; reflexivity|]. simpl.
  apply map_eq. intros k. vm_compute. reflexivity.
Qed.

(** TestNewReplayTransport: the recorded request, sent through a transport
    built from its recording, is answered. *)
Example test_replay_recorded_request :
  run ('(rt, _) ← NewReplayTransport [WithHarFile twoRecordings "testdata/two.har"];
       request ← Request.Factory (Entry.Request postResource);
       '(_, (response, err)) ← RoundTrip rt (map_to_list (harResponseCache rt)) request;
       mret (http.StatusCode <$> response, err))
  = Returns (Some 201, None).
Proof. vm_compute. reflexivity. Qed.

(** The order of the values of one header name is written as it is, and so
    is fingerprinted. *)
Example value_order_is_fingerprinted :
  Headers.ToHTTPHeader [Header.mk "Accept" "text/html"; Header.mk "Accept" "text/plain"]
  <> Headers.ToHTTPHeader [Header.mk "Accept" "text/plain"; Header.mk "Accept" "text/html"]
  /\ run (r ← newTestRequest;
          '(_, out) ← HashRequest
             (http.withHeader r
                (Headers.ToHTTPHeader
                   [Header.mk "Accept" "text/html"; Header.mk "Accept" "text/plain"])) [];
          mret out)
     <> run (r ← newTestRequest;
             '(_, out) ← HashRequest
                (http.withHeader r
                   (Headers.ToHTTPHeader
                      [Header.mk "Accept" "text/plain"; Header.mk "Accept" "text/html"])) [];
             mret out).
Proof.
  split.
  - intros Heq. apply (f_equal (fun h : http.Header => h !! "Accept")) in Heq.
    vm_compute in Heq. discriminate Heq.
  - vm_compute. discriminate.
Qed.

(** The first and last round constants and the first word of the initial
    hash value, as the standard prints them. *)
Example sha256_constants :
  length sha256.K = 64%nat
  /\ hex.EncodeToString (sha256.be_bytes 4 (nth 0 sha256.K 0)) = "428a2f98"
  /\ hex.EncodeToString (sha256.be_bytes 4 (nth 63 sha256.K 0)) = "c67178f2"
  /\ hex.EncodeToString (sha256.be_bytes 4 (nth 0 sha256.H0 0)) = "6a09e667".
Proof. vm_compute. auto. Qed.

(* ===================================================================== *)
(** * The theorems at concrete inputs *)

Lemma bodyIn_testRequest : bodyIn [""] testRequest.
Proof. unfold bodyIn. simpl. lia. Defined.

Lemma HashRequest_testRequest :
  HashRequest testRequest [] [""]
  = Returns ((http.withBody testRequest (http.Reader 1%nat), (keyOfTest, None)),
             [""; ""; ""; ""; ""]).
Proof. vm_compute. reflexivity. Defined.

(** C3 at the request of the package's test. *)
Lemma HashRequest_deterministic_witness :
  newTestRequest [] = Returns (testRequest, [""])
  /\ bodyIn [""] testRequest
  /\ HashRequest testRequest [] [""]
     = Returns ((http.withBody testRequest (http.Reader 1%nat), (keyOfTest, None)),
                [""; ""; ""; ""; ""])
  /\ (exists (r2 : http.Request loc) (σ2 : Store),
        HashRequest (http.withBody testRequest (http.Reader 1%nat)) []
                    [""; ""; ""; ""; ""]
        = Returns ((r2, (keyOfTest, None)), σ2)).
Proof.
  split; [reflexivity|]. split; [exact bodyIn_testRequest|].
  split; [exact HashRequest_testRequest|].
  exact (proj1 (HashRequest_deterministic testRequest _ [] [""] _ keyOfTest None
                  bodyIn_testRequest HashRequest_testRequest)).
Defined.

Lemma bodyIn_postedRequest : bodyIn ["hello"] postedRequest.
Proof. unfold bodyIn. simpl. lia. Defined.

(** C4 at a request with a body of five bytes. *)
Lemma HashRequest_preserves_body_witness :
  exists (r' : http.Request loc) (σ' : Store) (hashKey : string),
    bodyIn ["hello"] postedRequest
    /\ HashRequest postedRequest [] ["hello"] = Returns ((r', (hashKey, None)), σ')
    /\ view σ' r' = view ["hello"] postedRequest
    /\ (exists (content : string) (σa σb : Store),
          http.ReadFrom (http.Body_ postedRequest) ["hello"] = Returns (content, σa)
          /\ http.ReadFrom (http.Body_ r') σ' = Returns (content, σb))
    /\ (forall i : nat, (i < length ["hello"])%nat ->
          http.Body_ postedRequest <> http.Reader i -> σ' !! i = ["hello"] !! i).
Proof.
  eexists _, _, _.
  match goal with
  | |- _ /\ ?call /\ _ => assert call as Hcall by (vm_compute; reflexivity)
  end.
  split; [exact bodyIn_postedRequest|]. split; [exact Hcall|].
  exact (HashRequest_preserves_body postedRequest _ [] ["hello"] _ _ None
           bodyIn_postedRequest Hcall).
Defined.

(** C5 at the request and the header of the package's test. *)
Lemma HashRequest_redaction_witness :
  bodyIn [""] testRequest
  /\ http.Hdr testRequest !! http.CanonicalMIMEHeaderKey "X-Test-Header" = None
  /\ Fingerprint
       (http.withHeader testRequest
          (http.Add (http.Hdr testRequest) "X-Test-Header" "test header value"))
       [delHeader "X-Test-Header"] [""]
     = Fingerprint testRequest [] [""].
Proof.
  split; [exact bodyIn_testRequest|]. split; [reflexivity|].
  exact (HashRequest_redaction testRequest "X-Test-Header" "test header value" [""]
           bodyIn_testRequest eq_refl).
Defined.


Lemma bodyIn_getRequest : bodyIn [""] getRequest.
Proof. unfold bodyIn. simpl. lia. Defined.



(** C8 at one request recorded twice, with two responses. *)
Lemma cacheEntry_last_write_wins_witness :
  storedKey emptyTransport getResource = Returns (keyOfGet, None)
  /\ storedKey emptyTransport getResourceAgain = Returns (keyOfGet, None)
  /\ exists (r1 r2 : ReplayTransport) (σ1 σ2 : Store),
       cacheEntry emptyTransport getResource [] = Returns ((r1, None), σ1)
       /\ cacheEntry r1 getResourceAgain σ1 = Returns ((r2, None), σ2)
       /\ harResponseCache r2
          = <[keyOfGet := getResourceAgain]> (harResponseCache emptyTransport)
       /\ harResponseCache r2 !! keyOfGet = Some getResourceAgain
       /\ (forall (order : list (string * Entry.t)) (request : http.Request loc)
                  (τ : Store),
             bodyIn τ request ->
             liveKey r2 (view τ request) = Returns (keyOfGet, None) ->
             exists (request' : http.Request loc) (response : http.Response loc)
                    (τ1 τ2 : Store),
               RoundTrip r2 order request τ
               = Returns ((request', (Some response, None)), τ2)
               /\ Response.Factory (Entry.Response getResourceAgain) τ1
                  = Returns (response, τ2)).
Proof.
  assert (storedKey emptyTransport getResource = Returns (keyOfGet, None)) as Hfirst
    by (vm_compute; reflexivity).
  assert (storedKey emptyTransport getResourceAgain = Returns (keyOfGet, None)) as Hsecond
    by (vm_compute; reflexivity).
  split; [exact Hfirst|]. split; [exact Hsecond|].
  exact (cacheEntry_last_write_wins emptyTransport getResource getResourceAgain
           keyOfGet [] Hfirst Hsecond).
Defined.

(** C9, amended, at the transport of the two fixtures, with the debugger
    installed, and the two orders of its cache. *)
Lemma debugger_report_up_to_range_order_witness :
  exists (request1 : http.Request loc) (text1 : string) (σ1 : Store),
    WithRoundTripDebugger plainDiffer twoFixtures []
    = Returns ((mkReplayTransport ∅ (harResponseCache twoFixtures) [] []
                  (Some (roundTripDebugger plainDiffer)), None), [])
    /\ [(keyOfGet, getResource); (keyOfPost, postResource)]
       ≡ₚ [(keyOfPost, postResource); (keyOfGet, getResource)]
    /\ bodyIn [""] getRequest
    /\ roundTripDebugger plainDiffer []
         [(keyOfGet, getResource); (keyOfPost, postResource)] keyOfGet getRequest [""]
       = Returns ((request1, Some text1), σ1)
    /\ exists (incoming text2 : string) (ss1 ss2 : list string) (σ2 : Store),
         buffered (view [""] getRequest) [] = Returns incoming
         /\ sections plainDiffer [] keyOfGet incoming
              [(keyOfGet, getResource); (keyOfPost, postResource)] = Returns ss1
         /\ sections plainDiffer [] keyOfGet incoming
              [(keyOfPost, postResource); (keyOfGet, getResource)] = Returns ss2
         /\ Forall2 (fun kv s => sectionOf plainDiffer [] keyOfGet incoming kv = Returns s)
              [(keyOfGet, getResource); (keyOfPost, postResource)] ss1
         /\ Forall2 (fun kv s => sectionOf plainDiffer [] keyOfGet incoming kv = Returns s)
              [(keyOfPost, postResource); (keyOfGet, getResource)] ss2
         /\ roundTripDebugger plainDiffer []
              [(keyOfPost, postResource); (keyOfGet, getResource)] keyOfGet getRequest [""]
            = Returns ((request1, Some text2), σ2)
         /\ text1 = http.concatStrings ss1
         /\ text2 = http.concatStrings ss2
         /\ ss1 ≡ₚ ss2
         /\ ((length [(keyOfGet, getResource); (keyOfPost, postResource)] <= 1)%nat ->
             text2 = text1).
Proof.
  eexists _, _, _.
  match goal with
  | |- _ /\ _ /\ _ /\ ?call /\ _ => assert call as Hcall by (vm_compute; reflexivity)
  end.
  split; [reflexivity|]. split; [apply perm_swap|]. split; [exact bodyIn_getRequest|].
  split; [exact Hcall|].
  exact (debugger_report_up_to_range_order plainDiffer twoFixtures _
           (roundTripDebugger plainDiffer) []
           [(keyOfGet, getResource); (keyOfPost, postResource)]
           [(keyOfPost, postResource); (keyOfGet, getResource)]
           keyOfGet getRequest _ _ [] [] [""] _
           eq_refl eq_refl (perm_swap _ _ _) bodyIn_getRequest Hcall).
Defined.


(* ===================================================================== *)
(** * Further properties of the package *)

(** ** Clones *)

Lemma view_same_reader (σ σ' : Store) (r : http.Request loc) :
  (forall l : loc, http.Body_ r = http.Reader l -> σ' !! l = σ !! l) ->
  view σ' r = view σ r.
Proof.
  intros Hsame. unfold view. destruct (http.Body_ r) as [| |l]; [done..|].
  simpl. unfold unread. by rewrite (Hsame l).
Qed.

(** What a call of [CloneRequestWithBody] leaves: two requests that deliver
    the bytes of the original, from two new readers when there is a body. *)
Lemma CloneRequestWithBody_spec (r : http.Request loc) (σ : Store) :
  bodyIn σ r ->
  exists (r1 r2 : http.Request loc) (σ' : Store),
    CloneRequestWithBody r σ = Returns ((r1, r2), σ')
    /\ view σ' r1 = view σ r /\ view σ' r2 = view σ r
    /\ bodyIn σ' r1 /\ bodyIn σ' r2
    /\ (length σ <= length σ')%nat
    /\ (forall i : nat, (i < length σ)%nat -> http.Body_ r <> http.Reader i ->
          σ' !! i = σ !! i)
    /\ (forall l1 l2 : loc,
          http.Body_ r1 = http.Reader l1 -> http.Body_ r2 = http.Reader l2 ->
          l1 = length σ /\ l2 = S (length σ)).
Proof.
  intros Hin. rewrite CloneRequestWithBody_eq. unfold bodyIn in Hin.
  destruct (http.Body_ r) as [| |l] eqn:Hbody.
  - exists r, r, σ. unfold bodyIn. rewrite Hbody. by splits.
  - exists r, r, σ. unfold bodyIn. rewrite Hbody. by splits.
  - eexists _, _, _. split; [reflexivity|].
    set (c := unread σ l).
    assert (length (<[l := ""]> σ) = length σ) as Hlen by apply length_insert.
    assert (((<[l := ""]> σ ++ [c]) ++ [c]) !! length σ = Some c) as Hfirst.
    { rewrite lookup_app_l by store_length. rewrite <- Hlen. by apply list_lookup_middle. }
    assert (((<[l := ""]> σ ++ [c]) ++ [c]) !! S (length σ) = Some c) as Hsecond.
    { replace (S (length σ)) with (length (<[l := ""]> σ ++ [c])) by store_length.
      by apply list_lookup_middle. }
    splits.
    + rewrite view_withBody. unfold view. rewrite Hbody. simpl.
      unfold unread at 1. by rewrite Hfirst.
    + rewrite view_withBody. unfold view. rewrite Hbody. simpl.
      unfold unread at 1. by rewrite Hsecond.
    + unfold bodyIn. simpl. store_length.
    + unfold bodyIn. simpl. store_length.
    + store_length.
    + intros i Hi Hne. rewrite !lookup_app_l by store_length.
      apply list_lookup_insert_ne. congruence.
    + simpl. intros l1 l2 [= <-] [= <-]. done.
Qed.

(** X1. After [CloneRequestWithBody], the request and its clone deliver the
    bytes the request had, each from a reader of its own: reading either
    body to its end leaves the other one whole. The reader the request came
    with is left drained, and no other reader is touched. *)
Theorem CloneRequestWithBody_independent_bodies (r : http.Request loc) (σ : Store) :
  bodyIn σ r ->
  exists (r1 clone : http.Request loc) (σ' : Store),
    CloneRequestWithBody r σ = Returns ((r1, clone), σ')
    /\ view σ' r1 = view σ r /\ view σ' clone = view σ r
    /\ (forall (content : string) (σa : Store),
          http.ReadFrom (http.Body_ clone) σ' = Returns (content, σa) ->
          view σa r1 = view σ r)
    /\ (forall (content : string) (σb : Store),
          http.ReadFrom (http.Body_ r1) σ' = Returns (content, σb) ->
          view σb clone = view σ r)
    /\ (forall l : loc, http.Body_ r = http.Reader l -> unread σ' l = "")
    /\ (forall i : nat, (i < length σ)%nat -> http.Body_ r <> http.Reader i ->
          σ' !! i = σ !! i).
Proof.
  intros Hin.
  destruct (CloneRequestWithBody_spec r σ Hin)
    as (r1 & r2 & σ' & Hcall & Hv1 & Hv2 & Hin1 & Hin2 & Hlen & Hsame & Hnew).
  exists r1, r2, σ'. split; [done|]. splits; [done|done| | | |done].
  - intros content σa Hread. rewrite <- Hv1. apply view_same_reader. intros l1 Hl1.
    destruct (http.Body_ r2) as [| |l2] eqn:Hb2; simpl in Hread;
      try (injection Hread as _ <-; done).
    unfold io.ReadAll in Hread. injection Hread as _ <-.
    destruct (Hnew l1 l2 Hl1 eq_refl) as [-> ->].
    apply list_lookup_insert_ne. lia.
  - intros content σb Hread. rewrite <- Hv2. apply view_same_reader. intros l2 Hl2.
    destruct (http.Body_ r1) as [| |l1] eqn:Hb1; simpl in Hread;
      try (injection Hread as _ <-; done).
    unfold io.ReadAll in Hread. injection Hread as _ <-.
    destruct (Hnew l1 l2 eq_refl Hl2) as [-> ->].
    apply list_lookup_insert_ne. lia.
  - intros l Hl. rewrite CloneRequestWithBody_eq, Hl in Hcall. injection Hcall as _ _ <-.
    unfold bodyIn in Hin. rewrite Hl in Hin. unfold unread.
    rewrite !lookup_app_l by store_length. by rewrite list_lookup_insert_eq.
Qed.

(** X2. After [CloneResponseWithBody], the response and its clone deliver
    the bytes the response had, each from a reader of its own: reading
    either body to its end leaves the other one whole, and no other reader
    is touched. *)
Theorem CloneResponseWithBody_independent_bodies (r : http.Response loc) (σ : Store) :
  match http.RespBody r with http.Reader l => (l < length σ)%nat | _ => True end ->
  exists (r1 clone : http.Response loc) (σ' : Store),
    CloneResponseWithBody r σ = Returns ((r1, clone), σ')
    /\ viewResponse σ' r1 = viewResponse σ r /\ viewResponse σ' clone = viewResponse σ r
    /\ (forall (content : string) (σa : Store),
          http.ReadFrom (http.RespBody clone) σ' = Returns (content, σa) ->
          viewResponse σa r1 = viewResponse σ r)
    /\ (forall (content : string) (σb : Store),
          http.ReadFrom (http.RespBody r1) σ' = Returns (content, σb) ->
          viewResponse σb clone = viewResponse σ r)
    /\ (forall i : nat, (i < length σ)%nat -> http.RespBody r <> http.Reader i ->
          σ' !! i = σ !! i).
Proof.
  intros Hin. unfold CloneResponseWithBody.
  destruct r as [st code p pj pn h b cl]. simpl in *.
  destruct b as [| |l]; simpl.
  - eexists _, _, _. split; [reflexivity|]. by splits.
  - eexists _, _, _. split; [reflexivity|]. by splits.
  - unfold mbind, M_bind, io.ReadAll, io.NewReader. simpl.
    eexists _, _, _. split; [reflexivity|].
    set (c := unread σ l).
    assert (length (<[l := ""]> σ) = length σ) as Hlen by apply length_insert.
    assert (((<[l := ""]> σ ++ [c]) ++ [c]) !! length σ = Some c) as Hfirst.
    { rewrite lookup_app_l by store_length. rewrite <- Hlen. by apply list_lookup_middle. }
    assert (((<[l := ""]> σ ++ [c]) ++ [c]) !! length (<[l := ""]> σ ++ [c]) = Some c)
      as Hsecond by (by apply list_lookup_middle).
    unfold viewResponse, withRespBody. simpl. rewrite Hlen.
    splits.
    + unfold unread at 1. by rewrite Hfirst.
    + unfold unread at 1. by rewrite Hsecond.
    + intros content σa [= _ <-]. unfold unread at 1.
      rewrite list_lookup_insert_ne by store_length. by rewrite Hfirst.
    + intros content σa [= _ <-]. unfold unread at 1.
      rewrite list_lookup_insert_ne by store_length. by rewrite Hsecond.
    + intros i Hi Hne. rewrite !lookup_app_l by store_length.
      apply list_lookup_insert_ne. congruence.
Qed.

(** ** Recorded headers, query parameters and the factories *)

Lemma toUpper_token (c : ascii) : http.isTokenByte (http.toUpper c) = http.isTokenByte c.
Proof. destruct c as [[] [] [] [] [] [] [] []]; vm_compute; reflexivity. Qed.

Lemma toLower_token (c : ascii) : http.isTokenByte (url.toLower c) = http.isTokenByte c.
Proof. destruct c as [[] [] [] [] [] [] [] []]; vm_compute; reflexivity. Qed.

Lemma toUpper_toUpper (c : ascii) : http.toUpper (http.toUpper c) = http.toUpper c.
Proof. destruct c as [[] [] [] [] [] [] [] []]; vm_compute; reflexivity. Qed.

Lemma toLower_toLower (c : ascii) : url.toLower (url.toLower c) = url.toLower c.
Proof. destruct c as [[] [] [] [] [] [] [] []]; vm_compute; reflexivity. Qed.

Lemma canonicalize_token (upper : bool) (s : string) :
  http.allBytes http.isTokenByte (http.canonicalize upper s)
  = http.allBytes http.isTokenByte s.
Proof.
  revert upper. induction s as [|c s IH]; intros upper; [done|].
  simpl. rewrite IH. by destruct upper; rewrite ?toUpper_token, ?toLower_token.
Qed.

Lemma canonicalize_canonicalize (upper : bool) (s : string) :
  http.canonicalize upper (http.canonicalize upper s) = http.canonicalize upper s.
Proof.
  revert upper. induction s as [|c s IH]; intros upper; [done|].
  simpl. destruct upper; rewrite ?toUpper_toUpper, ?toLower_toLower; by rewrite IH.
Qed.

(** Canonical header keys are left alone by [CanonicalMIMEHeaderKey]. *)
Lemma CanonicalMIMEHeaderKey_idempotent (s : string) :
  http.CanonicalMIMEHeaderKey (http.CanonicalMIMEHeaderKey s)
  = http.CanonicalMIMEHeaderKey s.
Proof.
  unfold http.CanonicalMIMEHeaderKey.
  destruct (http.allBytes http.isTokenByte s) eqn:Htoken.
  - by rewrite canonicalize_token, Htoken, canonicalize_canonicalize.
  - by rewrite Htoken.
Qed.

(** X3. Every key of the header map that [ToHTTPHeader] builds is in
    canonical form and holds at least one value: the values recorded under
    the names that canonicalize to the key, in recording order. *)
Theorem ToHTTPHeader_keys_canonical (hs : Headers.t) (k : string) (vs : list string) :
  Headers.ToHTTPHeader hs !! k = Some vs ->
  http.CanonicalMIMEHeaderKey k = k
  /\ vs <> []
  /\ vs = valuesFor k hs
  /\ (forall h : Header.t, h ∈ hs -> headerKey h = k -> Header.Value h ∈ vs)
  /\ http.Get (Headers.ToHTTPHeader hs) k = default "" (head vs).
Proof.
  rewrite ToHTTPHeader_lookup. intros Hk.
  assert (vs = valuesFor k hs /\ vs <> []) as [Hvs Hne].
  { destruct (valuesFor k hs) as [|v l]; [done|]. by injection Hk as <-. }
  assert (http.CanonicalMIMEHeaderKey k = k) as Hcanon.
  { unfold valuesFor in Hvs.
    destruct (filter (fun h => headerKey h = k) hs) as [|h l] eqn:Hfil;
      [by rewrite Hvs in Hne|].
    assert (h ∈ filter (fun h => headerKey h = k) hs) as Hh by (rewrite Hfil; left).
    apply list_elem_of_filter in Hh as [<- _].
    apply CanonicalMIMEHeaderKey_idempotent. }
  splits; [done..| |].
  - intros h Hh Hkey. rewrite Hvs. unfold valuesFor.
    apply list_elem_of_fmap. exists h. split; [done|]. by apply list_elem_of_filter.
  - unfold http.Get. rewrite Hcanon, ToHTTPHeader_lookup, <- Hvs.
    by destruct vs.
Qed.

Lemma foldl_Values_Add_lookup (q : QueryParams.t) (v0 : gmap string (list string))
  (name : string) :
  foldl (fun v param => Values_Add v (QueryParam.Name param) (QueryParam.Value param)) v0 q
  !! name
  = match paramValues name q with
    | [] => v0 !! name
    | vs => Some (default [] (v0 !! name) ++ vs)
    end.
Proof.
  revert v0. induction q as [|p q IH]; intros v0; [done|].
  simpl. rewrite IH. unfold paramValues. rewrite filter_cons. unfold Values_Add.
  destruct (decide (QueryParam.Name p = name)) as [->|Hne].
  - rewrite lookup_insert_eq, fmap_cons.
    destruct (QueryParam.Value <$> filter _ q) as [|x xs]; simpl; [done|].
    by rewrite <- app_assoc.
  - by rewrite lookup_insert_ne.
Qed.

(** X4. [ToURLValues] keeps, for every parameter name, the recorded values
    of exactly that name in recording order; a name that was not recorded
    is absent. Unlike header names, parameter names are not canonicalized. *)
Theorem ToURLValues_lookup (q : QueryParams.t) (name : string) :
  QueryParams.ToURLValues q !! name
  = match paramValues name q with [] => None | vs => Some vs end
  /\ (QueryParams.ToURLValues q !! name = None
      <-> forall p : QueryParam.t, p ∈ q -> QueryParam.Name p <> name).
Proof.
  assert (QueryParams.ToURLValues q !! name
          = match paramValues name q with [] => None | vs => Some vs end) as Hlookup.
  { unfold QueryParams.ToURLValues. rewrite foldl_Values_Add_lookup, lookup_empty.
    by destruct (paramValues name q). }
  split; [done|]. rewrite Hlookup. unfold paramValues. split.
  - intros Hnone p Hp Hname.
    assert (p ∈ filter (fun p => QueryParam.Name p = name) q) as Hin
      by (by apply list_elem_of_filter).
    destruct (filter (fun p => QueryParam.Name p = name) q) as [|x l]; [inversion Hin|done].
  - intros Hall.
    destruct (filter (fun p => QueryParam.Name p = name) q) as [|x l] eqn:Hfil; [done|].
    assert (x ∈ filter (fun p => QueryParam.Name p = name) q) as Hx by (rewrite Hfil; left).
    apply list_elem_of_filter in Hx as [Hname Hx]. by destruct (Hall x Hx).
Qed.

(** X5. The request [Request.Factory] builds always has a body reader, a
    new one, even when no post text was recorded: it delivers the recorded
    post text, [ContentLength] is the number of its bytes, [Host] is the
    first recorded value of the header [Host] (in any letter case) and
    empty when there is none, and the URL is what [url.Parse] returned, its
    error dropped. The readers that were there are left alone. *)
Theorem Request_Factory_builds (r : Request.t) (σ : Store) :
  exists (request : http.Request loc) (σ' : Store),
    Request.Factory r σ = Returns (request, σ')
    /\ http.hasBody request = true
    /\ http.Body_ request = http.Reader (length σ)
    /\ (exists σ'' : Store,
          http.ReadFrom (http.Body_ request) σ'
          = Returns (PostData.Text (Request.PostData r), σ''))
    /\ http.ContentLength request = len (PostData.Text (Request.PostData r))
    /\ http.Host request = default "" (head (valuesFor "Host" (Request.Headers r)))
    /\ http.Hdr request = Headers.ToHTTPHeader (Request.Headers r)
    /\ http.URL request = url.Parse (Request.Url r)
    /\ (forall i : nat, (i < length σ)%nat -> σ' !! i = σ !! i).
Proof.
  unfold Request.Factory.
  destruct (http.ParseHTTPVersion _) as [[major minor] ok].
  eexists _, _. split; [reflexivity|]. simpl. splits; try done.
  - eexists. unfold io.ReadAll. by rewrite unread_alloc.
  - unfold http.Get. change (http.CanonicalMIMEHeaderKey "Host") with "Host".
    rewrite ToHTTPHeader_lookup. by destruct (valuesFor "Host" (Request.Headers r)).
  - intros i Hi. by apply lookup_app_l.
Qed.

Lemma dumped_no_URL (request : http.Request string) (body : bool) :
  http.URL request = None ->
  dumped request body
  = Panics "runtime error: invalid memory address or nil pointer dereference".
Proof. intros Hurl. unfold dumped. by rewrite Hurl. Qed.

(** X6. [Request.Factory] drops the error of [url.Parse]: an entry whose
    URL does not parse gives a request without URL, and caching such an
    entry panics in [DumpRequestOut] instead of returning an error, unless
    a filter puts a URL in. *)
Theorem cacheEntry_panics_on_unparsable_url (r : ReplayTransport) (entry : Entry.t)
  (σ : Store) :
  url.Parse (Request.Url (Entry.Request entry)) = None ->
  (forall q : http.Request string,
     http.URL (applyFilters (requestFilters r) q) = http.URL q) ->
  (exists (request : http.Request loc) (σ' : Store),
     Request.Factory (Entry.Request entry) σ = Returns (request, σ')
     /\ http.URL request = None)
  /\ cacheEntry r entry σ
     = Panics "runtime error: invalid memory address or nil pointer dereference".
Proof.
  intros Hparse Hfilters. split.
  - unfold Request.Factory.
    destruct (http.ParseHTTPVersion _) as [[major minor] ok].
    eexists _, _. split; [reflexivity|]. simpl. exact Hparse.
  - pose proof (cacheEntry_spec r entry σ) as Hspec.
    unfold storedKey, fingerprint, canonical in Hspec.
    rewrite dumped_no_URL in Hspec; [done|].
    rewrite Hfilters. unfold recordedRequest.
    by destruct (http.ParseHTTPVersion _) as [[major minor] ok].
Qed.

(** X7. A single-response transport answers every request, any number of
    times, with a response and no error; each answer has a body reader of
    its own, so reading one answer to its end leaves the next one whole.
    The requests are not read. *)
Theorem SingleResponseTransport_answers_afresh (t : SingleResponseTransport)
  (request1 request2 : http.Request loc) (σ : Store) :
  exists (response1 response2 : http.Response loc) (σ1 σ2 : Store),
    SingleResponseTransport_RoundTrip t request1 σ = Returns ((Some response1, None), σ1)
    /\ SingleResponseTransport_RoundTrip t request2 σ1
       = Returns ((Some response2, None), σ2)
    /\ http.StatusCode response1 = Response.Status (Entry.Response (entry t))
    /\ http.StatusCode response2 = Response.Status (Entry.Response (entry t))
    /\ (exists σa σb : Store,
          http.ReadFrom (http.RespBody response1) σ2
          = Returns ((base64.DecodeString
                        (ContentType.Text (Response.Content (Entry.Response (entry t))))).1,
                     σa)
          /\ http.ReadFrom (http.RespBody response2) σa
             = Returns ((base64.DecodeString
                           (ContentType.Text (Response.Content (Entry.Response (entry t))))).1,
                        σb))
    /\ (forall i : nat, (i < length σ)%nat -> σ2 !! i = σ !! i).
Proof.
  unfold SingleResponseTransport_RoundTrip.
  destruct (Response_Factory_spec (Entry.Response (entry t)) σ)
    as (response1 & Hcall1 & Hcode1 & _ & _ & _ & Hbody1).
  set (content := (base64.DecodeString _).1) in *.
  destruct (Response_Factory_spec (Entry.Response (entry t)) (σ ++ [content]))
    as (response2 & Hcall2 & Hcode2 & _ & _ & _ & Hbody2).
  fold content in Hcall2.
  exists response1, response2, (σ ++ [content]), ((σ ++ [content]) ++ [content]).
  rewrite !bind_eq, Hcall1, Hcall2. simpl. splits; [done..| |].
  - rewrite Hbody1, Hbody2. simpl. unfold io.ReadAll. eexists _, _. split.
    + f_equal. f_equal. unfold unread. rewrite lookup_app_l by store_length.
      by rewrite list_lookup_middle.
    + f_equal. f_equal. unfold unread.
      rewrite list_lookup_insert_ne by store_length.
      by rewrite list_lookup_middle.
  - intros i Hi. rewrite !lookup_app_l by store_length. done.
Qed.

(** ** [HashRequest], [RequestToBuff] and the recorder *)

(** The dump that comes with an error is empty. *)
Lemma canonical_error_empty (request : http.Request string) (filters : list RequestFilter)
  (data e : string) :
  canonical request filters = Returns (data, Some e) -> data = "".
Proof.
  unfold canonical, dumped.
  destruct (http.URL (applyFilters filters request)) as [u|]; [|done].
  destruct (http.roundTrip _ _) as [dump [e'|]]; [|done].
  by intros [= <- _].
Qed.

(** The request [HashRequest] leaves: the one it was given, with a new
    reader in place of the one it had. *)
Lemma HashRequest_request_left (r r' : http.Request loc) (filters : list RequestFilter)
  (σ σ' : Store) (out : string * error) :
  HashRequest r filters σ = Returns ((r', out), σ') ->
  r' = match http.Body_ r with
       | http.Reader _ => http.withBody r (http.Reader (length σ))
       | _ => r
       end.
Proof.
  unfold HashRequest. rewrite bind_eq, CloneRequestWithBody_eq.
  destruct (http.Body_ r) as [| |l]; simpl; rewrite bind_eq;
    (destruct (callFilters _ _ _) as [[request σ1]|why]; [|done]); simpl;
    rewrite bind_eq;
    (destruct (httputil.DumpRequestOut _ _ _) as [[[r4 [data [e|]]] σ2]|why]; [| |done]);
    simpl; by intros [= <- _ _].
Qed.

Lemma RequestToBuff_request_left (r r' : http.Request loc) (filters : list RequestFilter)
  (σ σ' : Store) (data : string) :
  RequestToBuff r filters σ = Returns ((r', data), σ') ->
  r' = match http.Body_ r with
       | http.Reader _ => http.withBody r (http.Reader (length σ))
       | _ => r
       end.
Proof.
  unfold RequestToBuff. rewrite bind_eq, CloneRequestWithBody_eq.
  destruct (http.Body_ r) as [| |l]; simpl; rewrite bind_eq;
    (destruct (callFilters _ _ _) as [[request σ1]|why]; [|done]); simpl;
    rewrite bind_eq;
    (destruct (httputil.DumpRequestOut _ _ _) as [[[r4 [data' err]] σ2]|why]; [|done]);
    simpl; by intros [= <- _ _].
Qed.

Lemma RequestToBuff_inv (r r' : http.Request loc) (filters : list RequestFilter)
  (σ σ' : Store) (data : string) :
  bodyIn σ r ->
  RequestToBuff r filters σ = Returns ((r', data), σ') ->
  (exists err : error, canonical (view σ r) filters = Returns (data, err))
  /\ view σ' r' = view σ r /\ bodyIn σ' r'
  /\ (length σ <= length σ')%nat
  /\ (forall i : nat, (i < length σ)%nat -> http.Body_ r <> http.Reader i ->
        σ' !! i = σ !! i).
Proof.
  intros Hin Hcall. pose proof (RequestToBuff_spec r filters σ Hin) as Hspec.
  unfold buffered in Hspec.
  destruct (canonical (view σ r) filters) as [[data' err]|why]; simpl in Hspec;
    [|congruence].
  destruct Hspec as (r2 & σ2 & Hcall' & Hrest).
  rewrite Hcall in Hcall'. injection Hcall' as -> -> ->. split; [by exists err|done].
Qed.

(** X8. The key [HashRequest] returns is the SHA-256, in hexadecimal, of
    the bytes [RequestToBuff] returns for the same request and filters.
    When the request cannot be written, [RequestToBuff] returns an empty
    buffer and [HashRequest] an empty key with the error. Either way the
    request still delivers the bytes of its body afterwards. *)
Theorem HashRequest_key_is_digest_of_buffer (r r1 : http.Request loc)
  (filters : list RequestFilter) (σ σ1 : Store) (data : string) :
  bodyIn σ r ->
  RequestToBuff r filters σ = Returns ((r1, data), σ1) ->
  exists (r2 : http.Request loc) (hashKey : string) (err : error) (σ2 : Store),
    HashRequest r1 filters σ1 = Returns ((r2, (hashKey, err)), σ2)
    /\ (err = None -> hashKey = hex.EncodeToString (sha256.Sum data))
    /\ (is_Some err -> hashKey = "" /\ data = "")
    /\ view σ2 r2 = view σ r.
Proof.
  intros Hin Hbuff.
  destruct (RequestToBuff_inv _ _ _ _ _ _ Hin Hbuff) as ([err Hcanon] & Hview & Hin1 & _).
  pose proof (HashRequest_spec r1 filters σ1 Hin1) as Hhash.
  unfold fingerprint, digest in Hhash. rewrite Hview, Hcanon in Hhash. simpl in Hhash.
  destruct err as [e|]; simpl in Hhash.
  - destruct Hhash as (r2 & σ2 & Hcall & Hview2 & _).
    exists r2, "", (Some e), σ2. splits; [done|done| |congruence].
    intros _. split; [done|]. by apply (canonical_error_empty _ _ _ _ Hcanon).
  - destruct Hhash as (r2 & σ2 & Hcall & Hview2 & _).
    exists r2, (hex.EncodeToString (sha256.Sum data)), None, σ2.
    splits; [done|done| |congruence]. by intros [? ?].
Qed.

(** X9. [intercept] appends one record to the recorder and leaves the
    earlier ones alone. The record holds the canonical serialization of the
    request under the recorder's filters and, as its key, the SHA-256 of
    those bytes; when the request cannot be written, both are empty. The
    request still delivers the bytes of its body afterwards, and no reader
    but its own is touched. *)
Theorem intercept_appends_one_record (rdb : RequestRecorder.t) (r : http.Request loc)
  (σ : Store) (data : string) (err : error) :
  bodyIn σ r ->
  canonical (view σ r) (RequestRecorder.filters rdb) = Returns (data, err) ->
  exists (r' : http.Request loc) (σ' : Store),
    intercept rdb r σ
    = Returns ((RequestRecorder.mk
                  (RequestRecorder.requests rdb
                   ++ [RequestRecord.mk
                         (if err is Some _ then "" else hex.EncodeToString (sha256.Sum data))
                         data])
                  (RequestRecorder.filters rdb) (RequestRecorder.debug rdb), r'), σ')
    /\ (is_Some err -> data = "")
    /\ view σ' r' = view σ r
    /\ (forall i : nat, (i < length σ)%nat -> http.Body_ r <> http.Reader i ->
          σ' !! i = σ !! i).
Proof.
  intros Hin Hcanon. unfold intercept.
  pose proof (HashRequest_spec r (RequestRecorder.filters rdb) σ Hin) as Hhash.
  unfold fingerprint, digest in Hhash. rewrite Hcanon in Hhash. simpl in Hhash.
  assert (exists (r1 : http.Request loc) (σ1 : Store),
            HashRequest r (RequestRecorder.filters rdb) σ
            = Returns ((r1, (if err is Some _ then "" else hex.EncodeToString (sha256.Sum data),
                             err)), σ1)
            /\ view σ1 r1 = view σ r /\ bodyIn σ1 r1 /\ (length σ <= length σ1)%nat
            /\ (forall i : nat, (i < length σ)%nat -> http.Body_ r <> http.Reader i ->
                  σ1 !! i = σ !! i))
    as (r1 & σ1 & Hcall1 & Hview1 & Hin1 & Hlen1 & Hsame1).
  { destruct err as [e|]; simpl in Hhash;
      destruct Hhash as (r1 & σ1 & Hcall & Hrest); by exists r1, σ1. }
  pose proof (HashRequest_request_left _ _ _ _ _ _ Hcall1) as Hleft.
  rewrite bind_eq, Hcall1. simpl. rewrite bind_eq.
  pose proof (RequestToBuff_spec r1 (RequestRecorder.filters rdb) σ1 Hin1) as Hbuff.
  unfold buffered in Hbuff. rewrite Hview1, Hcanon in Hbuff. simpl in Hbuff.
  destruct Hbuff as (r2 & σ2 & Hcall2 & Hview2 & Hin2 & Hlen2 & Hsame2).
  rewrite Hcall2. simpl. exists r2, σ2. splits; [done| |congruence|].
  - intros [e ->]. by apply (canonical_error_empty _ _ _ _ Hcanon).
  - intros i Hi Hne. rewrite Hsame2; [by apply Hsame1|lia|].
    rewrite Hleft. destruct (http.Body_ r) as [| |l] eqn:Hbody; simpl.
    + by rewrite Hbody.
    + by rewrite Hbody.
    + intros [= Heq]. lia.
Qed.

(** ** [RoundTrip]: errors, the debugger and the request that is left *)

(** X10. When the live request cannot be hashed, [RoundTrip] returns no
    response and the error of the dump under the text "failed to hash
    request"; neither the cache nor the debugger is consulted. The caller's
    request is left as the filters made it. *)
Theorem RoundTrip_hash_failure (r : ReplayTransport) (order : list (string * Entry.t))
  (request : http.Request loc) (σ : Store) (hashKey e : string) :
  bodyIn σ request ->
  liveKey r (view σ request) = Returns (hashKey, Some e) ->
  exists (request' : http.Request loc) (σ' : Store),
    RoundTrip r order request σ
    = Returns ((request', (None, Some ("failed to hash request: " +:+ e))), σ')
    /\ view σ' request' = applyFilters (requestFilters r) (view σ request).
Proof.
  intros Hin Hkey.
  destruct (RoundTrip_prelude r request σ hashKey (Some e) Hin Hkey)
    as (request1 & request2 & σ1 & σ2 & Hcalls & Hhash & Hview & Hin2).
  exists request2, σ2. split; [|done].
  unfold RoundTrip. rewrite bind_eq, Hcalls. simpl. by rewrite bind_eq, Hhash.
Qed.

(** X11. With the debugger of [WithRoundTripDebugger] installed, a miss
    returns no response and an error that is never [nil]: the text "no
    cached response for this request", followed by one section per cache
    entry in range order (nothing when the cache is empty). The caller's
    request is left as the filters made it. *)
Theorem RoundTrip_miss_with_debugger (differ : Differ) (r : ReplayTransport)
  (order : list (string * Entry.t)) (request : http.Request loc) (σ : Store)
  (incoming : string) (ss : list string) :
  bodyIn σ request ->
  debugger r = Some (roundTripDebugger differ) ->
  canonical (applyFilters (requestFilters r) (view σ request)) (requestFilters r)
  = Returns (incoming, None) ->
  harResponseCache r !! hex.EncodeToString (sha256.Sum incoming) = None ->
  sections differ (requestFilters r) (hex.EncodeToString (sha256.Sum incoming)) incoming order
  = Returns ss ->
  exists (request' : http.Request loc) (σ' : Store),
    RoundTrip r order request σ
    = Returns ((request',
                (None, Some ("no cached response for this request: "
                             +:+ http.concatStrings ss))), σ')
    /\ view σ' request' = applyFilters (requestFilters r) (view σ request).
Proof.
  intros Hin Hdbg Hcanon Hmiss Hsections.
  set (hashKey := hex.EncodeToString (sha256.Sum incoming)) in *.
  assert (liveKey r (view σ request) = Returns (hashKey, None)) as Hkey.
  { unfold liveKey, fingerprint, digest. by rewrite Hcanon. }
  destruct (RoundTrip_prelude r request σ hashKey None Hin Hkey)
    as (request1 & request2 & σ1 & σ2 & Hcalls & Hhash & Hview & Hin2).
  pose proof (roundTripDebugger_spec differ (requestFilters r) order hashKey request2 σ2 Hin2)
    as Hspec.
  unfold buffered in Hspec. rewrite Hview, Hcanon in Hspec. simpl in Hspec.
  destruct Hspec as (request3 & σ3 & Hbuff & Hview3 & Hspec).
  rewrite Hsections in Hspec. destruct Hspec as (σ' & Hrun & Hframe).
  exists request3, σ'. split.
  - unfold RoundTrip. rewrite bind_eq, Hcalls. simpl. rewrite bind_eq, Hhash. simpl.
    rewrite Hmiss, Hdbg. rewrite !bind_eq, Hrun. by simpl.
  - rewrite <- Hview3. apply view_same_reader. intros l Hl.
    destruct (RequestToBuff_inv _ _ _ _ _ _ Hin2 Hbuff) as (_ & _ & Hin3 & _).
    unfold bodyIn in Hin3. rewrite Hl in Hin3. destruct Hframe as [_ Hsame]. by apply Hsame.
Qed.

(** X12. Without a debugger, whatever the outcome of [RoundTrip] (a hit,
    a miss or a hashing error), the caller's request is left changed: it is
    the request after the filters ran on it once, in place, with a body
    that still delivers all its bytes. *)
Theorem RoundTrip_filters_the_callers_request (r : ReplayTransport)
  (order : list (string * Entry.t)) (request request' : http.Request loc)
  (σ σ' : Store) (out : option (http.Response loc) * error) :
  bodyIn σ request ->
  debugger r = None ->
  RoundTrip r order request σ = Returns ((request', out), σ') ->
  view σ' request' = applyFilters (requestFilters r) (view σ request)
  /\ exists σ'' : Store,
       http.ReadFrom (http.Body_ request') σ'
       = Returns (match http.Body_ (applyFilters (requestFilters r) (view σ request)) with
                  | http.Reader content => content
                  | _ => ""
                  end, σ'').
Proof.
  intros Hin Hdbg Hcall.
  assert (view σ' request' = applyFilters (requestFilters r) (view σ request)) as Hview.
  { destruct (liveKey r (view σ request)) as [[hashKey err]|why] eqn:Hkey.
    - destruct (RoundTrip_prelude r request σ hashKey err Hin Hkey)
        as (request1 & request2 & σ1 & σ2 & Hcalls & Hhash & Hview & Hin2).
      unfold RoundTrip in Hcall. rewrite bind_eq, Hcalls in Hcall. simpl in Hcall.
      rewrite bind_eq, Hhash in Hcall. simpl in Hcall.
      destruct err as [e|]; simpl in Hcall; [by injection Hcall as <- _ <-|].
      destruct (harResponseCache r !! hashKey) as [entry|].
      + destruct (Response_Factory_spec (Entry.Response entry) σ2) as (resp & Hfac & _).
        rewrite bind_eq, Hfac in Hcall. simpl in Hcall. injection Hcall as <- _ <-.
        rewrite <- Hview. apply view_same_reader. intros l Hl.
        unfold bodyIn in Hin2. rewrite Hl in Hin2. by apply lookup_app_l.
      + rewrite Hdbg in Hcall. simpl in Hcall. by injection Hcall as <- _ <-.
    - exfalso. unfold liveKey in Hkey.
      destruct (callFilters_spec (requestFilters r) 0 σ request)
        as (request1 & σ1 & Hcalls & Hview & Hin1 & _ & _);
        [lia|by unfold bodyFrom; destruct (http.Body_ request); try lia|done|].
      pose proof (HashRequest_spec request1 (requestFilters r) σ1 Hin1) as Hhash.
      rewrite Hview, Hkey in Hhash.
      unfold RoundTrip in Hcall. rewrite bind_eq, Hcalls in Hcall. simpl in Hcall.
      by rewrite bind_eq, Hhash in Hcall. }
  split; [done|]. rewrite <- Hview. unfold view.
  destruct (http.Body_ request') as [| |l]; simpl; by eexists.
Qed.

(** ** Building the transport *)

Lemma applyOptions_app (before after : list ReplayOption) (rt : ReplayTransport)
  (σ : Store) :
  applyOptions (before ++ after) rt σ
  = match applyOptions before rt σ with
    | Returns ((rt', None), σ') => applyOptions after rt' σ'
    | other => other
    end.
Proof.
  revert rt σ. induction before as [|opt before IH]; intros rt σ; [done|].
  simpl. rewrite !bind_eq.
  destruct (opt rt σ) as [[[rt1 [e|]] σ1]|why]; simpl; [done| |done].
  apply IH.
Qed.

(** X13. [NewReplayTransport] runs its options in order and stops at the
    first that returns an error: it returns that error together with the
    transport as the failing option left it, and the options after it are
    not run. *)
Theorem NewReplayTransport_stops_at_first_error (before after : list ReplayOption)
  (opt : ReplayOption) (rt1 rt2 : ReplayTransport) (e : string) (σ σ1 σ2 : Store) :
  NewReplayTransport before σ = Returns ((rt1, None), σ1) ->
  opt rt1 σ1 = Returns ((rt2, Some e), σ2) ->
  NewReplayTransport (before ++ opt :: after) σ = Returns ((rt2, Some e), σ2).
Proof.
  unfold NewReplayTransport. intros Hbefore Hopt.
  rewrite applyOptions_app, Hbefore. simpl. by rewrite bind_eq, Hopt.
Qed.

Lemma cacheAfter_app (r : ReplayTransport) (l1 l2 : list Entry.t)
  (cache : gmap string Entry.t) :
  cacheAfter r (l1 ++ l2) cache = cacheAfter r l2 (cacheAfter r l1 cache).
Proof. unfold cacheAfter. by rewrite foldl_app. Qed.

(** Entries with other keys leave what the cache holds under a key. *)
Lemma cacheAfter_other_keys (r : ReplayTransport) (entries : list Entry.t)
  (cache : gmap string Entry.t) (hashKey : string) :
  (forall entry : Entry.t, entry ∈ entries ->
     storedKey r entry <> Returns (hashKey, None)) ->
  cacheAfter r entries cache !! hashKey = cache !! hashKey.
Proof.
  revert cache. induction entries as [|entry entries IH]; intros cache Hother; [done|].
  change (cacheAfter r (entry :: entries) cache)
    with (cacheAfter r entries
            (match storedKey r entry with
             | Returns (k, None) => <[k := entry]> cache
             | _ => cache
             end)).
  rewrite IH by (intros e He; apply Hother; by right).
  pose proof (Hother entry ltac:(left)) as Hentry.
  destruct (storedKey r entry) as [[k [e|]]|why]; [done| |done].
  apply lookup_insert_ne. intros ->. by destruct Hentry.
Qed.

(** The loop of [WithHarFile] over the entries of a file, none of which
    makes the dump panic. *)
Lemma cacheEntries_spec (entries : list Entry.t) (r : ReplayTransport) (err : error)
  (σ : Store) :
  (forall entry : Entry.t, entry ∈ entries ->
     exists out : string * error, storedKey r entry = Returns out) ->
  exists σ' : Store,
    cacheEntries entries r err σ
    = Returns ((mkReplayTransport (harFiles r) (cacheAfter r entries (harResponseCache r))
                  (requestFilters r) (responseFilters r) (debugger r),
                lastError r entries err), σ')
    /\ frame (length σ) σ σ'.
Proof.
  revert r err σ. induction entries as [|entry entries IH]; intros r err σ Hkeyed.
  - exists σ. split; [by destruct r|apply frame_refl].
  - simpl. rewrite bind_eq.
    pose proof (cacheEntry_spec r entry σ) as Hentry.
    destruct (Hkeyed entry ltac:(left)) as [[hashKey err1] Hkey].
    set (r1 := mkReplayTransport (harFiles r)
                 (match err1 with
                  | None => <[hashKey := entry]> (harResponseCache r)
                  | Some _ => harResponseCache r
                  end)
                 (requestFilters r) (responseFilters r) (debugger r)).
    assert (exists σ1 : Store,
              cacheEntry r entry σ = Returns ((r1, err1), σ1) /\ frame (length σ) σ σ1)
      as (σ1 & Hcall & Hframe1).
    { rewrite Hkey in Hentry. unfold r1. destruct err1 as [e|].
      - destruct Hentry as (σ1 & -> & Hframe). exists σ1. by destruct r.
      - destruct Hentry as (σ1 & -> & Hframe). by exists σ1. }
    rewrite Hcall. simpl.
    destruct (IH r1 err1 σ1) as (σ' & Hrest & Hframe2).
    { intros e He. change (storedKey r1 e) with (storedKey r e). apply Hkeyed. by right. }
    exists σ'. split.
    + rewrite Hrest. f_equal. f_equal. f_equal.
      * unfold r1. simpl. f_equal.
        change (cacheAfter r (entry :: entries) (harResponseCache r))
          with (cacheAfter r entries
                  (match storedKey r entry with
                   | Returns (k, None) => <[k := entry]> (harResponseCache r)
                   | _ => harResponseCache r
                   end)).
        rewrite Hkey. unfold cacheAfter.
        change (storedKey r1) with (storedKey r). by destruct err1.
      * unfold lastError. change (storedKey r1) with (storedKey r).
        destruct entries as [|e2 rest]; simpl; [by rewrite Hkey|].
        destruct (last (e2 :: rest)) as [x|] eqn:Hlast; [done|].
        by apply last_None in Hlast.
    + destruct Hframe1 as [Hlen1 Hsame1], Hframe2 as [Hlen2 Hsame2].
      split; [lia|]. intros i Hi. rewrite Hsame2 by lia. by apply Hsame1.
Qed.

Lemma cacheAfter_last (r : ReplayTransport) (before after : list Entry.t)
  (entry : Entry.t) (hashKey : string) (cache : gmap string Entry.t) :
  storedKey r entry = Returns (hashKey, None) ->
  (forall later : Entry.t, later ∈ after -> storedKey r later <> Returns (hashKey, None)) ->
  cacheAfter r (before ++ entry :: after) cache !! hashKey = Some entry.
Proof.
  intros Hkey Hafter. rewrite cacheAfter_app.
  change (cacheAfter r (entry :: after) (cacheAfter r before cache))
    with (cacheAfter r after
            (match storedKey r entry with
             | Returns (k, None) => <[k := entry]> (cacheAfter r before cache)
             | _ => cacheAfter r before cache
             end)).
  rewrite Hkey, cacheAfter_other_keys by done. apply lookup_insert_eq.
Qed.

Lemma WithHarFile_spec (fsys : FileSystem) (filename : string) (r : ReplayTransport)
  (har : HarFile.t) (σ : Store) :
  LoadHarFile fsys filename = (har, None) ->
  (forall entry : Entry.t, entry ∈ Log.Entries (HarFile.Log har) ->
     exists out : string * error, storedKey r entry = Returns out) ->
  exists (r' : ReplayTransport) (σ' : Store),
    WithHarFile fsys filename r σ
    = Returns ((r', lastError r (Log.Entries (HarFile.Log har)) None), σ')
    /\ harFiles r' = <[filename := har]> (harFiles r)
    /\ requestFilters r' = requestFilters r
    /\ harResponseCache r' = cacheAfter r (Log.Entries (HarFile.Log har)) (harResponseCache r).
Proof.
  intros Hload Hkeyed. unfold WithHarFile. rewrite Hload.
  set (r0 := mkReplayTransport (<[filename := har]> (harFiles r)) (harResponseCache r)
               (requestFilters r) (responseFilters r) (debugger r)).
  destruct (cacheEntries_spec (Log.Entries (HarFile.Log har)) r0 None σ) as (σ' & Hcall & _).
  { intros e He. change (storedKey r0 e) with (storedKey r e). by apply Hkeyed. }
  eexists _, σ'. split; [exact Hcall|]. simpl.
  change (cacheAfter r0) with (cacheAfter r). by splits.
Qed.

(** X14. When the file loads and no entry makes the dump panic,
    [WithHarFile] registers the file and offers its entries to the cache in
    order, keyed under the filters registered so far. An entry that is
    keyed goes in under its key, so that for every key the last entry of
    the file with that key is the one served; an entry that is not keyed is
    passed over, and the error returned is that of the last entry alone. A
    file without entries leaves the cache as it was. *)
Theorem WithHarFile_builds_cache (fsys : FileSystem) (filename : string)
  (r : ReplayTransport) (har : HarFile.t) (σ : Store) :
  LoadHarFile fsys filename = (har, None) ->
  (forall entry : Entry.t, entry ∈ Log.Entries (HarFile.Log har) ->
     exists out : string * error, storedKey r entry = Returns out) ->
  exists (r' : ReplayTransport) (σ' : Store),
    WithHarFile fsys filename r σ
    = Returns ((r', lastError r (Log.Entries (HarFile.Log har)) None), σ')
    /\ harFiles r' = <[filename := har]> (harFiles r)
    /\ requestFilters r' = requestFilters r
    /\ harResponseCache r' = cacheAfter r (Log.Entries (HarFile.Log har)) (harResponseCache r)
    /\ (forall (before after : list Entry.t) (entry : Entry.t) (hashKey : string),
          Log.Entries (HarFile.Log har) = before ++ entry :: after ->
          storedKey r entry = Returns (hashKey, None) ->
          (forall later : Entry.t, later ∈ after ->
             storedKey r later <> Returns (hashKey, None)) ->
          harResponseCache r' !! hashKey = Some entry)
    /\ (forall hashKey : string,
          (forall entry : Entry.t, entry ∈ Log.Entries (HarFile.Log har) ->
             storedKey r entry <> Returns (hashKey, None)) ->
          harResponseCache r' !! hashKey = harResponseCache r !! hashKey)
    /\ (Log.Entries (HarFile.Log har) = [] ->
        harResponseCache r' = harResponseCache r).
Proof.
  intros Hload Hkeyed.
  destruct (WithHarFile_spec fsys filename r har σ Hload Hkeyed)
    as (r' & σ' & Hcall & Hfiles & Hfilters & Hcache).
  exists r', σ'. rewrite Hcache. splits; [done..| | |].
  - intros before after entry hashKey -> Hkey Hafter. by apply cacheAfter_last.
  - intros hashKey Hother. by apply cacheAfter_other_keys.
  - by intros ->.
Qed.

(** ** Directories of recordings *)

Lemma DirEntry_nested_ind (P : fs.DirEntry -> Prop) :
  (forall (name : string) (isDir : bool) (entries : list fs.DirEntry) (readErr : error),
     Forall P entries -> P (fs.mkDirEntry name isDir entries readErr)) ->
  forall d : fs.DirEntry, P d.
Proof.
  intros Hnode. fix IH 1. intros [name isDir entries readErr]. apply Hnode.
  induction entries as [|d rest IHrest]; constructor; [apply IH|apply IHrest].
Qed.

Lemma walkDir_file (fsys : FileSystem) (path name : string) (entries : list fs.DirEntry)
  (readErr : error) (t : ReplayTransport) (σ : Store) :
  filepath.walkDir path (fs.mkDirEntry name false entries readErr) (walkHar fsys) t σ
  = applyOptions
      (WithHarFile fsys <$> harFilesUnder path (fs.mkDirEntry name false entries readErr))
      t σ.
Proof.
  simpl. rewrite bind_eq. unfold walkHar at 1. simpl.
  destruct (decide (filepath.Ext path = ".har")) as [Hext|Hext]; simpl.
  - rewrite bind_eq.
    by destruct (WithHarFile fsys path t σ) as [[[t1 [e|]] σ1]|why].
  - done.
Qed.

Lemma rangeDirs_spec (fsys : FileSystem) (path : string) (entries : list fs.DirEntry)
  (t : ReplayTransport) (σ : Store) :
  Forall (fun d => forall (path : string) (t : ReplayTransport) (σ : Store),
            readable d = true ->
            filepath.walkDir path d (walkHar fsys) t σ
            = applyOptions (WithHarFile fsys <$> harFilesUnder path d) t σ) entries ->
  forallb readable entries = true ->
  filepath.rangeDirs
    (fun d1 => filepath.walkDir (filepath.Join [path; fs.Name d1]) d1 (walkHar fsys))
    entries t σ
  = applyOptions
      (WithHarFile fsys
         <$> flat_map (fun d1 => harFilesUnder (filepath.Join [path; fs.Name d1]) d1) entries)
      t σ.
Proof.
  intros Hall. revert t σ.
  induction Hall as [|d rest Hd Hrest IH]; intros t σ Hreadable; [done|].
  simpl in Hreadable. apply andb_prop in Hreadable as [Hrd Hrrest].
  simpl. rewrite fmap_app, applyOptions_app, bind_eq, (Hd _ t σ Hrd).
  destruct (applyOptions _ t σ) as [[[t1 [e|]] σ1]|why]; [done| |done].
  by apply IH.
Qed.

Lemma walkDir_spec (fsys : FileSystem) (d : fs.DirEntry) :
  forall (path : string) (t : ReplayTransport) (σ : Store),
    readable d = true ->
    filepath.walkDir path d (walkHar fsys) t σ
    = applyOptions (WithHarFile fsys <$> harFilesUnder path d) t σ.
Proof.
  induction d as [name isDir entries readErr IH] using DirEntry_nested_ind.
  intros path t σ Hreadable. destruct isDir; [|apply walkDir_file].
  simpl in Hreadable. apply andb_prop in Hreadable as [Herr Hentries].
  apply bool_decide_eq_true in Herr as ->.
  etrans; [|exact (rangeDirs_spec fsys path entries t σ IH Hentries)].
  simpl. rewrite bind_eq. unfold walkHar at 1. simpl. by rewrite bind_eq.
Qed.

(** X15. Over a directory tree all of whose directories can be read,
    [WithHarDir] does what [NewReplayTransport] does with one [WithHarFile]
    per file whose extension is [.har], in the order of the walk: the other
    files are not opened, and the first file that reports an error ends the
    walk with that error. When the root cannot be examined, the error of
    the examination is returned and the transport is left as it was. *)
Theorem WithHarDir_loads_har_files (fsys : FileSystem) (info : fs.DirEntry)
  (dirname : string) (t : ReplayTransport) (σ : Store) :
  readable info = true ->
  WithHarDir fsys (filepath.Exists info) dirname t σ
  = applyOptions (WithHarFile fsys <$> harFilesUnder dirname info) t σ
  /\ (forall path : string, path ∈ harFilesUnder dirname info -> filepath.Ext path = ".har")
  /\ (forall e : string,
        WithHarDir fsys (filepath.Fails e) dirname t σ = Returns ((t, Some e), σ)).
Proof.
  intros Hreadable. splits; [by apply walkDir_spec| |done].
  clear Hreadable. revert dirname.
  induction info as [name isDir entries readErr IH] using DirEntry_nested_ind.
  intros dirname path. simpl. destruct isDir.
  - rewrite list_elem_of_In, in_flat_map. intros (d1 & Hd1 & Hpath).
    rewrite Forall_forall in IH.
    apply (IH d1 ltac:(by apply list_elem_of_In) (filepath.Join [dirname; fs.Name d1])).
    by apply list_elem_of_In.
  - destruct (decide (filepath.Ext dirname = ".har")) as [Hext|Hext].
    + by intros ->%list_elem_of_singleton.
    + by intros ?%elem_of_nil.
Qed.

(** ** The form of a key *)

Lemma round_length (st : list Z) (k w : Z) : length (sha256.round st k w) = length st.
Proof.
  by destruct st as [|a [|b [|c [|d [|e [|f [|g [|h [|i l]]]]]]]]].
Qed.

Lemma rounds_length (ks ws st : list Z) : length (sha256.rounds ks ws st) = length st.
Proof.
  revert ws st. induction ks as [|k ks IH]; intros ws st; [done|].
  simpl. by rewrite IH, round_length.
Qed.

Lemma compress_length (h block : list Z) : length (sha256.compress h block) = length h.
Proof.
  unfold sha256.compress. rewrite length_map, length_combine, rounds_length. lia.
Qed.

Lemma blocks_length (n : nat) (bs h : list Z) : length (sha256.blocks n bs h) = length h.
Proof.
  revert bs h. induction n as [|n IH]; intros bs h; [done|].
  simpl. by rewrite IH, compress_length.
Qed.

Lemma be_bytes_length (n : nat) (x : Z) : length (sha256.be_bytes n x) = n.
Proof. induction n as [|n IH]; [done|]. simpl. by rewrite IH. Qed.

Lemma be_bytes_range (n : nat) (x b : Z) : In b (sha256.be_bytes n x) -> 0 <= b < 256.
Proof.
  induction n as [|n IH]; [done|]. simpl. intros [<-|Hb]; [|auto].
  change 255 with (Z.ones 8). rewrite Z.land_ones by lia.
  apply Z.mod_pos_bound. lia.
Qed.

Lemma Sum_length (msg : string) : length (sha256.Sum msg) = 32%nat.
Proof.
  unfold sha256.Sum.
  pose proof (blocks_length
                (length (sha256.pad (bytes_of msg)) / 64)
                (sha256.pad (bytes_of msg)) sha256.H0) as Hlen.
  change (length sha256.H0) with 8%nat in Hlen.
  destruct (sha256.blocks _ _ _) as [|a [|b [|c [|d [|e [|f [|g [|h [|i l]]]]]]]]];
    try discriminate Hlen.
  simpl. rewrite ?length_app, ?be_bytes_length. done.
Qed.

Lemma Sum_range (msg : string) (b : Z) : In b (sha256.Sum msg) -> 0 <= b < 256.
Proof.
  unfold sha256.Sum. rewrite in_flat_map. intros (x & _ & Hb).
  by apply (be_bytes_range 4 x).
Qed.

Lemma digit_hex (n : Z) : 0 <= n < 16 -> isHexDigit (hex.digit n) = true.
Proof.
  intros Hn. replace n with (Z.of_nat (Z.to_nat n)) by lia.
  assert (Z.to_nat n < 16)%nat as Hk by lia. revert Hk.
  generalize (Z.to_nat n) as k. intros k Hk.
  do 16 (destruct k as [|k]; [reflexivity|]). lia.
Qed.

Lemma EncodeToString_form (bs : list Z) :
  (forall b : Z, In b bs -> 0 <= b < 256) ->
  String.length (hex.EncodeToString bs) = (2 * length bs)%nat
  /\ http.allBytes isHexDigit (hex.EncodeToString bs) = true.
Proof.
  induction bs as [|b bs IH]; intros Hrange; [done|].
  destruct IH as [Hlen Hhex]; [intros x Hx; apply Hrange; by right|].
  assert (0 <= b < 256) as Hb by (apply Hrange; by left).
  simpl. rewrite Hlen, Hhex. split; [lia|].
  rewrite !digit_hex; [done| |].
  - apply Z.mod_pos_bound. lia.
  - split; [apply Z.div_pos; lia|apply Z.div_lt_upper_bound; lia].
Qed.

(** X16. A key that [HashRequest] returns without an error is made of 64
    lowercase hexadecimal digits; with an error the key is empty. *)
Theorem HashRequest_key_form (r r' : http.Request loc) (filters : list RequestFilter)
  (σ σ' : Store) (hashKey : string) (err : error) :
  HashRequest r filters σ = Returns ((r', (hashKey, err)), σ') ->
  (err = None ->
   String.length hashKey = 64%nat /\ http.allBytes isHexDigit hashKey = true)
  /\ (is_Some err -> hashKey = "").
Proof.
  unfold HashRequest. rewrite bind_eq.
  destruct (CloneRequestWithBody r σ) as [[[r1 r2] σ1]|why]; [|done]. simpl.
  rewrite bind_eq. destruct (callFilters _ _ _) as [[request σ2]|why]; [|done]. simpl.
  rewrite bind_eq.
  destruct (httputil.DumpRequestOut _ _ _) as [[[r4 [data [e|]]] σ3]|why]; [| |done];
    simpl; intros [= _ <- <- _].
  - split; [done|by intros _].
  - split; [|by intros [? ?]]. intros _.
    destruct (EncodeToString_form (sha256.Sum data) (Sum_range data)) as [Hlen Hhex].
    by rewrite Hlen, Sum_length.
Qed.

(** ** Header-deleting filters *)

Lemma foldl_Del_lookup (keys : list string) (h : http.Header) (k : string) :
  foldl http.Del h keys !! k
  = if decide (k ∈ http.CanonicalMIMEHeaderKey <$> keys) then None else h !! k.
Proof.
  revert h. induction keys as [|key keys IH]; intros h.
  - simpl. destruct (decide (k ∈ [])) as [Hin|_]; [by apply elem_of_nil in Hin|done].
  - simpl. rewrite IH. unfold http.Del.
    destruct (decide (k ∈ http.CanonicalMIMEHeaderKey <$> keys)) as [Hin|Hnotin].
    + destruct (decide (k ∈ _ :: _)) as [_|Hout]; [done|]. destruct Hout. by right.
    + destruct (decide (k = http.CanonicalMIMEHeaderKey key)) as [->|Hne].
      * rewrite lookup_delete_eq.
        destruct (decide (_ ∈ _ :: _)) as [_|Hout]; [done|]. destruct Hout. by left.
      * rewrite lookup_delete_ne by done.
        destruct (decide (k ∈ _ :: _)) as [Hin|_]; [|done].
        by apply elem_of_cons in Hin as [?|?].
Qed.

Lemma applyFilters_delHeader (keys : list string) (q : http.Request string) :
  applyFilters (delHeader <$> keys) q
  = http.withHeader q (foldl http.Del (http.Hdr q) keys).
Proof.
  revert q. induction keys as [|key keys IH]; intros q.
  - simpl. by destruct q.
  - unfold applyFilters in *. simpl. rewrite IH. unfold delHeader. by destruct q.
Qed.

(** Deleting headers twice is deleting them once. *)
Lemma applyFilters_delHeader_idempotent (keys : list string) (q : http.Request string) :
  applyFilters (delHeader <$> keys) (applyFilters (delHeader <$> keys) q)
  = applyFilters (delHeader <$> keys) q.
Proof.
  rewrite !applyFilters_delHeader, withHeader_withHeader. f_equal.
  replace (http.Hdr (http.withHeader q (foldl http.Del (http.Hdr q) keys)))
    with (foldl http.Del (http.Hdr q) keys) by (by destruct q).
  apply map_eq. intros k. rewrite !foldl_Del_lookup.
  by destruct (decide (k ∈ http.CanonicalMIMEHeaderKey <$> keys)).
Qed.

(** X17. For a transport whose filters are all header deletions, as
    [WithDelHeaderFilter] registers them, a cached entry is replayed for
    every live request with a body that agrees with the recorded request
    once the headers are deleted from both, whatever the deleted headers
    held on either side. *)
Theorem header_deleting_transport_replays (r0 r : ReplayTransport) (keys : list string)
  (entry : Entry.t) (order : list (string * Entry.t)) (request : http.Request loc)
  (σ0 σ1 σ : Store) :
  requestFilters r0 = delHeader <$> keys ->
  cacheEntry r0 entry σ0 = Returns ((r, None), σ1) ->
  bodyIn σ request ->
  http.hasBody request = true ->
  applyFilters (delHeader <$> keys) (view σ request)
  = applyFilters (delHeader <$> keys) (recordedRequest (Entry.Request entry)) ->
  exists (request' : http.Request loc) (response : http.Response loc) (τ σ' : Store),
    RoundTrip r order request σ = Returns ((request', (Some response, None)), σ')
    /\ Response.Factory (Entry.Response entry) τ = Returns (response, σ')
    /\ view τ request' = applyFilters (delHeader <$> keys) (view σ request).
Proof.
  intros Hfilters Hcached Hin Hbody Hsame.
  destruct (cacheEntry_inv _ _ _ _ _ Hcached) as (hashKey & Hstored & ->).
  set (r := mkReplayTransport (harFiles r0) (<[hashKey := entry]> (harResponseCache r0))
              (requestFilters r0) (responseFilters r0) (debugger r0)).
  assert (liveKey r (view σ request) = Returns (hashKey, None)) as Hkey.
  { rewrite liveKey_filters_twice. unfold r. simpl. rewrite Hfilters.
    rewrite applyFilters_delHeader_idempotent.
    replace (http.hasBody (applyFilters (delHeader <$> keys) (view σ request))) with true.
    - rewrite Hsame, <- Hfilters, <- storedKey_filters_once. exact Hstored.
    - rewrite applyFilters_delHeader, hasBody_withHeader, hasBody_view. by rewrite Hbody. }
  destruct (RoundTrip_hit r order request σ hashKey entry Hin Hkey (lookup_insert_eq _ _ _))
    as (request' & response & τ & Hcall & Hfactory & Hview & _).
  eexists request', response, τ, _. splits; [exact Hcall|exact Hfactory|].
  rewrite Hview. unfold r. simpl. by rewrite Hfilters.
Qed.

(** ** Requests with an empty body *)

Arguments http.transfer : simpl never.

Lemma append_inv_head (a x y : string) : a +:+ x = a +:+ y -> x = y.
Proof.
  induction a as [|c a IH]; [done|].
  change (String c (a +:+ x) = String c (a +:+ y) -> x = y). intros [= Heq]. auto.
Qed.

Lemma append_head_ne (c1 c2 : ascii) (a b x y : string) :
  c1 <> c2 -> String c1 a +:+ x <> String c2 b +:+ y.
Proof.
  intros Hne. change (String c1 (a +:+ x) <> String c2 (b +:+ y)). congruence.
Qed.

(** With a method that usually has no body, an empty reader is written as
    no body at all. *)
Lemma dumped_empty_reader_bodyless (q : http.Request string) (b : http.Body string) :
  http.Body_ q = http.Reader "" ->
  http.ContentLength q = 0 ->
  http.requestMethodUsuallyLacksBody (http.valueOrDefault (http.Method q) "GET") = true ->
  b = http.NoBody \/ b = http.BodyNil ->
  dumped (http.withBody q b) false = dumped q true.
Proof.
  intros Hbody Hlen Hmethod Hb.
  destruct q as [m u p pj pn h body cl host]. simpl in *. subst body cl.
  assert (forall u' : option url.URL,
            http.transfer (http.mkRequest m u' p pj pn h (http.Reader "") 0 host)
            = (http.contentLengthHeader (http.valueOrDefault m "GET") 0, "", None))
    as Hreader.
  { intros u'. unfold http.transfer. simpl. rewrite Hmethod. simpl.
    destruct (decide (http.valueOrDefault m "GET" = "CONNECT")) as [Hconnect|_]; [|done].
    by rewrite Hconnect in Hmethod. }
  assert (forall u' : option url.URL,
            http.transfer (http.mkRequest m u' p pj pn h b 0 host)
            = (http.contentLengthHeader (http.valueOrDefault m "GET") 0, "", None))
    as Hnone.
  { intros u'. unfold http.transfer. simpl. by destruct Hb as [-> | ->]. }
  unfold dumped.
  destruct Hb as [-> | ->]; simpl; (destruct u as [u|]; [|done]);
    unfold http.withBody; simpl; unfold http.roundTrip, http.write; simpl;
    by rewrite ?Hreader, ?Hnone.
Qed.

(** X18. A request whose body is an empty reader with [ContentLength] zero,
    as [Request.Factory] builds it for a recording without post text, and
    whose method usually has no body (GET, HEAD, DELETE, OPTIONS, PROPFIND,
    SEARCH) has the key of the same request with [http.NoBody] or with no
    body at all, under any filters that delete headers: a live request
    built without a body finds such a recording. *)
Theorem bodyless_method_ignores_empty_reader (r : http.Request loc) (l : loc)
  (keys : list string) (σ : Store) :
  http.Body_ r = http.Reader l ->
  (l < length σ)%nat ->
  unread σ l = "" ->
  http.ContentLength r = 0 ->
  http.requestMethodUsuallyLacksBody (http.valueOrDefault (http.Method r) "GET") = true ->
  Fingerprint (http.withBody r http.NoBody) (delHeader <$> keys) σ
  = Fingerprint r (delHeader <$> keys) σ
  /\ Fingerprint (http.withBody r http.BodyNil) (delHeader <$> keys) σ
     = Fingerprint r (delHeader <$> keys) σ.
Proof.
  intros Hbody Hl Hempty Hlen Hmethod.
  assert (forall b : http.Body loc,
            b = http.NoBody \/ b = http.BodyNil ->
            Fingerprint (http.withBody r b) (delHeader <$> keys) σ
            = Fingerprint r (delHeader <$> keys) σ) as Hboth; [|by split; apply Hboth; auto].
  intros b Hb.
  rewrite !Fingerprint_spec;
    [|by unfold bodyIn; rewrite Hbody|by unfold bodyIn; destruct r, Hb as [-> | ->]].
  unfold fingerprint, canonical. f_equal.
  rewrite !applyFilters_delHeader, !hasBody_view.
  replace (http.hasBody (http.withBody r b)) with false by (by destruct r, Hb as [-> | ->]).
  replace (http.hasBody r) with true by (by unfold http.hasBody; rewrite Hbody).
  set (q := http.withHeader (view σ r) (foldl http.Del (http.Hdr (view σ r)) keys)).
  replace (http.withHeader (view σ (http.withBody r b))
             (foldl http.Del (http.Hdr (view σ (http.withBody r b))) keys))
    with (http.withBody q (http.mapBody (unread σ) b))
    by (by unfold q; destruct r).
  apply dumped_empty_reader_bodyless.
  - unfold q, view. destruct r. simpl in *. by rewrite Hbody, <- Hempty.
  - unfold q. by destruct r.
  - unfold q. by destruct r.
  - by destruct Hb as [-> | ->]; [left|right].
Qed.

(** With POST, PUT or PATCH, an empty reader is announced as a chunked
    body, and the request without body as a body of length zero. *)
Lemma dumped_empty_reader_posting (q : http.Request string) (data : string) :
  http.Body_ q = http.Reader "" ->
  http.ContentLength q = 0 ->
  http.Method q ∈ ["POST"; "PUT"; "PATCH"] ->
  dumped q true = Returns (data, None) ->
  exists data' : string,
    dumped (http.withBody q http.NoBody) false = Returns (data', None) /\ data' <> data.
Proof.
  intros Hbody Hlen Hmethod.
  destruct q as [m u p pj pn h body cl host]. simpl in *. subst body cl.
  unfold dumped. simpl. destruct u as [u|]; [|done].
  unfold http.withBody. simpl. unfold http.roundTrip, http.write. simpl.
  set (u' := if decide (url.Scheme u = "https") then _ else u).
  destruct (if _ || _ then http.validateHeaders h else None) as [e|]; [done|].
  destruct (negb _); [done|].
  assert (http.validMethod m = true /\ bool_decide (m = "") = false
          /\ bool_decide (m = "CONNECT") = false
          /\ http.transfer (http.mkRequest m (Some u) p pj pn h (http.Reader "") 0 host)
             = ("Transfer-Encoding: chunked" +:+ CRLF, "0" +:+ CRLF +:+ CRLF, None)
          /\ http.contentLengthHeader (http.valueOrDefault m "GET") 0
             = "Content-Length: 0" +:+ CRLF)
    as (-> & -> & -> & -> & ->).
  { apply list_elem_of_In in Hmethod. simpl in Hmethod.
    destruct Hmethod as [<-|[<-|[<-|[]]]]; by vm_compute. }
  simpl. destruct (decide (url.Host u' = "")); [done|].
  destruct (url.stringContainsCTLByte _); [done|].
  intros [= <-]. eexists. split; [reflexivity|].
  intros Heq. repeat apply append_inv_head in Heq.
  by apply append_head_ne in Heq.
Qed.

(** X19. For POST, PUT and PATCH it is otherwise: a request whose body is
    an empty reader with [ContentLength] zero, as [Request.Factory] builds
    it for a recording without post text, is serialized as a chunked body,
    and the same request with [http.NoBody] as a body of length zero. The
    bytes [RequestToBuff] returns for the two differ, so the two are keyed
    by the digests of different serializations. *)
Theorem posting_method_tells_empty_reader (r r1 : http.Request loc) (l : loc)
  (keys : list string) (σ σ1 : Store) (data : string) :
  http.Body_ r = http.Reader l ->
  (l < length σ)%nat ->
  unread σ l = "" ->
  http.ContentLength r = 0 ->
  http.Method r ∈ ["POST"; "PUT"; "PATCH"] ->
  RequestToBuff r (delHeader <$> keys) σ = Returns ((r1, data), σ1) ->
  data <> "" ->
  exists (r2 : http.Request loc) (data' : string) (σ2 : Store),
    RequestToBuff (http.withBody r http.NoBody) (delHeader <$> keys) σ
    = Returns ((r2, data'), σ2)
    /\ data' <> data.
Proof.
  intros Hbody Hl Hempty Hlen Hmethod Hcall Hdata.
  assert (bodyIn σ r) as Hin by (by unfold bodyIn; rewrite Hbody).
  destruct (RequestToBuff_inv _ _ _ _ _ _ Hin Hcall) as ([err Hcanon] & _).
  destruct err as [e|]; [by apply canonical_error_empty in Hcanon|].
  unfold canonical in Hcanon. rewrite applyFilters_delHeader, hasBody_view in Hcanon.
  replace (http.hasBody r) with true in Hcanon by (by unfold http.hasBody; rewrite Hbody).
  set (q := http.withHeader (view σ r) (foldl http.Del (http.Hdr (view σ r)) keys)) in *.
  destruct (dumped_empty_reader_posting q data) as (data' & Hdump & Hne);
    [| | |done|].
  - unfold q, view. destruct r. simpl in *. by rewrite Hbody, <- Hempty.
  - unfold q. by destruct r.
  - unfold q. by destruct r.
  - pose proof (RequestToBuff_spec (http.withBody r http.NoBody) (delHeader <$> keys) σ)
      as Hspec.
    unfold buffered, canonical in Hspec.
    rewrite applyFilters_delHeader, hasBody_view in Hspec.
    replace (http.hasBody (http.withBody r http.NoBody)) with false in Hspec
      by (by destruct r).
    replace (http.withHeader (view σ (http.withBody r http.NoBody))
               (foldl http.Del (http.Hdr (view σ (http.withBody r http.NoBody))) keys))
      with (http.withBody q (@http.NoBody string)) in Hspec by (by unfold q; destruct r).
    rewrite Hdump in Hspec. simpl in Hspec.
    destruct Hspec as (r2 & σ2 & Hcall2 & _); [by destruct r|].
    by exists r2, data', σ2.
Qed.

Lemma applyOptions_WithDelHeaderFilter (keys : list string) (rt : ReplayTransport)
  (σ : Store) :
  applyOptions (WithDelHeaderFilter <$> keys) rt σ
  = Returns ((withFilters rt (requestFilters rt ++ (delHeader <$> keys)), None), σ).
Proof.
  revert rt. induction keys as [|key keys IH]; intros rt.
  - simpl. unfold withFilters. rewrite app_nil_r. by destruct rt.
  - simpl. rewrite bind_eq. unfold WithDelHeaderFilter at 1, WithRequestFilter. simpl.
    rewrite IH. unfold withFilters. simpl. by rewrite <- app_assoc.
Qed.

(** X20. A transport built from [WithDelHeaderFilter] options followed by
    [WithHarFile] keys the entries of the file with the headers deleted.
    An entry that is keyed, and whose key no later entry of the file has,
    is then replayed for every live request with a body that agrees with
    its recorded request once the headers are deleted from both. *)
Theorem replay_with_deleted_headers (fsys : FileSystem) (filename : string)
  (har : HarFile.t) (keys : list string) (before after : list Entry.t) (entry : Entry.t)
  (hashKey : string) (order : list (string * Entry.t)) (request : http.Request loc)
  (σ0 σ : Store) :
  LoadHarFile fsys filename = (har, None) ->
  (forall e : Entry.t, e ∈ Log.Entries (HarFile.Log har) ->
     exists out : string * error,
       fingerprint (recordedRequest (Entry.Request e)) (delHeader <$> keys) = Returns out) ->
  Log.Entries (HarFile.Log har) = before ++ entry :: after ->
  fingerprint (recordedRequest (Entry.Request entry)) (delHeader <$> keys)
  = Returns (hashKey, None) ->
  (forall later : Entry.t, later ∈ after ->
     fingerprint (recordedRequest (Entry.Request later)) (delHeader <$> keys)
     <> Returns (hashKey, None)) ->
  bodyIn σ request ->
  http.hasBody request = true ->
  applyFilters (delHeader <$> keys) (view σ request)
  = applyFilters (delHeader <$> keys) (recordedRequest (Entry.Request entry)) ->
  exists (r : ReplayTransport) (err : error) (σ1 : Store) (request' : http.Request loc)
         (response : http.Response loc) (τ σ' : Store),
    NewReplayTransport ((WithDelHeaderFilter <$> keys) ++ [WithHarFile fsys filename]) σ0
    = Returns ((r, err), σ1)
    /\ requestFilters r = delHeader <$> keys
    /\ harResponseCache r !! hashKey = Some entry
    /\ RoundTrip r order request σ = Returns ((request', (Some response, None)), σ')
    /\ Response.Factory (Entry.Response entry) τ = Returns (response, σ').
Proof.
  intros Hload Hkeyed Hentries Hkey Hlater Hin Hbody Hsame.
  set (r0 := withFilters (mkReplayTransport ∅ ∅ [] [] None) ([] ++ (delHeader <$> keys))).
  destruct (WithHarFile_spec fsys filename r0 har σ0 Hload Hkeyed)
    as (r & σ1 & Hbuilt & _ & Hfilters & Hcached).
  assert (harResponseCache r !! hashKey = Some entry) as Hcache
    by (rewrite Hcached, Hentries; by apply cacheAfter_last).
  assert (liveKey r (view σ request) = Returns (hashKey, None)) as Hlive.
  { rewrite liveKey_filters_twice, Hfilters. unfold r0. simpl.
    rewrite applyFilters_delHeader_idempotent.
    replace (http.hasBody (applyFilters (delHeader <$> keys) (view σ request))) with true.
    - rewrite Hsame. rewrite <- Hkey. unfold fingerprint, canonical. do 2 f_equal.
      unfold recordedRequest. by destruct (http.ParseHTTPVersion _) as [[? ?] ?].
    - rewrite applyFilters_delHeader, hasBody_withHeader, hasBody_view. by rewrite Hbody. }
  destruct (RoundTrip_hit r order request σ hashKey entry Hin Hlive Hcache)
    as (request' & response & τ & Hcall & Hfactory & _).
  eexists r, (lastError r0 (Log.Entries (HarFile.Log har)) None), σ1, request', response,
    τ, _.
  splits; [|done|done|exact Hcall|exact Hfactory].
  unfold NewReplayTransport.
  rewrite applyOptions_app, applyOptions_WithDelHeaderFilter.
  change (applyOptions [WithHarFile fsys filename] r0 σ0
          = Returns ((r, lastError r0 (Log.Entries (HarFile.Log har)) None), σ1)).
  unfold applyOptions. rewrite bind_eq, Hbuilt. simpl.
  by destruct (lastError r0 (Log.Entries (HarFile.Log har)) None).
Qed.

(** ** The recording middleware *)

Lemma HashRequest_returns (r : http.Request loc) (filters : list RequestFilter)
  (σ : Store) (out : string * error) :
  bodyIn σ r ->
  fingerprint (view σ r) filters = Returns out ->
  exists (r' : http.Request loc) (σ' : Store),
    HashRequest r filters σ = Returns ((r', out), σ')
    /\ (length σ <= length σ')%nat
    /\ (forall i : nat, (i < length σ)%nat -> http.Body_ r <> http.Reader i ->
          σ' !! i = σ !! i).
Proof.
  intros Hin Hkey. pose proof (HashRequest_spec r filters σ Hin) as Hspec.
  rewrite Hkey in Hspec. destruct Hspec as (r' & σ' & Hcall & _ & _ & Hlen & Hsame).
  by exists r', σ'.
Qed.

Lemma RequestToBuff_returns (r : http.Request loc) (filters : list RequestFilter)
  (σ : Store) (data : string) :
  bodyIn σ r ->
  buffered (view σ r) filters = Returns data ->
  exists (r' : http.Request loc) (σ' : Store),
    RequestToBuff r filters σ = Returns ((r', data), σ')
    /\ (length σ <= length σ')%nat
    /\ (forall i : nat, (i < length σ)%nat -> http.Body_ r <> http.Reader i ->
          σ' !! i = σ !! i).
Proof.
  intros Hin Hbuff. pose proof (RequestToBuff_spec r filters σ Hin) as Hspec.
  rewrite Hbuff in Hspec. destruct Hspec as (r' & σ' & Hcall & _ & _ & Hlen & Hsame).
  by exists r', σ'.
Qed.

(** A request that a step does not work on keeps its bytes. *)
Lemma request_kept (σ σ' : Store) (x y : http.Request loc) :
  bodyIn σ y ->
  (length σ <= length σ')%nat ->
  (forall i : nat, (i < length σ)%nat -> http.Body_ x <> http.Reader i ->
     σ' !! i = σ !! i) ->
  (forall l : loc, http.Body_ y = http.Reader l -> http.Body_ x <> http.Reader l) ->
  view σ' y = view σ y /\ bodyIn σ' y.
Proof.
  intros Hin Hlen Hsame Hapart. unfold bodyIn in *. split.
  - apply view_same_reader. intros l Hl. rewrite Hl in Hin. apply Hsame; auto.
  - destruct (http.Body_ y); [done..|lia].
Qed.

Lemma view_withURL (σ : Store) (r : http.Request loc) (u : option url.URL) :
  view σ (withURL r u) = withURL (view σ r) u.
Proof. by destruct r. Qed.

(** The handler on a request, when recording is enabled. *)
Lemma recordRequest_enabled (params : RequestRecorderMiddlewareParams.t)
  (request : http.Request loc) (σ : Store) (data : string) (err : error) :
  RequestRecorderMiddlewareParams.Enabled params = true ->
  bodyIn σ request ->
  canonical (mappedURL params (view σ request))
            (RequestRecorderMiddlewareParams.RequestFilters params)
  = Returns (data, err) ->
  exists (request' : http.Request loc) (σ' : Store),
    recordRequest params request σ
    = Returns ((request',
                match err with
                | Some _ => None
                | None =>
                    Some (filepath.Join [RequestRecorderMiddlewareParams.Dir params;
                                         hex.EncodeToString (sha256.Sum data) +:+ ".req"],
                          data)
                end), σ')
    /\ view σ' request' = view σ request.
Proof.
  intros Henabled Hin Hcanon. unfold recordRequest. rewrite Henabled. simpl.
  set (filters := RequestRecorderMiddlewareParams.RequestFilters params) in *.
  (* the copy of the request *)
  destruct (CloneRequestWithBody_spec request σ Hin)
    as (request1 & copy & σ1 & Hclone1 & Hview1 & Hviewc & Hin1 & Hinc & Hlen1 & _ & Hnew1).
  rewrite bind_eq, Hclone1. simpl. rewrite bind_eq.
  set (copy' := match RequestRecorderMiddlewareParams.URLMapper params with
                | Some mapper => withURL copy (Some (mapper (view σ1 copy)))
                | None => copy
                end).
  assert ((match RequestRecorderMiddlewareParams.URLMapper params with
           | Some mapper =>
               fun σ : Store =>
                 Returns (withURL copy (Some (mapper (view σ copy))), σ)
           | None => mret copy
           end) σ1 = Returns (copy', σ1)) as ->.
  { unfold copy'. by destruct (RequestRecorderMiddlewareParams.URLMapper params). }
  simpl.
  assert (http.Body_ copy' = http.Body_ copy) as Hbody'.
  { unfold copy'. destruct (RequestRecorderMiddlewareParams.URLMapper params); [|done].
    by destruct copy. }
  assert (view σ1 copy' = mappedURL params (view σ request)) as Hview'.
  { unfold copy', mappedURL.
    destruct (RequestRecorderMiddlewareParams.URLMapper params); [|done].
    by rewrite view_withURL, Hviewc. }
  assert (bodyIn σ1 copy') as Hin' by (unfold bodyIn in *; by rewrite Hbody').
  (* the clone that is hashed *)
  destruct (CloneRequestWithBody_spec copy' σ1 Hin')
    as (copy2 & clone & σ2 & Hclone2 & Hview2 & Hviewc2 & Hin2 & Hinc2 & Hlen2 & Hsame2
        & Hnew2).
  rewrite bind_eq, Hclone2. simpl. rewrite bind_eq.
  destruct (request_kept σ1 σ2 copy' request1 Hin1 Hlen2 Hsame2) as [Hkeep2 Hin12].
  { intros l Hl. rewrite Hbody'. intros Hcopy.
    destruct (Hnew1 l l Hl Hcopy) as [? ?]. lia. }
  assert (fingerprint (view σ2 clone) filters
          = Returns (match err with
                     | Some e => ("", Some e)
                     | None => (hex.EncodeToString (sha256.Sum data), None)
                     end)) as Hkey.
  { unfold fingerprint, digest. rewrite Hviewc2, Hview', Hcanon. simpl. by destruct err. }
  destruct (HashRequest_returns clone filters σ2 _ Hinc2 Hkey)
    as (clone' & σ3 & Hhash & Hlen3 & Hsame3).
  rewrite Hhash. simpl.
  assert (forall (y : http.Request loc) (l : loc),
            http.Body_ y = http.Reader l -> (l < length σ1)%nat ->
            http.Body_ clone <> http.Reader l) as Hfresh.
  { intros y l Hl Hold Hclone.
    destruct (http.Body_ copy2) as [| |l2] eqn:Hb2.
    - rewrite CloneRequestWithBody_eq in Hclone2.
      destruct (http.Body_ copy') as [| |l'] eqn:Hb'.
      + injection Hclone2 as <- <- <-. congruence.
      + injection Hclone2 as <- <- <-. congruence.
      + injection Hclone2 as <- <- <-. simpl in Hb2. done.
    - rewrite CloneRequestWithBody_eq in Hclone2.
      destruct (http.Body_ copy') as [| |l'] eqn:Hb'.
      + injection Hclone2 as <- <- <-. congruence.
      + injection Hclone2 as <- <- <-. congruence.
      + injection Hclone2 as <- <- <-. simpl in Hb2. done.
    - destruct (Hnew2 l2 l eq_refl Hclone) as [? ?]. lia. }
  destruct (request_kept σ2 σ3 clone request1 Hin12 Hlen3 Hsame3) as [Hkeep3 Hin13].
  { intros l Hl. apply (Hfresh request1 l Hl).
    unfold bodyIn in Hin1. by rewrite Hl in Hin1. }
  destruct err as [e|]; simpl.
  { exists request1, σ3. split; [done|]. by rewrite Hkeep3, Hkeep2. }
  (* the clone that is written *)
  destruct (request_kept σ2 σ3 clone copy2 Hin2 Hlen3 Hsame3) as [Hkeepc Hinc3].
  { intros l Hl Hclone. destruct (Hnew2 l l Hl Hclone) as [? ?]. lia. }
  destruct (CloneRequestWithBody_spec copy2 σ3 Hinc3)
    as (copy3 & clone2 & σ4 & Hclone3 & Hview3 & Hviewc3 & Hin3 & Hinc4 & Hlen4 & Hsame4
        & Hnew3).
  rewrite bind_eq, Hclone3. simpl. rewrite bind_eq.
  destruct (request_kept σ3 σ4 copy2 request1 Hin13 Hlen4 Hsame4) as [Hkeep4 Hin14].
  { intros l Hl Hcopy2. unfold bodyIn in Hin1. rewrite Hl in Hin1.
    destruct (http.Body_ clone) as [| |lc] eqn:Hbc.
    - rewrite CloneRequestWithBody_eq in Hclone2.
      destruct (http.Body_ copy') as [| |l'] eqn:Hb'.
      + injection Hclone2 as <- <- <-. congruence.
      + injection Hclone2 as <- <- <-. congruence.
      + injection Hclone2 as <- <- <-. simpl in Hbc. done.
    - rewrite CloneRequestWithBody_eq in Hclone2.
      destruct (http.Body_ copy') as [| |l'] eqn:Hb'.
      + injection Hclone2 as <- <- <-. congruence.
      + injection Hclone2 as <- <- <-. congruence.
      + injection Hclone2 as <- <- <-. simpl in Hbc. done.
    - destruct (Hnew2 l lc Hcopy2 eq_refl) as [? ?]. lia. }
  assert (buffered (view σ4 clone2) filters = Returns data) as Hbuff.
  { unfold buffered. by rewrite Hviewc3, Hkeepc, Hview2, Hview', Hcanon. }
  destruct (RequestToBuff_returns clone2 filters σ4 data Hinc4 Hbuff)
    as (clone2' & σ5 & Hcall & Hlen5 & Hsame5).
  rewrite Hcall. simpl.
  destruct (request_kept σ4 σ5 clone2 request1 Hin14 Hlen5 Hsame5) as [Hkeep5 _].
  { intros l Hl Hclone. unfold bodyIn in Hin13. rewrite Hl in Hin13.
    destruct (http.Body_ copy3) as [| |l3] eqn:Hb3.
    - rewrite CloneRequestWithBody_eq in Hclone3.
      destruct (http.Body_ copy2) as [| |l2] eqn:Hb2.
      + injection Hclone3 as <- <- <-. congruence.
      + injection Hclone3 as <- <- <-. congruence.
      + injection Hclone3 as <- <- <-. simpl in Hb3. done.
    - rewrite CloneRequestWithBody_eq in Hclone3.
      destruct (http.Body_ copy2) as [| |l2] eqn:Hb2.
      + injection Hclone3 as <- <- <-. congruence.
      + injection Hclone3 as <- <- <-. congruence.
      + injection Hclone3 as <- <- <-. simpl in Hb3. done.
    - destruct (Hnew3 l3 l eq_refl Hclone) as [? ?]. lia. }
  exists request1, σ5. split; [done|].
  by rewrite Hkeep5, Hkeep4, Hkeep3, Hkeep2.
Qed.

(** X21. The handler of [NewRequestRecorderMiddleware] hands the request on
    with the bytes of its body intact in every case. When recording is off
    it does nothing else. When it is on and the request (with the URL of
    the mapper, if any) can be written, it makes one call of [os.WriteFile]:
    the data is the canonical serialization under the filters of the
    parameters, and the file is named, in the recording directory, by the
    SHA-256 of the data followed by [.req]. When the request cannot be
    written, no file is written. The directory is the one of the
    parameters, or [proxy-recorder/requests] under the temporary directory
    when none is given. *)
Theorem recording_middleware_names_file_by_digest (tempDir : string)
  (mkdirAll : string -> error) (params : RequestRecorderMiddlewareParams.t)
  (handler : http.Request loc -> M (http.Request loc * option (string * string)))
  (request : http.Request loc) (σ : Store) :
  NewRequestRecorderMiddleware tempDir mkdirAll params = (Some handler, None) ->
  bodyIn σ request ->
  (RequestRecorderMiddlewareParams.Enabled params = false ->
   handler request σ = Returns ((request, None), σ))
  /\ (forall (data : string) (err : error),
        RequestRecorderMiddlewareParams.Enabled params = true ->
        canonical (mappedURL params (view σ request))
                  (RequestRecorderMiddlewareParams.RequestFilters params)
        = Returns (data, err) ->
        exists (request' : http.Request loc) (σ' : Store),
          handler request σ
          = Returns ((request',
                      match err with
                      | Some _ => None
                      | None =>
                          Some (filepath.Join
                                  [recordDir tempDir params;
                                   hex.EncodeToString (sha256.Sum data) +:+ ".req"],
                                data)
                      end), σ')
          /\ view σ' request' = view σ request).
Proof.
  unfold NewRequestRecorderMiddleware. intros Hnew Hin.
  set (params' := if decide (RequestRecorderMiddlewareParams.Dir params = "") then _
                  else params) in Hnew.
  destruct (mkdirAll _) as [e|]; [done|]. injection Hnew as <-.
  assert (RequestRecorderMiddlewareParams.Enabled params'
          = RequestRecorderMiddlewareParams.Enabled params
          /\ RequestRecorderMiddlewareParams.RequestFilters params'
             = RequestRecorderMiddlewareParams.RequestFilters params
          /\ RequestRecorderMiddlewareParams.URLMapper params'
             = RequestRecorderMiddlewareParams.URLMapper params
          /\ RequestRecorderMiddlewareParams.Dir params' = recordDir tempDir params)
    as (Henabled & Hfilters & Hmapper & Hdir).
  { unfold params', recordDir.
    by destruct (decide (RequestRecorderMiddlewareParams.Dir params = "")). }
  split.
  - intros Hoff. unfold recordRequest. by rewrite Henabled, Hoff.
  - intros data err Hon Hcanon.
    destruct (recordRequest_enabled params' request σ data err) as (request' & σ' & Hcall & Hview).
    + by rewrite Henabled.
    + done.
    + unfold mappedURL in *. by rewrite Hmapper, Hfilters.
    + exists request', σ'. split; [|done]. rewrite Hcall. by rewrite Hdir.
Qed.

(* ===================================================================== *)
(** * The further properties at concrete inputs *)

(** X1 at a request with a body of five bytes. *)
Lemma CloneRequestWithBody_independent_bodies_witness :
  bodyIn ["hello"] postedRequest
  /\ exists (r1 clone : http.Request loc) (σ' : Store),
       CloneRequestWithBody postedRequest ["hello"] = Returns ((r1, clone), σ')
       /\ view σ' r1 = view ["hello"] postedRequest
       /\ view σ' clone = view ["hello"] postedRequest
       /\ (forall (content : string) (σa : Store),
             http.ReadFrom (http.Body_ clone) σ' = Returns (content, σa) ->
             view σa r1 = view ["hello"] postedRequest).
Proof.
  split; [exact bodyIn_postedRequest|].
  destruct (CloneRequestWithBody_independent_bodies postedRequest ["hello"]
              bodyIn_postedRequest)
    as (r1 & clone & σ' & Hcall & Hv1 & Hv2 & Hread & _).
  exists r1, clone, σ'. auto.
Defined.

(** X2 at a response with a body of four bytes. *)
Lemma CloneResponseWithBody_independent_bodies_witness :
  (0 < length ["body"])%nat
  /\ exists (r1 clone : http.Response loc) (σ' : Store),
       CloneResponseWithBody answered ["body"] = Returns ((r1, clone), σ')
       /\ viewResponse σ' r1 = viewResponse ["body"] answered
       /\ viewResponse σ' clone = viewResponse ["body"] answered.
Proof.
  assert (0 < length ["body"])%nat as Hin by (simpl; lia).
  split; [exact Hin|].
  destruct (CloneResponseWithBody_independent_bodies answered ["body"] Hin)
    as (r1 & clone & σ' & Hcall & Hv1 & Hv2 & _).
  exists r1, clone, σ'. auto.
Defined.

(** X3 at a header recorded twice, in two spellings. *)
Lemma ToHTTPHeader_keys_canonical_witness :
  Headers.ToHTTPHeader [Header.mk "content-type" "application/json";
                        Header.mk "Content-Type" "text/plain"] !! "Content-Type"
  = Some ["application/json"; "text/plain"]
  /\ http.CanonicalMIMEHeaderKey "Content-Type" = "Content-Type"
  /\ ["application/json"; "text/plain"] <> [].
Proof.
  assert (Headers.ToHTTPHeader [Header.mk "content-type" "application/json";
                                Header.mk "Content-Type" "text/plain"] !! "Content-Type"
          = Some ["application/json"; "text/plain"]) as Hlookup
    by (vm_compute; reflexivity).
  split; [exact Hlookup|].
  destruct (ToHTTPHeader_keys_canonical _ _ _ Hlookup) as (Hcanon & Hne & _).
  auto.
Defined.

(** X6 at an entry whose URL has no scheme. *)
Lemma cacheEntry_panics_on_unparsable_url_witness :
  url.Parse (Request.Url (Entry.Request unparsable)) = None
  /\ cacheEntry emptyTransport unparsable []
     = Panics "runtime error: invalid memory address or nil pointer dereference".
Proof.
  assert (url.Parse (Request.Url (Entry.Request unparsable)) = None) as Hparse
    by (vm_compute; reflexivity).
  split; [exact Hparse|].
  exact (proj2 (cacheEntry_panics_on_unparsable_url emptyTransport unparsable [] Hparse
                  (fun q => eq_refl))).
Defined.

(** X8 at the request of the package's test. *)
Lemma HashRequest_key_is_digest_of_buffer_witness :
  exists (r1 : http.Request loc) (data : string) (σ1 : Store),
    RequestToBuff testRequest [] [""] = Returns ((r1, data), σ1)
    /\ exists (r2 : http.Request loc) (σ2 : Store),
         HashRequest r1 [] σ1
         = Returns ((r2, (hex.EncodeToString (sha256.Sum data), None)), σ2).
Proof.
  eexists _, _, _.
  match goal with
  | |- ?call /\ _ => assert call as Hcall by (vm_compute; reflexivity)
  end.
  split; [exact Hcall|].
  destruct (HashRequest_key_is_digest_of_buffer testRequest _ [] [""] _ _
              bodyIn_testRequest Hcall)
    as (r2 & hashKey & err & σ2 & Hhash & Hkey & Hempty & _).
  exists r2, σ2. destruct err as [e|].
  - destruct (Hempty ltac:(by eexists)) as [_ Hdata]. discriminate Hdata.
  - by rewrite <- (Hkey eq_refl).
Defined.

(** X9 at a new recorder and the request of the package's test. *)
Lemma intercept_appends_one_record_witness :
  exists (data : string) (r' : http.Request loc) (σ' : Store),
    canonical (view [""] testRequest) (RequestRecorder.filters NewRequestRecorder)
    = Returns (data, None)
    /\ intercept NewRequestRecorder testRequest [""]
       = Returns ((RequestRecorder.mk [RequestRecord.mk keyOfTest data] [] false, r'), σ')
    /\ view σ' r' = view [""] testRequest.
Proof.
  eexists _.
  match goal with
  | |- exists r' σ', ?canon /\ _ =>
      assert canon as Hcanon by (vm_compute; reflexivity)
  end.
  destruct (intercept_appends_one_record NewRequestRecorder testRequest [""] _ None
              bodyIn_testRequest Hcanon)
    as (r' & σ' & Hcall & _ & Hview & _).
  exists r', σ'. split; [exact Hcanon|]. split; [|exact Hview].
  rewrite Hcall. vm_compute. reflexivity.
Defined.

Lemma bodyIn_malformed : bodyIn [""] malformed.
Proof. unfold bodyIn. simpl. lia. Defined.

(** X10 at a request whose method is not a token. *)
Lemma RoundTrip_hash_failure_witness :
  exists (e : string) (request' : http.Request loc) (σ' : Store),
    liveKey twoFixtures (view [""] malformed) = Returns ("", Some e)
    /\ RoundTrip twoFixtures [(keyOfGet, getResource); (keyOfPost, postResource)]
         malformed [""]
       = Returns ((request', (None, Some ("failed to hash request: " +:+ e))), σ').
Proof.
  eexists _.
  match goal with
  | |- exists request' σ', ?key /\ _ => assert key as Hkey by (vm_compute; reflexivity)
  end.
  destruct (RoundTrip_hash_failure twoFixtures
              [(keyOfGet, getResource); (keyOfPost, postResource)] malformed [""] _ _
              bodyIn_malformed Hkey)
    as (request' & σ' & Hcall & _).
  exists request', σ'. split; [exact Hkey|exact Hcall].
Defined.

Lemma bodyIn_unrecordedRequest : bodyIn [""] unrecordedRequest.
Proof. unfold bodyIn. simpl. lia. Defined.

(** X11 at the transport of the two fixtures with the debugger installed,
    and a request that was not recorded. *)
Lemma RoundTrip_miss_with_debugger_witness :
  exists (incoming : string) (ss : list string) (request' : http.Request loc) (σ' : Store),
    canonical (applyFilters [] (view [""] unrecordedRequest)) [] = Returns (incoming, None)
    /\ harResponseCache twoFixturesDebugged !! hex.EncodeToString (sha256.Sum incoming)
       = None
    /\ length ss = 2%nat
    /\ RoundTrip twoFixturesDebugged [(keyOfGet, getResource); (keyOfPost, postResource)]
         unrecordedRequest [""]
       = Returns ((request',
                   (None, Some ("no cached response for this request: "
                                +:+ http.concatStrings ss))), σ').
Proof.
  eexists _, _.
  match goal with
  | |- exists request' σ', ?canon /\ ?miss /\ _ /\ _ =>
      assert canon as Hcanon by (vm_compute; reflexivity);
      assert miss as Hmiss by (vm_compute; reflexivity)
  end.
  match type of Hcanon with
  | _ = Returns (?incoming, None) =>
      match goal with
      | |- exists request' σ', _ /\ _ /\ length ?ss = _ /\ _ =>
          assert (sections plainDiffer [] (hex.EncodeToString (sha256.Sum incoming)) incoming
                    [(keyOfGet, getResource); (keyOfPost, postResource)] = Returns ss)
            as Hsections by (vm_compute; reflexivity)
      end
  end.
  destruct (RoundTrip_miss_with_debugger plainDiffer twoFixturesDebugged
              [(keyOfGet, getResource); (keyOfPost, postResource)] unrecordedRequest [""]
              _ _ bodyIn_unrecordedRequest eq_refl Hcanon Hmiss Hsections)
    as (request' & σ' & Hcall & _).
  exists request', σ'. splits; [exact Hcanon|exact Hmiss|reflexivity|exact Hcall].
Defined.

Lemma bodyIn_authorized : bodyIn [""] authorized.
Proof. unfold bodyIn. simpl. lia. Defined.

(** X12 at a transport that deletes the credential of the request it is
    sent. *)
Lemma RoundTrip_filters_the_callers_request_witness :
  exists (request' : http.Request loc) (out : option (http.Response loc) * error)
         (σ' : Store),
    http.Get (http.Hdr authorized) "Authorization" = "Bearer 0123456789"
    /\ RoundTrip redacting [(keyOfGet, getResource)] authorized [""]
       = Returns ((request', out), σ')
    /\ view σ' request' = applyFilters [delHeader "Authorization"] (view [""] authorized)
    /\ http.Get (http.Hdr request') "Authorization" = "".
Proof.
  eexists _, _, _.
  match goal with
  | |- _ /\ ?call /\ _ => assert call as Hcall by (vm_compute; reflexivity)
  end.
  split; [vm_compute; reflexivity|]. split; [exact Hcall|].
  split; [|vm_compute; reflexivity].
  exact (proj1 (RoundTrip_filters_the_callers_request redacting [(keyOfGet, getResource)]
                  authorized _ [""] _ _ bodyIn_authorized eq_refl Hcall)).
Defined.

(** X13 at a filter option, an option whose file is missing, and an
    option that is not reached. *)
Lemma NewReplayTransport_stops_at_first_error_witness :
  exists (rt : ReplayTransport) (e : string),
    NewReplayTransport [WithDelHeaderFilter "Authorization"] []
    = Returns ((mkReplayTransport ∅ ∅ [delHeader "Authorization"] [] None, None), [])
    /\ WithHarFile oneBadRecording "testdata/missing.har"
         (mkReplayTransport ∅ ∅ [delHeader "Authorization"] [] None) []
       = Returns ((rt, Some e), [])
    /\ NewReplayTransport ([WithDelHeaderFilter "Authorization"]
                           ++ WithHarFile oneBadRecording "testdata/missing.har"
                              :: [WithHarFile twoRecordings "testdata/two.har"]) []
       = Returns ((rt, Some e), [])
    /\ harResponseCache rt = ∅.
Proof.
  eexists _, _.
  match goal with
  | |- ?before /\ ?opt /\ _ =>
      assert before as Hbefore by reflexivity;
      assert opt as Hopt by (vm_compute; reflexivity)
  end.
  split; [exact Hbefore|]. split; [exact Hopt|]. split; [|reflexivity].
  exact (NewReplayTransport_stops_at_first_error
           [WithDelHeaderFilter "Authorization"]
           [WithHarFile twoRecordings "testdata/two.har"]
           (WithHarFile oneBadRecording "testdata/missing.har")
           _ _ _ [] [] [] Hbefore Hopt).
Defined.

(** X14 at the recording of the two fixtures. *)
Lemma WithHarFile_builds_cache_witness :
  LoadHarFile twoRecordings "testdata/two.har" = (harOf [postResource; getResource], None)
  /\ (forall entry : Entry.t,
        entry ∈ Log.Entries (HarFile.Log (harOf [postResource; getResource])) ->
        exists out : string * error, storedKey emptyTransport entry = Returns out)
  /\ exists (r' : ReplayTransport) (σ' : Store),
       WithHarFile twoRecordings "testdata/two.har" emptyTransport []
       = Returns ((r', None), σ')
       /\ harResponseCache r' !! keyOfGet = Some getResource
       /\ harResponseCache r' !! keyOfPost = Some postResource.
Proof.
  assert (forall entry : Entry.t,
            entry ∈ Log.Entries (HarFile.Log (harOf [postResource; getResource])) ->
            exists out : string * error, storedKey emptyTransport entry = Returns out)
    as Hkeyed.
  { intros entry Hentry. simpl in Hentry.
    apply elem_of_cons in Hentry as [->|Hentry]; [eexists; vm_compute; reflexivity|].
    apply elem_of_cons in Hentry as [->|Hentry]; [eexists; vm_compute; reflexivity|].
    destruct (proj1 (elem_of_nil _) Hentry). }
  split; [reflexivity|]. split; [exact Hkeyed|].
  destruct (WithHarFile_builds_cache twoRecordings "testdata/two.har" emptyTransport
              (harOf [postResource; getResource]) [] eq_refl Hkeyed)
    as (r' & σ' & Hcall & _ & _ & _ & Hlast & _).
  exists r', σ'. splits.
  - rewrite Hcall. vm_compute. reflexivity.
  - apply (Hlast [postResource] [] getResource keyOfGet eq_refl);
      [vm_compute; reflexivity|]. intros later Hlater. destruct (proj1 (elem_of_nil _) Hlater).
  - apply (Hlast [] [getResource] postResource keyOfPost eq_refl);
      [vm_compute; reflexivity|]. intros later Hlater.
    apply elem_of_cons in Hlater as [->|Hlater]; [|destruct (proj1 (elem_of_nil _) Hlater)].
    vm_compute. discriminate.
Defined.

(** X15 at a directory with a note and two recordings, one of them in a
    directory of its own. *)
Lemma WithHarDir_loads_har_files_witness :
  readable recordingsDir = true
  /\ harFilesUnder "testdata" recordingsDir = ["testdata/nested/two.har"; "testdata/one.har"]
  /\ WithHarDir twoRecordings (filepath.Exists recordingsDir) "testdata" emptyTransport []
     = applyOptions
         (WithHarFile twoRecordings <$> harFilesUnder "testdata" recordingsDir)
         emptyTransport [].
Proof.
  split; [reflexivity|]. split; [vm_compute; reflexivity|].
  exact (proj1 (WithHarDir_loads_har_files twoRecordings recordingsDir "testdata"
                  emptyTransport [] eq_refl)).
Defined.

(** X16 at the key of the request of the package's test. *)
Lemma HashRequest_key_form_witness :
  String.length keyOfTest = 64%nat /\ http.allBytes isHexDigit keyOfTest = true.
Proof.
  exact (proj1 (HashRequest_key_form testRequest _ [] [""] _ keyOfTest None
                  HashRequest_testRequest) eq_refl).
Defined.

(** X17 at the GET fixture, cached by a transport that deletes the
    credential, and the recorded request sent with a credential. *)
Lemma header_deleting_transport_replays_witness :
  exists (r : ReplayTransport) (σ1 : Store),
    cacheEntry (mkReplayTransport ∅ ∅ [delHeader "Authorization"] [] None) getResource []
    = Returns ((r, None), σ1)
    /\ bodyIn [""] authorized
    /\ http.hasBody authorized = true
    /\ applyFilters (delHeader <$> ["Authorization"]) (view [""] authorized)
       = applyFilters (delHeader <$> ["Authorization"])
           (recordedRequest (Entry.Request getResource))
    /\ exists (request' : http.Request loc) (response : http.Response loc) (τ σ' : Store),
         RoundTrip r [(keyOfGet, getResource)] authorized [""]
         = Returns ((request', (Some response, None)), σ')
         /\ Response.Factory (Entry.Response getResource) τ = Returns (response, σ').
Proof.
  eexists _, _.
  match goal with
  | |- ?call /\ _ => assert call as Hcall by (vm_compute; reflexivity)
  end.
  assert (applyFilters (delHeader <$> ["Authorization"]) (view [""] authorized)
          = applyFilters (delHeader <$> ["Authorization"])
              (recordedRequest (Entry.Request getResource))) as Hsame
    by (vm_compute; reflexivity).
  split; [exact Hcall|]. split; [exact bodyIn_authorized|]. split; [reflexivity|].
  split; [exact Hsame|].
  destruct (header_deleting_transport_replays
              (mkReplayTransport ∅ ∅ [delHeader "Authorization"] [] None) _
              ["Authorization"] getResource [(keyOfGet, getResource)] authorized [] _ [""]
              eq_refl Hcall bodyIn_authorized eq_refl Hsame)
    as (request' & response & τ & σ' & Hround & Hfactory & _).
  exists request', response, τ, σ'. split; [exact Hround|exact Hfactory].
Defined.

(** X18 at the recorded GET request. *)
Lemma bodyless_method_ignores_empty_reader_witness :
  http.Body_ getRequest = http.Reader 0%nat
  /\ unread [""] 0%nat = ""
  /\ http.ContentLength getRequest = 0
  /\ Fingerprint (http.withBody getRequest http.NoBody) (delHeader <$> ["Authorization"]) [""]
     = Fingerprint getRequest (delHeader <$> ["Authorization"]) [""].
Proof.
  split; [reflexivity|]. split; [reflexivity|]. split; [reflexivity|].
  exact (proj1 (bodyless_method_ignores_empty_reader getRequest 0%nat ["Authorization"] [""]
                  eq_refl ltac:(simpl; lia) eq_refl eq_refl eq_refl)).
Defined.

(** X19 at the request of the package's test, a POST. *)
Lemma posting_method_tells_empty_reader_witness :
  exists (r1 r2 : http.Request loc) (data data' : string) (σ1 σ2 : Store),
    http.Method testRequest ∈ ["POST"; "PUT"; "PATCH"]
    /\ RequestToBuff testRequest (delHeader <$> []) [""] = Returns ((r1, data), σ1)
    /\ data <> ""
    /\ RequestToBuff (http.withBody testRequest http.NoBody) (delHeader <$> []) [""]
       = Returns ((r2, data'), σ2)
    /\ data' <> data.
Proof.
  assert (http.Method testRequest ∈ ["POST"; "PUT"; "PATCH"]) as Hmethod by left.
  assert (exists (r1 : http.Request loc) (data : string) (σ1 : Store),
            RequestToBuff testRequest (delHeader <$> []) [""] = Returns ((r1, data), σ1)
            /\ data <> "") as (r1 & data & σ1 & Hcall & Hdata).
  { eexists _, _, _. split; [vm_compute; reflexivity|]. discriminate. }
  destruct (posting_method_tells_empty_reader testRequest r1 0%nat [] [""] σ1 data
              eq_refl ltac:(simpl; lia) eq_refl eq_refl Hmethod Hcall Hdata)
    as (r2 & data' & σ2 & Hcall2 & Hne).
  exists r1, r2, data, data', σ1, σ2.
  split; [exact Hmethod|]. split; [exact Hcall|]. split; [exact Hdata|].
  split; [exact Hcall2|exact Hne].
Defined.

Lemma bodyIn_bodyless : bodyIn [] bodyless.
Proof. exact I. Defined.

(** X21 at the GET request of the middleware test. *)
Lemma recording_middleware_names_file_by_digest_witness :
  exists (data : string) (request' : http.Request loc) (σ' : Store),
    NewRequestRecorderMiddleware "/tmp" (fun _ => None) recorderParams
    = (Some (recordRequest recorderParams), None)
    /\ canonical (mappedURL recorderParams (view [] bodyless))
                 (RequestRecorderMiddlewareParams.RequestFilters recorderParams)
       = Returns (data, None)
    /\ recordRequest recorderParams bodyless []
       = Returns ((request',
                   Some ("/tmp/proxy_recorder/"
                         +:+ "8f34da1cdd7de57aba9591986c6a991672044a47a816944bd20eb3a2bd66a2a0"
                         +:+ ".req", data)), σ')
    /\ view σ' request' = view [] bodyless.
Proof.
  eexists _.
  match goal with
  | |- exists request' σ', _ /\ ?canon /\ _ =>
      assert canon as Hcanon by (vm_compute; reflexivity)
  end.
  destruct (proj2 (recording_middleware_names_file_by_digest "/tmp" (fun _ => None)
                     recorderParams (recordRequest recorderParams) bodyless []
                     eq_refl bodyIn_bodyless)
              _ None eq_refl Hcanon)
    as (request' & σ' & Hcall & Hview).
  exists request', σ'. split; [reflexivity|]. split; [exact Hcanon|]. split; [|exact Hview].
  rewrite Hcall. vm_compute. reflexivity.
Defined.

(** X20 at the recording of the two fixtures, loaded by a transport that
    deletes the credential, and the recorded request sent with one. *)
Lemma replay_with_deleted_headers_witness :
  exists (r : ReplayTransport) (err : error) (σ1 : Store) (request' : http.Request loc)
         (response : http.Response loc) (τ σ' : Store),
    NewReplayTransport ((WithDelHeaderFilter <$> ["Authorization"])
                        ++ [WithHarFile twoRecordings "testdata/two.har"]) []
    = Returns ((r, err), σ1)
    /\ requestFilters r = delHeader <$> ["Authorization"]
    /\ harResponseCache r !! keyOfGet = Some getResource
    /\ RoundTrip r [(keyOfGet, getResource); (keyOfPost, postResource)] authorized [""]
       = Returns ((request', (Some response, None)), σ')
    /\ Response.Factory (Entry.Response getResource) τ = Returns (response, σ').
Proof.
  apply (replay_with_deleted_headers twoRecordings "testdata/two.har"
           (harOf [postResource; getResource]) ["Authorization"] [postResource] []
           getResource keyOfGet).
  - reflexivity.
  - intros e He. simpl in He.
    apply elem_of_cons in He as [->|He]; [eexists; vm_compute; reflexivity|].
    apply elem_of_cons in He as [->|He]; [eexists; vm_compute; reflexivity|].
    destruct (proj1 (elem_of_nil _) He).
  - reflexivity.
  - vm_compute. reflexivity.
  - intros later Hlater. destruct (proj1 (elem_of_nil _) Hlater).
  - exact bodyIn_authorized.
  - reflexivity.
  - vm_compute. reflexivity.
Defined.

(** ** The path functions against known values *)

Example filepath_Clean_values :
  filepath.Clean "" = "." /\ filepath.Clean "abc//def//ghi" = "abc/def/ghi"
  /\ filepath.Clean "abc/def/../ghi/../jkl" = "abc/jkl"
  /\ filepath.Clean "abc/def/../../.." = ".." /\ filepath.Clean "/abc/def/../../.." = "/"
  /\ filepath.Clean "abc/../../././../def" = "../../def" /\ filepath.Clean "/../abc" = "/abc"
  /\ filepath.Clean "abc/./../def" = "def" /\ filepath.Clean "a/..." = "a/...".
Proof. vm_compute. repeat split. Qed.

Example filepath_Join_Ext_values :
  filepath.Join ["a"; "b/c"] = "a/b/c" /\ filepath.Join ["a"; ""] = "a"
  /\ filepath.Join [""; ""] = "" /\ filepath.Join ["a/b"; "../../../xyz"] = "../xyz"
  /\ filepath.Join ["/tmp/"; "proxy-recorder"; "requests"] = "/tmp/proxy-recorder/requests"
  /\ filepath.Ext "testdata/one.har" = ".har" /\ filepath.Ext "one.har/notes" = ""
  /\ filepath.Ext "archive.tar.gz" = ".gz" /\ filepath.Ext "testdata/" = "".
Proof. vm_compute. repeat split. Qed.
